(** * Stock Hunter Pro: the analysis pipeline, embedded and verified

    The development follows the three analytic modules of the repository:

    - [src/utils/data_fetcher.py]       (class [DataFetcher]):
      technical indicators derived from a daily price frame;
    - [src/utils/rs_calculator.py]      (class [RSRatingCalculator]):
      the relative-strength rating against the S&P 500;
    - [src/utils/minervini_criteria.py] (class [MinerviniAnalyzer]):
      the seven-rule trend template.

    and their caller, [analyze_single_stock] of [src/app.py], with the
    summary statistics of a run.

    Numbers.  A Python/numpy float is modelled by [float]: an exact rational
    ([Fin q]) or one of the three IEEE special values ([PInf], [NInf], [NaN]).
    The special values follow IEEE-754 as Python and numpy implement it; on
    finite values arithmetic is exact, so binary rounding, overflow to
    infinity and the sign of zero are outside the model.  The theorems
    are kept to what does not rest on that exactness: which branch is taken,
    which keys are present, signs and the bounds that monotone operations
    preserve, and values on inputs where the arithmetic of the code is exact
    as well.  A property that holds of exact means but not of rounded ones
    is not stated.  Python integers are
    [Z].  An exception is a [Raise] in the [result] monad and is handled
    where the source's [except] handles it.

    Data.  A pandas frame is the list of its daily bars, in row order, each
    carrying its index label [date]; a dictionary read with [.get] is a
    record of optional fields; the insertion-ordered [details] dictionary
    is an association list.  Network access ([yfinance]) is outside the
    model: the functions take the fetched frames as arguments, and the
    stateful ones (the retry loop, the benchmark cache) take what the
    provider and the clock would answer, call by call.

    Layout.  The embedding of the three modules comes first, then the
    vocabulary of the statements, then the lemmas and theorems. *)

From Stdlib Require Import ZArith QArith Qround Qabs List String Ascii Bool Lia Lqa.
From Stdlib Require Import DecimalString Sorted.
Import ListNotations.

Local Open Scope Z_scope.

(* ================================================================== *)
(** * Exceptions                                                        *)
(* ================================================================== *)

Module Py.

Inductive exn : Type :=
| ZeroDivisionError
| ValueError
| OverflowError
| IndexError.

(** The outcome of a Python expression: a value, or a raised exception. *)
Inductive result (A : Type) : Type :=
| Ok (a : A)
| Raise (e : exn).

Arguments Ok {A} a.
Arguments Raise {A} e.

Definition bind {A B : Type} (m : result A) (k : A -> result B) : result B :=
  match m with
  | Ok a => k a
  | Raise e => Raise e
  end.

(** [try: m  except Exception: d]. *)
Definition try_except {A : Type} (m : result A) (handler : exn -> A) : A :=
  match m with
  | Ok a => a
  | Raise e => handler e
  end.

Definition of_option {A : Type} (e : exn) (o : option A) : result A :=
  match o with
  | Some a => Ok a
  | None => Raise e
  end.

End Py.

Import Py.

Declare Scope py_scope.
Delimit Scope py_scope with py.
Notation "x <- m ;; k" := (bind m (fun x => k))
  (at level 61, m at next level, right associativity) : py_scope.

(* ================================================================== *)
(** * Floats                                                            *)
(* ================================================================== *)

Module PyFloat.

(** A Python or numpy float.  [Fin q] stands for a finite double of value
    [q]; the operations below compute on finite values exactly, without the
    rounding to 53 bits and without overflow to an infinity, so a result
    [Fin q] is the exact value of which the code holds the rounded one. *)
Inductive float : Type :=
| Fin (q : Q)
| PInf
| NInf
| NaN.

Definition is_nan (x : float) : bool :=
  match x with NaN => true | _ => false end.

(** [pd.isna] on a scalar. *)
Definition isna (x : float) : bool := is_nan x.

Definition is_finite (x : float) : bool :=
  match x with Fin _ => true | _ => false end.

Definition fopp (x : float) : float :=
  match x with
  | Fin q => Fin (- q)
  | PInf => NInf
  | NInf => PInf
  | NaN => NaN
  end.

Definition fadd (x y : float) : float :=
  match x, y with
  | NaN, _ | _, NaN => NaN
  | Fin a, Fin b => Fin (a + b)
  | PInf, NInf | NInf, PInf => NaN
  | PInf, _ | _, PInf => PInf
  | NInf, _ | _, NInf => NInf
  end.

Definition fsub (x y : float) : float := fadd x (fopp y).

(** The infinity carrying the sign of [c] (the comparison of a finite
    factor with zero); zero times infinity is [NaN]. *)
Definition signed_inf (c : comparison) (pos : bool) : float :=
  match c with
  | Eq => NaN
  | Gt => if pos then PInf else NInf
  | Lt => if pos then NInf else PInf
  end.

Definition fmul (x y : float) : float :=
  match x, y with
  | NaN, _ | _, NaN => NaN
  | Fin a, Fin b => Fin (a * b)
  | Fin a, PInf | PInf, Fin a => signed_inf (a ?= 0)%Q true
  | Fin a, NInf | NInf, Fin a => signed_inf (a ?= 0)%Q false
  | PInf, PInf | NInf, NInf => PInf
  | PInf, NInf | NInf, PInf => NInf
  end.

(** Division of numpy scalars ([numpy.float64.__truediv__]): a zero divisor
    yields an infinity or [NaN], never an exception. *)
Definition np_div (x y : float) : float :=
  match x, y with
  | NaN, _ | _, NaN => NaN
  | Fin a, Fin b =>
      if Qeq_bool b 0
      then match (a ?= 0)%Q with Eq => NaN | Gt => PInf | Lt => NInf end
      else Fin (a / b)
  | Fin _, PInf | Fin _, NInf => Fin 0
  | PInf, Fin b => if Qle_bool 0 b then PInf else NInf
  | NInf, Fin b => if Qle_bool 0 b then NInf else PInf
  | _, _ => NaN
  end.

Definition is_zero (x : float) : bool :=
  match x with Fin q => Qeq_bool q 0 | _ => false end.

(** Division of Python floats ([float.__truediv__]): a zero divisor raises
    [ZeroDivisionError]. *)
Definition py_div (x y : float) : result float :=
  if is_zero y then Raise ZeroDivisionError else Ok (np_div x y).

(** Ordering; every comparison with [NaN] is false. *)
Definition fcompare (x y : float) : option comparison :=
  match x, y with
  | NaN, _ | _, NaN => None
  | Fin a, Fin b => Some (a ?= b)%Q
  | PInf, PInf | NInf, NInf => Some Eq
  | _, PInf | NInf, _ => Some Lt
  | PInf, _ | _, NInf => Some Gt
  end.

Definition fltb (x y : float) : bool :=
  match fcompare x y with Some Lt => true | _ => false end.
Definition fleb (x y : float) : bool :=
  match fcompare x y with Some Lt | Some Eq => true | _ => false end.
Definition fgtb (x y : float) : bool := fltb y x.
Definition fgeb (x y : float) : bool := fleb y x.

Definition fabs (x : float) : float :=
  match x with
  | Fin q => Fin (Qabs q)
  | PInf | NInf => PInf
  | NaN => NaN
  end.

(** Python truthiness of a float: only zero is falsy ([NaN] is truthy). *)
Definition truthy (x : float) : bool := negb (is_zero x).

(** Builtin [min(a, b)] and [max(a, b)]: the first argument is kept unless
    the second compares strictly below (above) it. *)
Definition py_min (a b : float) : float := if fltb b a then b else a.
Definition py_max (a b : float) : float := if fgtb b a then b else a.

(** Truncation toward zero. *)
Definition Qtrunc (q : Q) : Z := Z.quot (Qnum q) (Zpos (Qden q)).

(** Builtin [int(x)]: [ValueError] on [NaN], [OverflowError] on an
    infinity. *)
Definition py_int (x : float) : result Z :=
  match x with
  | Fin q => Ok (Qtrunc q)
  | NaN => Raise ValueError
  | PInf | NInf => Raise OverflowError
  end.

Definition of_Z (z : Z) : float := Fin (inject_Z z).

(** True division of Python integers, [a / b]. *)
Definition int_truediv (a b : Z) : result float :=
  if b =? 0 then Raise ZeroDivisionError
  else Ok (Fin (inject_Z a / inject_Z b)).

(** Equality of floats as numbers: rationals are compared by value, not by
    representation. *)
Definition feq (x y : float) : Prop :=
  match x, y with
  | Fin a, Fin b => (a == b)%Q
  | PInf, PInf | NInf, NInf | NaN, NaN => True
  | _, _ => False
  end.

(** Nearest integer, ties to even. *)
Definition round_half_even (q : Q) : Z :=
  let f := Qfloor q in
  match (q - inject_Z f ?= 1 # 2)%Q with
  | Lt => f
  | Gt => f + 1
  | Eq => if Z.even f then f else f + 1
  end.

Definition pow10 (n : nat) : Z := 10 ^ Z.of_nat n.

(** Builtin [round(x, ndigits)] on a float. *)
Definition py_round (x : float) (ndigits : nat) : float :=
  match x with
  | Fin q =>
      Fin (inject_Z (round_half_even (q * inject_Z (pow10 ndigits)))
           / inject_Z (pow10 ndigits))
  | _ => x
  end.

Definition string_of_Z (z : Z) : string := NilZero.string_of_int (Z.to_int z).

Fixpoint zeros (n : nat) : string :=
  match n with
  | O => EmptyString
  | S m => String "0" (zeros m)
  end.

Definition zero_pad (width : nat) (s : string) : string :=
  (zeros (width - String.length s) ++ s)%string.

(** The format specification [:.Nf]. *)
Definition format_f (ndigits : nat) (x : float) : string :=
  match x with
  | NaN => "nan"
  | PInf => "inf"
  | NInf => "-inf"
  | Fin q =>
      let scaled := Z.abs (round_half_even (q * inject_Z (pow10 ndigits))) in
      let whole := string_of_Z (scaled / pow10 ndigits) in
      let frac := zero_pad ndigits (string_of_Z (scaled mod pow10 ndigits)) in
      let sign := if Qlt_le_dec q 0 then "-" else EmptyString in
      match ndigits with
      | O => sign ++ whole
      | _ => sign ++ whole ++ "." ++ frac
      end
  end%string.

End PyFloat.

Import PyFloat.

(* ================================================================== *)
(** * The pandas operations the pipeline uses                           *)
(* ================================================================== *)

Module Pandas.

Local Open Scope nat_scope.

(** One daily bar of a price-history frame; [date] is the index label. *)
Record Bar : Type := mkBar {
  date : Z;
  Open : float;
  High : float;
  Low : float;
  Close : float;
  Volume : float
}.

(** A frame is its rows plus the three moving-average columns, absent until
    [_calculate_indicators] assigns them. *)
Record DataFrame : Type := mkFrame {
  rows : list Bar;
  MA_50 : option (list float);
  MA_150 : option (list float);
  MA_200 : option (list float)
}.

Definition frame_of (bars : list Bar) : DataFrame := mkFrame bars None None None.

(** [df.empty] *)
Definition empty (df : DataFrame) : bool :=
  match rows df with [] => true | _ => false end.

(** [s.iloc[-k]] for [k >= 1]; out of range is an [IndexError]. *)
Definition iloc_neg {A : Type} (l : list A) (k : nat) : result A :=
  if (1 <=? k) && (k <=? List.length l)
  then of_option IndexError (nth_error l (List.length l - k))
  else Raise IndexError.

(** [s.tail(n)] *)
Definition tail {A : Type} (n : nat) (l : list A) : list A :=
  skipn (List.length l - n) l.

Definition dropna_values (l : list float) : list float :=
  filter (fun x => negb (isna x)) l.

Definition fsum (l : list float) : float := fold_left fadd l (Fin 0).

(** The mean of the observations of [l], [NaN] when there is none. *)
Definition mean_of (obs : list float) : float :=
  match obs with
  | [] => NaN
  | _ => np_div (fsum obs) (of_Z (Z.of_nat (List.length obs)))
  end.

(** [s.mean()], [s.max()], [s.min()]: missing values are skipped. *)
Definition mean (l : list float) : float := mean_of (dropna_values l).

Definition max (l : list float) : float :=
  match dropna_values l with
  | [] => NaN
  | x :: xs => fold_left (fun acc y => if fltb acc y then y else acc) xs x
  end.

Definition min (l : list float) : float :=
  match dropna_values l with
  | [] => NaN
  | x :: xs => fold_left (fun acc y => if fltb y acc then y else acc) xs x
  end.

(** The rows [max(0, i - w + 1) .. i] of a column. *)
Definition window (w i : nat) (l : list float) : list float :=
  skipn (S i - w) (firstn (S i) l).

(** [s.rolling(window=w, min_periods=m).mean()]: at each row the mean of the
    observations in the trailing window, [NaN] when fewer than [m] of them
    are present. *)
Definition rolling_mean_at (w m : nat) (l : list float) (i : nat) : float :=
  let obs := dropna_values (window w i l) in
  if m <=? List.length obs then mean_of obs else NaN.

Definition rolling_mean (w m : nat) (l : list float) : list float :=
  map (rolling_mean_at w m l) (seq 0 (List.length l)).

End Pandas.

(* ================================================================== *)
(** * The stock-data dictionary                                         *)
(* ================================================================== *)

(** The value stored under ['error']: a literal message, or [str(e)] of a
    caught exception. *)
Inductive error_value : Type :=
| ErrText (s : string)
| ErrStr (e : exn).

(** The dictionary that [DataFetcher] produces and the two analysers read
    with [stock_data.get(key, default)]: a field is [None] when the key is
    absent. *)
Record StockData : Type := mkStockData {
  symbol : option string;
  error : option error_value;
  price : option float;
  ma_50 : option float;
  ma_150 : option float;
  ma_200 : option float;
  week_52_high : option float;
  week_52_low : option float;
  from_high_pct : option float;
  from_low_pct : option float;
  ma_50_trending_up : option bool;
  ma_150_trending_up : option bool;
  ma_200_trending_up : option bool;
  price_vs_ma_50 : option float;
  price_vs_ma_150 : option float;
  price_vs_ma_200 : option float;
  volume : option Z;
  avg_volume : option Z;
  volume_ratio : option float;
  historical_data : option Pandas.DataFrame
}.

(** [{}] *)
Definition empty_dict : StockData :=
  mkStockData None None None None None None None None None None
              None None None None None None None None None None.

(** [{'symbol': symbol, 'error': e}] *)
Definition error_dict (sym : string) (e : error_value) : StockData :=
  mkStockData (Some sym) (Some e) None None None None None None None None
              None None None None None None None None None None.

(** [d.get(key, default)] *)
Definition get {A : Type} (field : option A) (default : A) : A :=
  match field with Some v => v | None => default end.

(* ================================================================== *)
(** * data_fetcher.py                                                   *)
(* ================================================================== *)

Module DataFetcher.

Import Pandas.
Local Open Scope py_scope.

(** [DataFetcher._is_trending_up] *)
Definition _is_trending_up (ma_series : list float) (lookback : nat) : bool :=
  try_except
    (if (List.length ma_series <? lookback + 1)%nat then Ok false
     else
       recent <- iloc_neg ma_series 1 ;;
       older <- iloc_neg ma_series (lookback + 1) ;;
       if isna recent || isna older then Ok false
       else Ok (fgtb recent older))
    (fun _ => false).

Definition default_lookback : nat := 20.

(** [recent_volume / avg_volume if avg_volume > 0 else 1] *)
Definition guarded_volume_ratio (recent_volume avg_volume : Z) : result float :=
  if 0 <? avg_volume then int_truediv recent_volume avg_volume else Ok (Fin 1).

(** The volume block of [_calculate_indicators] with its own [try]:
    average volume, recent volume, volume ratio. *)
Definition volume_analysis (vol : list float) : Z * Z * float :=
  try_except
    (avg_volume <- py_int (mean (tail 50 vol)) ;;
     last <- iloc_neg vol 1 ;;
     recent_volume <- py_int last ;;
     volume_ratio <- guarded_volume_ratio recent_volume avg_volume ;;
     Ok (avg_volume, recent_volume, volume_ratio))
    (fun _ => (1000000, 1000000, Fin 1)).

(** [round(((current_price - ma) / ma) * 100, 1) if ma > 0 else 0] *)
Definition price_vs (current_price ma : float) : result float :=
  if fgtb ma (Fin 0)
  then q <- py_div (fsub current_price ma) ma ;;
       Ok (py_round (fmul q (Fin 100)) 1)
  else Ok (Fin 0).

(** [x if not pd.isna(x) else current_price] *)
Definition with_fallback (x current_price : float) : float :=
  if negb (isna x) then x else current_price.

(** The body of the [try] of [_calculate_indicators], after the length
    check.  The inner [try] around the three [rolling] calls has no raising
    path on numeric columns, so its handler is not reached. *)
Definition indicators (hist : DataFrame) (sym : string) : result StockData :=
  let closes := map Close (rows hist) in
  current_price <- iloc_neg closes 1 ;;
  let col_50 := rolling_mean 50 25 closes in
  let col_150 := rolling_mean 150 75 closes in
  let col_200 := rolling_mean 200 100 closes in
  let hist' := mkFrame (rows hist) (Some col_50) (Some col_150) (Some col_200) in
  let lookback_days := Nat.min 252 (List.length (rows hist)) in
  let week_52_high := max (tail lookback_days (map High (rows hist))) in
  let week_52_low := min (tail lookback_days (map Low (rows hist))) in
  last_50 <- iloc_neg col_50 1 ;;
  last_150 <- iloc_neg col_150 1 ;;
  last_200 <- iloc_neg col_200 1 ;;
  let ma_50 := with_fallback last_50 current_price in
  let ma_150 := with_fallback last_150 current_price in
  let ma_200 := with_fallback last_200 current_price in
  let ma_50_trending := _is_trending_up col_50 default_lookback in
  let ma_150_trending := _is_trending_up col_150 default_lookback in
  let ma_200_trending := _is_trending_up col_200 default_lookback in
  high_ratio <- py_div (fsub current_price week_52_high) week_52_high ;;
  let from_high_pct := py_round (fmul high_ratio (Fin 100)) 1 in
  low_ratio <- py_div (fsub current_price week_52_low) week_52_low ;;
  let from_low_pct := py_round (fmul low_ratio (Fin 100)) 1 in
  let '(avg_volume, recent_volume, volume_ratio) :=
    volume_analysis (map Volume (rows hist)) in
  price_vs_ma_50 <- price_vs current_price ma_50 ;;
  price_vs_ma_150 <- price_vs current_price ma_150 ;;
  price_vs_ma_200 <- price_vs current_price ma_200 ;;
  Ok {| symbol := Some sym;
        error := None;
        price := Some (py_round current_price 2);
        ma_50 := Some (py_round ma_50 2);
        ma_150 := Some (py_round ma_150 2);
        ma_200 := Some (py_round ma_200 2);
        week_52_high := Some (py_round week_52_high 2);
        week_52_low := Some (py_round week_52_low 2);
        from_high_pct := Some from_high_pct;
        from_low_pct := Some from_low_pct;
        ma_50_trending_up := Some ma_50_trending;
        ma_150_trending_up := Some ma_150_trending;
        ma_200_trending_up := Some ma_200_trending;
        price_vs_ma_50 := Some price_vs_ma_50;
        price_vs_ma_150 := Some price_vs_ma_150;
        price_vs_ma_200 := Some price_vs_ma_200;
        volume := Some recent_volume;
        avg_volume := Some avg_volume;
        volume_ratio := Some (py_round volume_ratio 2);
        historical_data := Some hist' |}.

(** [DataFetcher._calculate_indicators] *)
Definition _calculate_indicators (hist : DataFrame) (sym : string) : StockData :=
  try_except
    (if (List.length (rows hist) <? 50)%nat
     then Ok (error_dict sym (ErrText "Insufficient data"))
     else indicators hist sym)
    (fun e => error_dict sym (ErrStr e)).

End DataFetcher.

(* ================================================================== *)
(** * rs_calculator.py                                                  *)
(* ================================================================== *)

Module RSRatingCalculator.

Import Pandas.
Local Open Scope py_scope.

(** A column with its date index, in row order. *)
Definition Series : Type := list (Z * float).

Definition index (s : Series) : list Z := map fst s.
Definition values (s : Series) : list float := map snd s.

(** [df['Close']] *)
Definition close_column (df : DataFrame) : Series :=
  map (fun b => (date b, Close b)) (rows df).

Definition mem (d : Z) (l : list Z) : bool := existsb (Z.eqb d) l.

(** [a.intersection(b)]: the distinct labels present in both indexes. *)
Definition intersection (a b : list Z) : list Z :=
  nodup Z.eq_dec (filter (fun d => mem d b) a).

Fixpoint has_duplicates (l : list Z) : bool :=
  match l with
  | [] => false
  | d :: t => mem d t || has_duplicates t
  end.

Definition lookup (d : Z) (s : Series) : float :=
  match find (fun p => Z.eqb (fst p) d) s with
  | Some p => snd p
  | None => NaN
  end.

(** [s.reindex(labels)]: the values of [s] at [labels] ([NaN] where [s] has
    no such label); pandas refuses to reindex an index with duplicate
    labels ([ValueError]). *)
Definition reindex (s : Series) (labels : list Z) : result Series :=
  if has_duplicates (index s) then Raise ValueError
  else Ok (map (fun d => (d, lookup d s)) labels).

(** [s.dropna()] *)
Definition dropna (s : Series) : Series :=
  filter (fun p => negb (isna (snd p))) s.

Fixpoint insert_by_date (p : Z * float) (s : Series) : Series :=
  match s with
  | [] => [p]
  | p' :: t => if fst p <? fst p' then p :: s else p' :: insert_by_date p t
  end.

(** [s.sort_index()] *)
Definition sort_index (s : Series) : Series :=
  fold_right insert_by_date [] s.

Definition periods : list nat := [63; 126; 189; 252]%nat.
Definition weights : list float :=
  [Fin (4 # 10); Fin (2 # 10); Fin (2 # 10); Fin (2 # 10)].

(** [RSRatingCalculator._align_data] *)
Definition _align_data (stock_data sp500_data : DataFrame) : Series * Series :=
  try_except
    (let stock_closes := close_column stock_data in
     let sp500_closes := close_column sp500_data in
     let common_dates := intersection (index stock_closes) (index sp500_closes) in
     if (List.length common_dates =? 0)%nat then Ok ([], [])
     else
       reindexed_stock <- reindex stock_closes common_dates ;;
       let aligned_stock := dropna reindexed_stock in
       reindexed_sp500 <- reindex sp500_closes common_dates ;;
       let aligned_sp500 := dropna reindexed_sp500 in
       let final_dates := intersection (index aligned_stock) (index aligned_sp500) in
       aligned_stock <- reindex aligned_stock final_dates ;;
       aligned_sp500 <- reindex aligned_sp500 final_dates ;;
       Ok (sort_index aligned_stock, sort_index aligned_sp500))
    (fun _ => ([], [])).

(** [((end - start) / start) * 100] on numpy scalars. *)
Definition pct_return (end_price start_price : float) : float :=
  fmul (np_div (fsub end_price start_price) start_price) (Fin 100).

(** [RSRatingCalculator._calculate_period_performance]; [None] is Python's
    [None].  [period] is one of [periods], so at least 1. *)
Definition _calculate_period_performance
    (stock_prices sp500_prices : Series) (period : nat) : option float :=
  try_except
    (if (List.length stock_prices <? period)%nat then Ok None
     else
       end_price_stock <- iloc_neg (values stock_prices) 1 ;;
       start_price_stock <- iloc_neg (values stock_prices) period ;;
       end_price_sp500 <- iloc_neg (values sp500_prices) 1 ;;
       start_price_sp500 <- iloc_neg (values sp500_prices) period ;;
       let stock_return := pct_return end_price_stock start_price_stock in
       let sp500_return := pct_return end_price_sp500 start_price_sp500 in
       let relative_performance := fsub stock_return sp500_return in
       Ok (Some relative_performance))
    (fun _ => None).

(** The band of [_convert_to_rs_scale], before the final clamp. *)
Definition band_rating (relative_performance : float) : result Z :=
  if fgeb relative_performance (Fin 50) then
    let excess := py_min (fsub relative_performance (Fin 50)) (Fin 50) in
    n <- py_int (fmul (np_div excess (Fin 50)) (Fin 9)) ;;
    Ok (90 + n)
  else if fgeb relative_performance (Fin 20) then
    n <- py_int (fmul (np_div (fsub relative_performance (Fin 20)) (Fin 30)) (Fin 9)) ;;
    Ok (80 + n)
  else if fgeb relative_performance (Fin 5) then
    n <- py_int (fmul (np_div (fsub relative_performance (Fin 5)) (Fin 15)) (Fin 9)) ;;
    Ok (70 + n)
  else if fgeb relative_performance (Fin (-5)) then
    n <- py_int (fmul (np_div (fadd relative_performance (Fin 5)) (Fin 10)) (Fin 19)) ;;
    Ok (50 + n)
  else
    let negative_excess := py_min (fabs (fadd relative_performance (Fin 5))) (Fin 45) in
    n <- py_int (fmul (np_div negative_excess (Fin 45)) (Fin 48)) ;;
    Ok (49 - n).

(** [RSRatingCalculator._convert_to_rs_scale] *)
Definition _convert_to_rs_scale (relative_performance : float) : Z :=
  try_except
    (rating <- band_rating relative_performance ;;
     Ok (Z.max 1 (Z.min 99 rating)))
    (fun _ => 1).

(** [sum(xs)], which starts from the integer 0. *)
Definition py_sum (xs : list float) : float := fold_left fadd xs (Fin 0).

(** The loop over [zip(self.periods, self.weights)]. *)
Definition weighted_performances (aligned_stock aligned_sp500 : Series) : list float :=
  map (fun pw : nat * float =>
         match _calculate_period_performance aligned_stock aligned_sp500 (fst pw) with
         | Some performance => fmul performance (snd pw)
         | None => Fin 0
         end)
      (combine periods weights).

(** [RSRatingCalculator.calculate_rs_rating].  [sp500_data] is what
    [_get_sp500_data] handed back: the cached or freshly fetched S&P 500
    frame, or [None]. *)
Definition calculate_rs_rating
    (stock_data : StockData) (sp500_data : option DataFrame) : Z :=
  try_except
    (match historical_data stock_data with
     | None => Ok 1
     | Some hist_data =>
         if empty hist_data then Ok 1
         else match sp500_data with
              | None => Ok 1
              | Some sp500 =>
                  let '(aligned_stock, aligned_sp500) := _align_data hist_data sp500 in
                  if (List.length aligned_stock <? 63)%nat then Ok 50
                  else
                    let period_performances :=
                      weighted_performances aligned_stock aligned_sp500 in
                    match period_performances with
                    | [] => Ok 1
                    | _ =>
                        let total_relative_performance := py_sum period_performances in
                        Ok (_convert_to_rs_scale total_relative_performance)
                    end
              end
     end)
    (fun _ => 1).

(** [RSRatingCalculator.get_rating_description] *)
Definition get_rating_description (rs_rating : Z) : string :=
  if 90 <=? rs_rating then "Exceptional"
  else if 80 <=? rs_rating then "Strong"
  else if 70 <=? rs_rating then "Good"
  else if 50 <=? rs_rating then "Average"
  else "Weak".

End RSRatingCalculator.

(* ================================================================== *)
(** * minervini_criteria.py                                             *)
(* ================================================================== *)

(** Insertion-ordered dictionaries with string keys. *)
Module Dict.

Definition t (V : Type) : Type := list (string * V).

(** [d[k] = v]: replaces in place, or appends a new key at the end. *)
Fixpoint set {V : Type} (k : string) (v : V) (d : t V) : t V :=
  match d with
  | [] => [(k, v)]
  | (k', v') :: rest =>
      if String.eqb k k' then (k, v) :: rest else (k', v') :: set k v rest
  end.

(** [list(d.values())] *)
Definition values {V : Type} (d : t V) : list V := map snd d.

Definition keys {V : Type} (d : t V) : list string := map fst d.

End Dict.

(** The outcome of one criterion,
    [{'passes': ..., 'reason': ..., 'details': {...}}]. *)
Module Criterion.

Inductive value : Type :=
| VFloat (x : float)
| VBool (b : bool)
| VInt (z : Z).

Record t : Type := mk {
  passes : bool;
  reason : string;
  details : Dict.t value
}.

End Criterion.

(** The dictionary returned by [analyze_stock] and updated by
    [analyze_with_rs_rating]; optional fields are keys that some return
    paths leave out. *)
Module Verdict.

Record t : Type := mk {
  passed : bool;
  fail_reasons : list string;
  score : Z;
  max_score : Z;
  technical_score : option Z;
  details : Dict.t Criterion.t;
  summary : option string;
  symbol : option string;
  rs_rating : option Z
}.

End Verdict.

Module MinerviniAnalyzer.

Import Criterion.
Local Open Scope string_scope.

(** [all(c['passes'] for c in cs)] and [sum(c['passes'] for c in cs)] *)
Definition all_pass (cs : list Criterion.t) : bool := forallb passes cs.

Definition count_passes (cs : list Criterion.t) : Z :=
  fold_left (fun acc c => acc + (if passes c then 1 else 0))%Z cs 0%Z.

(** Criterion 1: Price > 150MA & 200MA *)
Definition _check_price_above_mas (price ma_150 ma_200 : float) : Criterion.t :=
  let above_150 := fgtb price ma_150 in
  let above_200 := fgtb price ma_200 in
  let passes := above_150 && above_200 in
  let reason :=
    if negb passes then
      if negb above_150 && negb above_200 then
        "Price below both 150MA ($" ++ format_f 2 ma_150
          ++ ") & 200MA ($" ++ format_f 2 ma_200 ++ ")"
      else if negb above_150 then
        "Price below 150MA ($" ++ format_f 2 ma_150 ++ ")"
      else
        "Price below 200MA ($" ++ format_f 2 ma_200 ++ ")"
    else EmptyString in
  Criterion.mk passes reason
    [("price", VFloat price); ("ma_150", VFloat ma_150); ("ma_200", VFloat ma_200);
     ("above_150", VBool above_150); ("above_200", VBool above_200)].

(** Criterion 2: 150MA > 200MA *)
Definition _check_ma_150_above_200 (ma_150 ma_200 : float) : Criterion.t :=
  let passes := fgtb ma_150 ma_200 in
  Criterion.mk passes
    (if negb passes
     then "150MA ($" ++ format_f 2 ma_150 ++ ") below 200MA ($"
            ++ format_f 2 ma_200 ++ ")"
     else EmptyString)
    [("ma_150", VFloat ma_150); ("ma_200", VFloat ma_200);
     ("difference", VFloat (fsub ma_150 ma_200))].

(** Criterion 3: 200MA trending up *)
Definition _check_ma_200_trending_up (ma_200_trending_up : bool) : Criterion.t :=
  let passes := ma_200_trending_up in
  Criterion.mk passes
    (if negb passes then "200MA not trending up" else EmptyString)
    [("trending_up", VBool ma_200_trending_up)].

(** Criterion 4: 50MA > 150MA & 200MA *)
Definition _check_ma_50_above_others (ma_50 ma_150 ma_200 : float) : Criterion.t :=
  let above_150 := fgtb ma_50 ma_150 in
  let above_200 := fgtb ma_50 ma_200 in
  let passes := above_150 && above_200 in
  let reason :=
    if negb passes then
      if negb above_150 && negb above_200 then
        "50MA below both 150MA & 200MA"
      else if negb above_150 then
        "50MA ($" ++ format_f 2 ma_50 ++ ") below 150MA ($"
          ++ format_f 2 ma_150 ++ ")"
      else
        "50MA ($" ++ format_f 2 ma_50 ++ ") below 200MA ($"
          ++ format_f 2 ma_200 ++ ")"
    else EmptyString in
  Criterion.mk passes reason
    [("ma_50", VFloat ma_50); ("ma_150", VFloat ma_150); ("ma_200", VFloat ma_200);
     ("above_150", VBool above_150); ("above_200", VBool above_200)].

(** Criterion 5: Price > 30% above 52W low *)
Definition _check_above_52w_low (from_low_pct : float) : Criterion.t :=
  let passes := fgeb from_low_pct (Fin 30) in
  Criterion.mk passes
    (if negb passes
     then "Only " ++ format_f 1 from_low_pct ++ "% above 52W low (need ≥30%)"
     else EmptyString)
    [("from_low_pct", VFloat from_low_pct); ("threshold", VFloat (Fin 30))].

(** Criterion 6: Within 25% of 52W high *)
Definition _check_near_52w_high (from_high_pct : float) : Criterion.t :=
  let passes := fleb (fabs from_high_pct) (Fin 25) in
  Criterion.mk passes
    (if negb passes
     then format_f 1 (fabs from_high_pct) ++ "% below 52W high (need ≤25%)"
     else EmptyString)
    [("from_high_pct", VFloat from_high_pct); ("threshold", VFloat (Fin 25))].

(** Criterion 7: RS Rating >= 70 *)
Definition _check_rs_rating_strong (rs_rating : Z) : Criterion.t :=
  let passes := (70 <=? rs_rating)%Z in
  Criterion.mk passes
    (if negb passes
     then "RS Rating " ++ string_of_Z rs_rating ++ " below 70"
     else EmptyString)
    [("rs_rating", VInt rs_rating); ("threshold", VInt 70)].

Definition count_failed (cs : list Criterion.t) : nat :=
  List.length (filter (fun c => negb (passes c)) cs).

Definition string_of_nat (n : nat) : string := string_of_Z (Z.of_nat n).

(** [MinerviniAnalyzer._generate_summary] *)
Definition _generate_summary (criteria_results : Dict.t Criterion.t) (passes_all : bool)
  : string :=
  if passes_all then "✅ All technical criteria passed - Strong trend template"
  else
    let failed_count := count_failed (Dict.values criteria_results) in
    let passed_count := (List.length criteria_results - failed_count)%nat in
    "⚠️ " ++ string_of_nat passed_count ++ "/"
      ++ string_of_nat (List.length criteria_results) ++ " criteria passed".

(** [MinerviniAnalyzer._generate_summary_with_rs] *)
Definition _generate_summary_with_rs (criteria_results : list Criterion.t)
    (passes_all : bool) : string :=
  if passes_all then "✅ All Minervini criteria passed - Perfect trend template"
  else
    let failed_count := count_failed criteria_results in
    let passed_count := (List.length criteria_results - failed_count)%nat in
    "⚠️ " ++ string_of_nat passed_count ++ "/"
      ++ string_of_nat (List.length criteria_results) ++ " criteria passed".

(** [fail_reasons.append(c['reason'])] when [c] does not pass. *)
Definition note_failure (c : Criterion.t) (fail_reasons : list string) : list string :=
  if negb (passes c) then fail_reasons ++ [reason c] else fail_reasons.

(** [MinerviniAnalyzer.analyze_stock].  On float-valued fields nothing in
    the [try] raises, so the [except] branch is not reached. *)
Definition analyze_stock (stock_data : StockData) : Verdict.t :=
  let symbol := get (symbol stock_data) "Unknown" in
  let price := get (price stock_data) (Fin 0) in
  let ma_50 := get (ma_50 stock_data) (Fin 0) in
  let ma_150 := get (ma_150 stock_data) (Fin 0) in
  let ma_200 := get (ma_200 stock_data) (Fin 0) in
  let week_52_high := get (week_52_high stock_data) (Fin 0) in
  let week_52_low := get (week_52_low stock_data) (Fin 0) in
  let ma_200_trending_up := get (ma_200_trending_up stock_data) false in
  let from_low_pct := get (from_low_pct stock_data) (Fin 0) in
  let from_high_pct := get (from_high_pct stock_data) (Fin 0) in
  if negb (forallb truthy [price; ma_50; ma_150; ma_200; week_52_high; week_52_low])
  then
    Verdict.mk false ["Insufficient data for analysis"] 0 7 None [] None None None
  else
    let criteria_results : Dict.t Criterion.t := [] in
    let fail_reasons : list string := [] in
    let criteria_1 := _check_price_above_mas price ma_150 ma_200 in
    let criteria_results := Dict.set "price_above_mas" criteria_1 criteria_results in
    let fail_reasons := note_failure criteria_1 fail_reasons in
    let criteria_2 := _check_ma_150_above_200 ma_150 ma_200 in
    let criteria_results := Dict.set "ma_150_above_200" criteria_2 criteria_results in
    let fail_reasons := note_failure criteria_2 fail_reasons in
    let criteria_3 := _check_ma_200_trending_up ma_200_trending_up in
    let criteria_results := Dict.set "ma_200_trending_up" criteria_3 criteria_results in
    let fail_reasons := note_failure criteria_3 fail_reasons in
    let criteria_4 := _check_ma_50_above_others ma_50 ma_150 ma_200 in
    let criteria_results := Dict.set "ma_50_above_others" criteria_4 criteria_results in
    let fail_reasons := note_failure criteria_4 fail_reasons in
    let criteria_5 := _check_above_52w_low from_low_pct in
    let criteria_results := Dict.set "above_52w_low" criteria_5 criteria_results in
    let fail_reasons := note_failure criteria_5 fail_reasons in
    let criteria_6 := _check_near_52w_high from_high_pct in
    let criteria_results := Dict.set "near_52w_high" criteria_6 criteria_results in
    let fail_reasons := note_failure criteria_6 fail_reasons in
    let technical_criteria :=
      [criteria_1; criteria_2; criteria_3; criteria_4; criteria_5; criteria_6] in
    let passes_technical := all_pass technical_criteria in
    let technical_score := count_passes technical_criteria in
    let passed := passes_technical in
    Verdict.mk passed fail_reasons technical_score 6 (Some technical_score)
      criteria_results (Some (_generate_summary criteria_results passed))
      (Some symbol) None.

(** [MinerviniAnalyzer.analyze_with_rs_rating] *)
Definition analyze_with_rs_rating (stock_data : StockData) (rs_rating : Z) : Verdict.t :=
  let base_analysis := analyze_stock stock_data in
  let rs_criterion := _check_rs_rating_strong rs_rating in
  let details := Dict.set "rs_rating_strong" rs_criterion (Verdict.details base_analysis) in
  let all_criteria := Dict.values details in
  let passes_all_including_rs := all_pass all_criteria in
  let total_score := count_passes all_criteria in
  let fail_reasons := note_failure rs_criterion (Verdict.fail_reasons base_analysis) in
  Verdict.mk passes_all_including_rs fail_reasons total_score 7
    (Verdict.technical_score base_analysis) details
    (Some (_generate_summary_with_rs all_criteria passes_all_including_rs))
    (Verdict.symbol base_analysis) (Some rs_rating).

End MinerviniAnalyzer.

(* ================================================================== *)
(** * Vocabulary of the statements                                      *)
(* ================================================================== *)

Import Pandas.

(** A stock-data dictionary that only carries a price history. *)
Definition history_only (sym : string) (hist : DataFrame) : StockData :=
  mkStockData (Some sym) None None None None None None None None None
              None None None None None None None None None (Some hist).

(** A bar on date [d] whose four prices are all [px]. *)
Definition bar_at (d : Z) (px : Q) : Bar :=
  mkBar d (Fin px) (Fin px) (Fin px) (Fin px) (Fin 1000).

(** The date index of a frame. *)
Definition dates (df : DataFrame) : list Z := map date (rows df).

(** No trading date of [a] is a trading date of [b]. *)
Definition no_common_dates (a b : DataFrame) : Prop :=
  forall d, In d (dates a) -> ~ In d (dates b).

(** Two short histories on disjoint dates. *)
Definition C1_stock : DataFrame := frame_of [bar_at 1 100; bar_at 2 101].

Definition C1_sp500 : DataFrame := frame_of [bar_at 3 4000; bar_at 4 4010].

(** The six fields [analyze_stock] validates, read as it reads them. *)
Definition validated_fields (sd : StockData) : list float :=
  [get (price sd) (Fin 0); get (ma_50 sd) (Fin 0); get (ma_150 sd) (Fin 0);
   get (ma_200 sd) (Fin 0); get (week_52_high sd) (Fin 0);
   get (week_52_low sd) (Fin 0)].

(** Some validated field is missing or zero. *)
Definition insufficient_data (sd : StockData) : Prop :=
  exists x, In x (validated_fields sd) /\ truthy x = false.

(** Every validated field is present and non-zero. *)
Definition sufficient_data (sd : StockData) : Prop :=
  forall x, In x (validated_fields sd) -> truthy x = true.

(** The seven rules in their order of evaluation, on the values
    [analyze_stock] extracts. *)
Definition criteria (sd : StockData) (rs_rating : Z) : list Criterion.t :=
  let price := get (price sd) (Fin 0) in
  let ma_50 := get (ma_50 sd) (Fin 0) in
  let ma_150 := get (ma_150 sd) (Fin 0) in
  let ma_200 := get (ma_200 sd) (Fin 0) in
  [MinerviniAnalyzer._check_price_above_mas price ma_150 ma_200;
   MinerviniAnalyzer._check_ma_150_above_200 ma_150 ma_200;
   MinerviniAnalyzer._check_ma_200_trending_up (get (ma_200_trending_up sd) false);
   MinerviniAnalyzer._check_ma_50_above_others ma_50 ma_150 ma_200;
   MinerviniAnalyzer._check_above_52w_low (get (from_low_pct sd) (Fin 0));
   MinerviniAnalyzer._check_near_52w_high (get (from_high_pct sd) (Fin 0));
   MinerviniAnalyzer._check_rs_rating_strong rs_rating].

(** [not c['passes']] *)
Definition failing (c : Criterion.t) : bool := negb (Criterion.passes c).

(** Fifty flat bars of a stock quoted at 0.004: every indicator is computed,
    and the reported price, rounded to cents, is 0.0. *)
Definition penny_history : DataFrame :=
  frame_of (map (fun i => bar_at (Z.of_nat i) (4 # 1000)) (seq 0 50)).

(** What [DataFetcher] computes for it. *)
Definition penny_stock_data : StockData :=
  DataFetcher._calculate_indicators penny_history "PNY".

(** A complete snapshot of a stock in a confirmed uptrend. *)
Definition uptrend_data : StockData :=
  {| symbol := Some "UPT"%string; error := None;
     price := Some (Fin 150); ma_50 := Some (Fin 140);
     ma_150 := Some (Fin 130); ma_200 := Some (Fin 120);
     week_52_high := Some (Fin 160); week_52_low := Some (Fin 100);
     from_high_pct := Some (Fin (-(62 # 10))); from_low_pct := Some (Fin 50);
     ma_50_trending_up := Some true; ma_150_trending_up := Some true;
     ma_200_trending_up := Some false;
     price_vs_ma_50 := Some (Fin (71 # 10)); price_vs_ma_150 := Some (Fin (154 # 10));
     price_vs_ma_200 := Some (Fin 25);
     volume := Some 1200; avg_volume := Some 1000; volume_ratio := Some (Fin (12 # 10));
     historical_data := None |}.

(** The argument of [int(...)] in each band, as a function of the
    performance. *)
Definition arg_top (q : Q) : Q := ((q + - (50)) / 50 * 9)%Q.

Definition arg_strong (q : Q) : Q := ((q + - (20)) / 30 * 9)%Q.

Definition arg_good (q : Q) : Q := ((q + - (5)) / 15 * 9)%Q.

Definition arg_average (q : Q) : Q := ((q + 5) / 10 * 19)%Q.

Definition arg_under (q : Q) : Q := (Qabs (q + 5) / 45 * 48)%Q.

(** A frame whose bars, on the dates [ds], all quote the price [px]. *)
Definition flat_frame (ds : list Z) (px : Q) : DataFrame :=
  frame_of (map (fun d => bar_at d px) ds).

(** Its close column, and the series on which every value is [px]. *)
Definition flat_series (ds : list Z) (px : Q) : RSRatingCalculator.Series :=
  map (fun d => (d, Fin px)) ds.

Definition all_quote (px : Q) (s : RSRatingCalculator.Series) : Prop :=
  Forall (fun p => snd p = Fin px) s.

(** The percentage return of a series that starts and ends at [px]. *)
Definition flat_return (px : Q) : Q := ((px + - px) / px * 100)%Q.

(** [hist['Close']] by position. *)
Definition closes (hist : DataFrame) : list float := map Close (rows hist).

(** The position of the latest row. *)
Definition latest (hist : DataFrame) : nat := (List.length (rows hist) - 1)%nat.

(** The 52-week extremes, before rounding. *)
Definition week_52_high_of (hist : DataFrame) : float :=
  Pandas.max (tail (Nat.min 252 (List.length (rows hist))) (map High (rows hist))).

Definition week_52_low_of (hist : DataFrame) : float :=
  Pandas.min (tail (Nat.min 252 (List.length (rows hist))) (map Low (rows hist))).

(** A quoted price: finite and above zero. *)
Definition positive_price (x : float) : bool := is_finite x && fgtb x (Fin 0).

Definition well_formed_bar (b : Bar) : bool :=
  positive_price (Open b) && positive_price (High b)
  && positive_price (Low b) && positive_price (Close b).

(** A well-formed price history: every bar quotes positive prices. *)
Definition well_formed (hist : DataFrame) : bool :=
  forallb well_formed_bar (rows hist).

Definition present {A : Type} (o : option A) : bool :=
  match o with Some _ => true | None => false end.

(** Every key of the indicator dictionary is present and no error is
    recorded.  Nothing is said of the numbers' values: a ratio of two quoted
    prices may overflow to an infinity in floating point. *)
Definition fully_populated (r : StockData) : bool :=
  present (symbol r) && negb (present (error r))
  && present (price r) && present (ma_50 r)
  && present (ma_150 r) && present (ma_200 r)
  && present (week_52_high r) && present (week_52_low r)
  && present (from_high_pct r) && present (from_low_pct r)
  && present (ma_50_trending_up r) && present (ma_150_trending_up r)
  && present (ma_200_trending_up r)
  && present (price_vs_ma_50 r) && present (price_vs_ma_150 r)
  && present (price_vs_ma_200 r)
  && present (volume r) && present (avg_volume r)
  && present (volume_ratio r) && present (historical_data r).

(** The value of [price_vs] once its guard is decided. *)
Definition price_vs_value (current_price ma : float) : float :=
  if fgtb ma (Fin 0)
  then py_round (fmul (np_div (fsub current_price ma) ma) (Fin 100)) 1
  else Fin 0.

(** The percentage offset of the price from a non-zero extreme. *)
Definition pct_from (current_price extreme : float) : float :=
  py_round (fmul (np_div (fsub current_price extreme) extreme) (Fin 100)) 1.

(** The dictionary [_calculate_indicators] returns for a history of at least
    50 bars when neither 52-week extreme is zero (no division raises). *)
Definition snapshot (hist : DataFrame) (sym : string) : StockData :=
  let current_price := nth (latest hist) (closes hist) NaN in
  let col_50 := rolling_mean 50 25 (closes hist) in
  let col_150 := rolling_mean 150 75 (closes hist) in
  let col_200 := rolling_mean 200 100 (closes hist) in
  let ma_50 :=
    DataFetcher.with_fallback (rolling_mean_at 50 25 (closes hist) (latest hist))
      current_price in
  let ma_150 :=
    DataFetcher.with_fallback (rolling_mean_at 150 75 (closes hist) (latest hist))
      current_price in
  let ma_200 :=
    DataFetcher.with_fallback (rolling_mean_at 200 100 (closes hist) (latest hist))
      current_price in
  let vol := DataFetcher.volume_analysis (map Volume (rows hist)) in
  {| symbol := Some sym;
     error := None;
     price := Some (py_round current_price 2);
     ma_50 := Some (py_round ma_50 2);
     ma_150 := Some (py_round ma_150 2);
     ma_200 := Some (py_round ma_200 2);
     week_52_high := Some (py_round (week_52_high_of hist) 2);
     week_52_low := Some (py_round (week_52_low_of hist) 2);
     from_high_pct := Some (pct_from current_price (week_52_high_of hist));
     from_low_pct := Some (pct_from current_price (week_52_low_of hist));
     ma_50_trending_up :=
       Some (DataFetcher._is_trending_up col_50 DataFetcher.default_lookback);
     ma_150_trending_up :=
       Some (DataFetcher._is_trending_up col_150 DataFetcher.default_lookback);
     ma_200_trending_up :=
       Some (DataFetcher._is_trending_up col_200 DataFetcher.default_lookback);
     price_vs_ma_50 := Some (price_vs_value current_price ma_50);
     price_vs_ma_150 := Some (price_vs_value current_price ma_150);
     price_vs_ma_200 := Some (price_vs_value current_price ma_200);
     volume := Some (snd (fst vol));
     avg_volume := Some (fst (fst vol));
     volume_ratio := Some (py_round (snd vol) 2);
     historical_data :=
       Some (mkFrame (rows hist) (Some col_50) (Some col_150) (Some col_200)) |}.

(** [n] bars closing at 100, 101, ..., each with a high one above and a
    low one below the close. *)
Definition rising_history (n : nat) : DataFrame :=
  frame_of
    (map (fun i => let c := inject_Z (100 + Z.of_nat i) in
                   mkBar (Z.of_nat i) (Fin c) (Fin (c + 1)) (Fin (c - 1)) (Fin c) (Fin 1000))
         (seq 0 n)).

(** A column of quoted prices. *)
Definition all_positive (l : list float) : Prop :=
  Forall (fun x => positive_price x = true) l.

(* ================================================================== *)
(** * The rest of the three modules                                     *)
(* ================================================================== *)

(** [d.get(k)] on an insertion-ordered dictionary. *)
Fixpoint dict_lookup {V : Type} (k : string) (d : Dict.t V) : option V :=
  match d with
  | [] => None
  | (k', v) :: rest => if String.eqb k k' then Some v else dict_lookup k rest
  end.

(** The benchmark cache of [RSRatingCalculator] and the calls that go
    through it.  Time is in seconds; what [yfinance] would answer is an
    argument. *)
Module SP500Cache.

(** [self.sp500_cache] and [self.cache_timestamp] *)
Record state : Type := mkState {
  sp500_cache : option DataFrame;
  cache_timestamp : option Z
}.

(** [RSRatingCalculator.__init__] *)
Definition init : state := mkState None None.

(** [timedelta(hours=1)] *)
Definition one_hour : Z := 3600.

(** What one call sees of the outside: [datetime.now()] at the cache
    check, [datetime.now()] when the cache is stamped, and the outcome of
    [ticker.history(...)] for ["^GSPC"]. *)
Record world : Type := mkWorld {
  now : Z;
  stamp : Z;
  download : result (option DataFrame)
}.

(** [RSRatingCalculator._get_sp500_data]: the frame handed back and the
    calculator state afterwards. *)
Definition _get_sp500_data (st : state) (w : world) : option DataFrame * state :=
  let fresh :=
    match sp500_cache st, cache_timestamp st with
    | Some _, Some ts => now w - ts <? one_hour
    | _, _ => false
    end in
  if fresh then (sp500_cache st, st)
  else
    match download w with
    | Raise _ => (None, st)
    | Ok hist =>
        let usable :=
          match hist with
          | Some h => negb (empty h)
          | None => false
          end in
        if usable then (hist, mkState hist (Some (stamp w)))
        else (hist, st)
    end.

(** [RSRatingCalculator.calculate_rs_rating] together with the call to
    [_get_sp500_data] it makes: the benchmark is only asked for once the
    stock history is known to be there. *)
Definition calculate_rs_rating (st : state) (w : world) (stock_data : StockData)
  : Z * state :=
  match historical_data stock_data with
  | None => (1, st)
  | Some hist_data =>
      if empty hist_data then (1, st)
      else
        let '(sp500_data, st') := _get_sp500_data st w in
        (RSRatingCalculator.calculate_rs_rating stock_data sp500_data, st')
  end.

(** The loop of [RSRatingCalculator.calculate_batch_rs_ratings]; call
    number [i] sees [worlds i]. *)
Fixpoint batch_loop (worlds : nat -> world) (i : nat) (st : state)
    (stocks : Dict.t StockData) (rs_ratings : Dict.t Z) : Dict.t Z * state :=
  match stocks with
  | [] => (rs_ratings, st)
  | (sym, stock_data) :: rest =>
      let '(rs_rating, st') := calculate_rs_rating st (worlds i) stock_data in
      batch_loop worlds (S i) st' rest (Dict.set sym rs_rating rs_ratings)
  end.

(** [RSRatingCalculator.calculate_batch_rs_ratings] *)
Definition calculate_batch_rs_ratings (worlds : nat -> world) (st : state)
    (stocks_data : Dict.t StockData) : Dict.t Z * state :=
  batch_loop worlds 0 st stocks_data [].

End SP500Cache.

(** [MinerviniAnalyzer.get_criteria_descriptions] *)
Definition get_criteria_descriptions : Dict.t string :=
  [("price_above_mas", "1. Price > 150MA & 200MA");
   ("ma_150_above_200", "2. 150MA > 200MA");
   ("ma_200_trending_up", "3. 200MA trending up");
   ("ma_50_above_others", "4. 50MA > other MAs");
   ("above_52w_low", "5. Price > 30% above 52W low");
   ("near_52w_high", "6. Within 25% of 52W high");
   ("rs_rating_strong", "7. RS Rating ≥ 70")]%string.

(** [self.criteria_weights] of [MinerviniAnalyzer.__init__] *)
Definition criteria_weights : Dict.t Q :=
  [("price_above_mas", 1); ("ma_150_above_200", 1); ("ma_200_trending_up", 1);
   ("ma_50_above_others", 1); ("above_52w_low", 1); ("near_52w_high", 1);
   ("rs_rating_strong", 1)]%string%Q.

(** The six technical criteria of [analyze_stock], in its order. *)
Definition technical_criteria (sd : StockData) : list Criterion.t :=
  let price := get (price sd) (Fin 0) in
  let ma_50 := get (ma_50 sd) (Fin 0) in
  let ma_150 := get (ma_150 sd) (Fin 0) in
  let ma_200 := get (ma_200 sd) (Fin 0) in
  [MinerviniAnalyzer._check_price_above_mas price ma_150 ma_200;
   MinerviniAnalyzer._check_ma_150_above_200 ma_150 ma_200;
   MinerviniAnalyzer._check_ma_200_trending_up (get (ma_200_trending_up sd) false);
   MinerviniAnalyzer._check_ma_50_above_others ma_50 ma_150 ma_200;
   MinerviniAnalyzer._check_above_52w_low (get (from_low_pct sd) (Fin 0));
   MinerviniAnalyzer._check_near_52w_high (get (from_high_pct sd) (Fin 0))].

(** [DataFetcher]: symbol clean-up and the fetching of histories.  What
    Yahoo Finance answers is an argument. *)
Module Fetching.

Local Open Scope string_scope.
Local Open Scope py_scope.

(** [self.symbol_mapping] *)
Definition symbol_mapping : Dict.t string :=
  [("BRK.A", "BRK-A"); ("BRK.B", "BRK-B"); ("BF.B", "BF-B"); ("SQ", "BLOCK")].

(** [DataFetcher._clean_symbol] *)
Definition _clean_symbol (symbol : string) : string :=
  match dict_lookup symbol symbol_mapping with
  | Some mapped => mapped
  | None => symbol
  end.

(** The keys [fetch_stock_data] reads from [ticker.info]. *)
Record TickerInfo : Type := mkInfo {
  longName : option string;
  info_sector : option string;
  marketCap : option Z
}.

(** [{}] *)
Definition no_info : TickerInfo := mkInfo None None None.

(** The provider, for one ticker symbol: the outcome of the [n]-th call of
    [ticker.history(...)] and of reading [ticker.info] ([None] for a falsy
    value). *)
Record Yahoo : Type := mkYahoo {
  history : string -> nat -> result DataFrame;
  info : string -> result (option TickerInfo)
}.

(** The dictionary [fetch_stock_data] returns: the indicator dictionary
    with the company keys added to it; a company key is [None] when
    absent. *)
Record FetchedData : Type := mkFetched {
  indicators_of : StockData;
  company_name : option string;
  sector : option string;
  market_cap : option Z;
  raw_info : option TickerInfo
}.

Definition max_retries : nat := 3.

(** The retry loop of [fetch_stock_data], from attempt number [attempt]
    with [remaining] attempts to go; [hist] is the variable [hist]. *)
Fixpoint history_loop (attempts : nat -> result DataFrame)
    (attempt remaining : nat) (hist : option DataFrame)
  : result (option DataFrame) :=
  match remaining with
  | O => Ok hist
  | S remaining' =>
      match attempts attempt with
      | Ok h =>
          if negb (empty h) then Ok (Some h)
          else history_loop attempts (S attempt) remaining' (Some h)
      | Raise e =>
          if (attempt <? max_retries - 1)%nat
          then history_loop attempts (S attempt) remaining' hist
          else Raise e
      end
  end.

(** [DataFetcher.fetch_stock_data]; [None] is Python's [None]. *)
Definition fetch_stock_data (yahoo : Yahoo) (symbol : string) : option FetchedData :=
  try_except
    (let clean_symbol := _clean_symbol symbol in
     hist <- history_loop (history yahoo clean_symbol) 0 max_retries None ;;
     match hist with
     | None => Ok None
     | Some h =>
         if empty h then Ok None
         else
           let info :=
             try_except
               (i <- info yahoo clean_symbol ;; Ok (get i no_info))
               (fun _ => no_info) in
           let data := DataFetcher._calculate_indicators h symbol in
           Ok (Some {| indicators_of := data;
                       company_name := Some (get (longName info) symbol);
                       sector := Some (get (info_sector info) "Unknown");
                       market_cap := Some (get (marketCap info) 0%Z);
                       raw_info := Some info |})
     end)
    (fun _ => None).

(** [{'symbol': symbol, 'error': 'No data available'}] *)
Definition no_data (symbol : string) : FetchedData :=
  mkFetched (error_dict symbol (ErrText "No data available")) None None None None.

(** The loop of [DataFetcher.fetch_multiple_stocks]; the [i]-th symbol is
    fetched from [yahoo i].  [fetch_stock_data] raises nothing, so the
    handler of the loop body is not reached. *)
Fixpoint fetch_loop (yahoo : nat -> Yahoo) (i : nat) (symbols : list string)
    (results : Dict.t FetchedData) : Dict.t FetchedData :=
  match symbols with
  | [] => results
  | symbol :: rest =>
      let results' :=
        match fetch_stock_data (yahoo i) symbol with
        | Some data => Dict.set symbol data results
        | None => Dict.set symbol (no_data symbol) results
        end in
      fetch_loop yahoo (S i) rest results'
  end.

(** [DataFetcher.fetch_multiple_stocks] *)
Definition fetch_multiple_stocks (yahoo : nat -> Yahoo) (symbols : list string)
  : Dict.t FetchedData :=
  fetch_loop yahoo 0 symbols [].

End Fetching.

(* ================================================================== *)
(** * app.py                                                            *)
(* ================================================================== *)

(** The dictionary under ['metrics'] of a successful analysis. *)
Module Metrics.

Record t : Type := mk {
  price : float;
  ma50 : float;
  ma150 : float;
  ma200 : float;
  week_52_high : float;
  week_52_low : float;
  from_high_pct : float;
  from_low_pct : float;
  ma200_trending_up : bool;
  volume : Z;
  volume_ratio : float
}.

End Metrics.

(** The list under ['fail_reasons']: the analyser's reasons, or the single
    entry [f'Data fetch failed: {error_msg}'], kept as its [error_msg]. *)
Inductive FailReasons : Type :=
| Reasons (l : list string)
| DataFetchFailed (error_msg : error_value).

(** The dictionary [analyze_single_stock] returns; an optional field is a
    key that the failure path leaves out, and [metrics = None] is [{}]. *)
Module Result.

Record t : Type := mk {
  symbol : string;
  passed : bool;
  error : option error_value;
  rs_rating : Z;
  fail_reasons : FailReasons;
  score : option Z;
  max_score : option Z;
  metrics : option Metrics.t;
  details : option (Dict.t Criterion.t);
  summary : option string
}.

End Result.

Module App.

Local Open Scope py_scope.

(** The inner loop of [_serialize_details] on one criterion: its three keys
    are copied, [bool(...)] and [str(...)] changing the type and not the
    value. *)
Definition serialize_criterion (value : Criterion.t) : Criterion.t :=
  Criterion.mk (Criterion.passes value) (Criterion.reason value)
    (Criterion.details value).

(** [_serialize_details] *)
Definition _serialize_details (details : Dict.t Criterion.t) : Dict.t Criterion.t :=
  fold_left
    (fun serialized kv => Dict.set (fst kv) (serialize_criterion (snd kv)) serialized)
    details [].

(** The dictionary returned when the data could not be fetched. *)
Definition fetch_failure (symbol : string) (error_msg : error_value) : Result.t :=
  Result.mk symbol false (Some error_msg) 0 (DataFetchFailed error_msg)
    None None None None None.

(** [analyze_single_stock], one call run on its own: the result and the
    state of the RS calculator afterwards.  The conversions [float(...)],
    [int(...)], [bool(...)], [str(...)] are applied to values of that very
    type and raise nothing, so the [except] branch is not reached. *)
Definition analyze_single_stock (yahoo : Fetching.Yahoo)
    (st : SP500Cache.state) (w : SP500Cache.world) (symbol : string)
  : Result.t * SP500Cache.state :=
  match Fetching.fetch_stock_data yahoo symbol with
  | None => (fetch_failure symbol (ErrText "No data returned"), st)
  | Some fetched =>
      let stock_data := Fetching.indicators_of fetched in
      match error stock_data with
      | Some error_msg => (fetch_failure symbol error_msg, st)
      | None =>
          let '(rs_rating, st') := SP500Cache.calculate_rs_rating st w stock_data in
          let analysis_result :=
            MinerviniAnalyzer.analyze_with_rs_rating stock_data rs_rating in
          ({| Result.symbol := symbol;
              Result.passed := Verdict.passed analysis_result;
              Result.error := None;
              Result.rs_rating := rs_rating;
              Result.fail_reasons := Reasons (Verdict.fail_reasons analysis_result);
              Result.score := Some (Verdict.score analysis_result);
              Result.max_score := Some (Verdict.max_score analysis_result);
              Result.metrics :=
                Some {| Metrics.price := get (price stock_data) (Fin 0);
                        Metrics.ma50 := get (ma_50 stock_data) (Fin 0);
                        Metrics.ma150 := get (ma_150 stock_data) (Fin 0);
                        Metrics.ma200 := get (ma_200 stock_data) (Fin 0);
                        Metrics.week_52_high := get (week_52_high stock_data) (Fin 0);
                        Metrics.week_52_low := get (week_52_low stock_data) (Fin 0);
                        Metrics.from_high_pct := get (from_high_pct stock_data) (Fin 0);
                        Metrics.from_low_pct := get (from_low_pct stock_data) (Fin 0);
                        Metrics.ma200_trending_up :=
                          get (ma_200_trending_up stock_data) false;
                        Metrics.volume := get (volume stock_data) 0;
                        Metrics.volume_ratio :=
                          get (volume_ratio stock_data) (Fin 1) |};
              Result.details :=
                Some (_serialize_details (Verdict.details analysis_result));
              Result.summary :=
                Some (get (Verdict.summary analysis_result) EmptyString) |},
           st')
      end
  end.

(** The statistics block of [analyze_stocks]:
    [(total_analyzed, passed_criteria, round(success_rate, 1))]. *)
Definition summary_statistics (results : list Result.t) : result (Z * Z * float) :=
  let total_analyzed := Z.of_nat (List.length results) in
  let passed_count := Z.of_nat (List.length (filter Result.passed results)) in
  success_rate <-
    (if 0 <? total_analyzed
     then ratio <- int_truediv passed_count total_analyzed ;;
          Ok (fmul ratio (Fin 100))
     else Ok (Fin 0)) ;;
  Ok (total_analyzed, passed_count, py_round success_rate 1).

End App.

(* ================================================================== *)
(** * More vocabulary                                                   *)
(* ================================================================== *)

(** The cache holds a frame exactly when it holds a timestamp, and a cached
    frame has rows. *)
Definition cache_coherent (st : SP500Cache.state) : Prop :=
  match SP500Cache.sp500_cache st, SP500Cache.cache_timestamp st with
  | Some h, Some _ => empty h = false
  | None, None => True
  | _, _ => False
  end.

(** The state after a run of calls, one per world. *)
Fixpoint after_calls (st : SP500Cache.state) (ws : list SP500Cache.world)
  : SP500Cache.state :=
  match ws with
  | [] => st
  | w :: rest => after_calls (snd (SP500Cache._get_sp500_data st w)) rest
  end.

(** Attempt [k] of the three brought a history with rows. *)
Definition brings_rows (attempts : nat -> result DataFrame) (k : nat) (h : DataFrame)
  : Prop :=
  attempts k = Ok h /\ empty h = false.

(** No attempt before [k] brought rows. *)
Definition none_before (attempts : nat -> result DataFrame) (k : nat) : Prop :=
  forall j h, (j < k)%nat -> attempts j = Ok h -> empty h = true.

(** A bar that closes inside its own range. *)
Definition closes_in_range (b : Bar) : bool :=
  fleb (Low b) (Close b) && fleb (Close b) (High b).

(** The first of the three attempts that brings rows brings fewer than 50
    of them. *)
Definition first_history_is_short (attempts : nat -> result DataFrame) : Prop :=
  exists k h, (k < 3)%nat /\ brings_rows attempts k h /\ none_before attempts k
              /\ (List.length (rows h) < 50)%nat.

(** A provider that answers every call with the same history and knows
    nothing else about the company. *)
Definition steady_provider (hist : DataFrame) : Fetching.Yahoo :=
  Fetching.mkYahoo (fun _ _ => Ok hist) (fun _ => Ok None).

(* ================================================================== *)
(** * Properties of the RS rating                                       *)
(* ================================================================== *)

(** The float formatter on a few values. *)
Example format_f_demo :
  format_f 2 (Fin (12345 # 100)) = "123.45"%string /\
  format_f 2 (Fin (-(1 # 8))) = "-0.12"%string /\
  format_f 1 (Fin (299 # 10)) = "29.9"%string /\
  format_f 3 (Fin (5 # 1000)) = "0.005"%string /\
  string_of_Z 69 = "69"%string.
Proof. vm_compute. repeat split. Qed.

Section RSRating.

Import RSRatingCalculator.

Lemma convert_to_rs_scale_range (x : float) :
  1 <= _convert_to_rs_scale x <= 99.
Proof.
  unfold _convert_to_rs_scale, try_except, bind.
  destruct (band_rating x); lia.
Qed.

Lemma index_close_column (df : DataFrame) : index (close_column df) = dates df.
Proof.
  unfold index, close_column, dates. rewrite map_map. reflexivity.
Qed.

Lemma mem_In (d : Z) (l : list Z) : mem d l = true <-> In d l.
Proof.
  unfold mem. rewrite existsb_exists. split.
  - intros [x [Hin Heq]]. apply Z.eqb_eq in Heq. now subst.
  - intros Hin. exists d. split; [assumption | apply Z.eqb_refl].
Qed.

Lemma intersection_disjoint (a b : list Z) :
  (forall d, In d a -> ~ In d b) -> intersection a b = [].
Proof.
  intros Hdis. unfold intersection.
  replace (filter (fun d => mem d b) a) with (@nil Z); [reflexivity |].
  symmetry. induction a as [| d a IH]; [reflexivity |].
  simpl. destruct (mem d b) eqn:Hm.
  - apply mem_In in Hm. exfalso. apply (Hdis d); [now left | assumption].
  - apply IH. intros d' Hin. apply Hdis. now right.
Qed.

Lemma align_no_common_dates (stock sp500 : DataFrame) :
  no_common_dates stock sp500 -> _align_data stock sp500 = ([], []).
Proof.
  intros Hdis. unfold _align_data.
  rewrite !index_close_column, (intersection_disjoint _ _ Hdis).
  reflexivity.
Qed.

End RSRating.

(** C4.  Whatever the stock-data dictionary holds (no history, an empty,
    short or malformed one) and whatever the S&P 500 fetch returned, the RS
    rating is an integer between 1 and 99; every exception of the
    computation is absorbed by a handler on the way. *)
Theorem C4_rs_rating_in_range (stock_data : StockData) (sp500_data : option DataFrame) :
  1 <= RSRatingCalculator.calculate_rs_rating stock_data sp500_data <= 99.
Proof.
  unfold RSRatingCalculator.calculate_rs_rating, try_except.
  destruct (historical_data stock_data) as [hist |]; [| lia].
  destruct (empty hist); [lia |].
  destruct sp500_data as [sp500 |]; [| lia].
  destruct (RSRatingCalculator._align_data hist sp500) as [aligned_stock aligned_sp500].
  destruct (List.length aligned_stock <? 63)%nat; [lia |].
  destruct (RSRatingCalculator.weighted_performances aligned_stock aligned_sp500);
    [lia | apply convert_to_rs_scale_range].
Qed.

(** C1 (as the code has it).  When the stock history and the benchmark
    history are both non-empty and share no trading date, the alignment is
    empty, the guard for fewer than 63 aligned days applies, and the RS
    rating is the neutral 50. *)
Theorem C1_no_overlap_rating_is_neutral
    (stock_data : StockData) (hist sp500 : DataFrame) :
  historical_data stock_data = Some hist ->
  rows hist <> [] ->
  rows sp500 <> [] ->
  no_common_dates hist sp500 ->
  RSRatingCalculator.calculate_rs_rating stock_data (Some sp500) = 50.
Proof.
  intros Hhist Hne _ Hdis.
  unfold RSRatingCalculator.calculate_rs_rating. rewrite Hhist.
  unfold empty. destruct (rows hist) eqn:Hrows; [contradiction |].
  rewrite (align_no_common_dates hist sp500 Hdis). reflexivity.
Qed.

Lemma C1_inputs_disjoint : no_common_dates C1_stock C1_sp500.
Proof.
  intros d Hin Hin'. cbn in Hin, Hin'. lia.
Qed.

Lemma C1_no_overlap_witness :
  RSRatingCalculator.calculate_rs_rating (history_only "ABC" C1_stock) (Some C1_sp500) = 50.
Proof.
  apply (C1_no_overlap_rating_is_neutral (history_only "ABC" C1_stock) C1_stock C1_sp500).
  - reflexivity.
  - discriminate.
  - discriminate.
  - exact C1_inputs_disjoint.
Defined.

(** C1, the claim as worded, fails: two non-empty histories on disjoint
    dates are rated 50, not 1. *)
Lemma C1_no_overlap_counterexample :
  rows C1_stock <> [] /\ rows C1_sp500 <> [] /\
  no_common_dates C1_stock C1_sp500 /\
  RSRatingCalculator.calculate_rs_rating (history_only "ABC" C1_stock) (Some C1_sp500) <> 1.
Proof.
  repeat split; try discriminate.
  exact C1_inputs_disjoint.
Qed.

(* ================================================================== *)
(** * Properties of the trend template                                  *)
(* ================================================================== *)

Section TrendTemplate.

Import MinerviniAnalyzer.

Lemma validation_fails (sd : StockData) :
  insufficient_data sd -> forallb truthy (validated_fields sd) = false.
Proof.
  intros [x [Hin Hx]].
  destruct (forallb truthy (validated_fields sd)) eqn:Hall; [| reflexivity].
  rewrite forallb_forall in Hall. rewrite (Hall x Hin) in Hx. discriminate.
Qed.

Lemma validation_passes (sd : StockData) :
  sufficient_data sd -> forallb truthy (validated_fields sd) = true.
Proof.
  intros Hall. apply forallb_forall. exact Hall.
Qed.

(** What the combined analysis answers on insufficient data: only the RS
    criterion is in [details], so it alone decides [passed] and [score]. *)
Lemma insufficient_data_verdict (sd : StockData) (rs_rating : Z) :
  insufficient_data sd ->
  let v := analyze_with_rs_rating sd rs_rating in
  Verdict.passed v = (70 <=? rs_rating) /\
  Verdict.score v = (if 70 <=? rs_rating then 1 else 0) /\
  Verdict.max_score v = 7 /\
  Verdict.fail_reasons v =
    "Insufficient data for analysis"%string
      :: (if 70 <=? rs_rating then []
          else [Criterion.reason (_check_rs_rating_strong rs_rating)]).
Proof.
  intros Hins. apply validation_fails in Hins. unfold validated_fields in Hins.
  unfold analyze_with_rs_rating, analyze_stock. cbv zeta. rewrite Hins.
  unfold note_failure, _check_rs_rating_strong. cbn.
  destruct (70 <=? rs_rating); cbn; repeat split; reflexivity.
Qed.

End TrendTemplate.

(** C2 fails on the code.  The stock data that [DataFetcher] produces for
    [penny_history] carries no error and a price of zero; with an RS rating
    of 70 the combined analysis reports [passed = True] with score 1 of 7,
    next to the failure reason about insufficient data. *)
Theorem C2_insufficient_data_can_pass :
  error penny_stock_data = None /\
  insufficient_data penny_stock_data /\
  Verdict.passed (MinerviniAnalyzer.analyze_with_rs_rating penny_stock_data 70) = true /\
  Verdict.score (MinerviniAnalyzer.analyze_with_rs_rating penny_stock_data 70) = 1 /\
  Verdict.fail_reasons (MinerviniAnalyzer.analyze_with_rs_rating penny_stock_data 70)
    = ["Insufficient data for analysis"%string].
Proof.
  split; [vm_compute; reflexivity |].
  split.
  - exists (get (price penny_stock_data) (Fin 0)). split.
    + left. reflexivity.
    + vm_compute. reflexivity.
  - vm_compute. repeat split; reflexivity.
Qed.

(** C3.  When the six validated fields are all present and non-zero, the
    combined analysis answers, for any integer RS rating: [passed] is the
    conjunction of the seven rules, [score] is the number of rules that
    pass (so between 0 and 7), [max_score] is 7, and [fail_reasons] holds
    the reasons of the failing rules in the order of rules 1 to 7. *)
Theorem C3_combined_verdict (sd : StockData) (rs_rating : Z) :
  sufficient_data sd ->
  let v := MinerviniAnalyzer.analyze_with_rs_rating sd rs_rating in
  Verdict.passed v = forallb Criterion.passes (criteria sd rs_rating) /\
  Verdict.score v
    = Z.of_nat (List.length (filter Criterion.passes (criteria sd rs_rating))) /\
  0 <= Verdict.score v <= 7 /\
  Verdict.max_score v = 7 /\
  Verdict.fail_reasons v
    = map Criterion.reason (filter failing (criteria sd rs_rating)) /\
  Dict.values (Verdict.details v) = criteria sd rs_rating.
Proof.
  intros Hok. apply validation_passes in Hok. unfold validated_fields in Hok.
  unfold MinerviniAnalyzer.analyze_with_rs_rating, MinerviniAnalyzer.analyze_stock,
    criteria.
  cbv zeta. rewrite Hok.
  generalize (MinerviniAnalyzer._check_price_above_mas
                (get (price sd) (Fin 0)) (get (ma_150 sd) (Fin 0)) (get (ma_200 sd) (Fin 0))).
  generalize (MinerviniAnalyzer._check_ma_150_above_200
                (get (ma_150 sd) (Fin 0)) (get (ma_200 sd) (Fin 0))).
  generalize (MinerviniAnalyzer._check_ma_200_trending_up
                (get (ma_200_trending_up sd) false)).
  generalize (MinerviniAnalyzer._check_ma_50_above_others
                (get (ma_50 sd) (Fin 0)) (get (ma_150 sd) (Fin 0)) (get (ma_200 sd) (Fin 0))).
  generalize (MinerviniAnalyzer._check_above_52w_low (get (from_low_pct sd) (Fin 0))).
  generalize (MinerviniAnalyzer._check_near_52w_high (get (from_high_pct sd) (Fin 0))).
  generalize (MinerviniAnalyzer._check_rs_rating_strong rs_rating).
  intros [p7 r7 d7] [p6 r6 d6] [p5 r5 d5] [p4 r4 d4] [p3 r3 d3] [p2 r2 d2] [p1 r1 d1].
  destruct p1, p2, p3, p4, p5, p6, p7; cbn; repeat split; lia.
Qed.

Lemma uptrend_data_sufficient : sufficient_data uptrend_data.
Proof.
  intros x Hin. cbn in Hin.
  repeat (destruct Hin as [<- | Hin]; [reflexivity |]). contradiction.
Qed.

Lemma C3_combined_verdict_witness :
  let v := MinerviniAnalyzer.analyze_with_rs_rating uptrend_data 65 in
  Verdict.passed v = forallb Criterion.passes (criteria uptrend_data 65) /\
  Verdict.score v
    = Z.of_nat (List.length (filter Criterion.passes (criteria uptrend_data 65))) /\
  0 <= Verdict.score v <= 7 /\
  Verdict.max_score v = 7 /\
  Verdict.fail_reasons v
    = map Criterion.reason (filter failing (criteria uptrend_data 65)) /\
  Dict.values (Verdict.details v) = criteria uptrend_data 65.
Proof.
  exact (C3_combined_verdict uptrend_data 65 uptrend_data_sufficient).
Defined.

Example uptrend_verdict :
  let v := MinerviniAnalyzer.analyze_with_rs_rating uptrend_data 65 in
  Verdict.passed v = false /\ Verdict.score v = 5 /\
  Verdict.fail_reasons v = ["200MA not trending up"; "RS Rating 65 below 70"]%string.
Proof. vm_compute. repeat split; reflexivity. Qed.

Section Thresholds.

Import MinerviniAnalyzer.

Lemma fgeb_Fin (a b : Q) : fgeb (Fin a) (Fin b) = true <-> (b <= a)%Q.
Proof.
  unfold fgeb, fleb, fcompare. rewrite Qle_alt.
  destruct (b ?= a)%Q; split; intros H; try reflexivity; try discriminate;
    try (intros Hc; discriminate Hc); exfalso; apply H; reflexivity.
Qed.

Lemma fleb_Fin (a b : Q) : fleb (Fin a) (Fin b) = true <-> (a <= b)%Q.
Proof. exact (fgeb_Fin b a). Qed.

Lemma fgtb_Fin (a b : Q) : fgtb (Fin a) (Fin b) = true <-> (b < a)%Q.
Proof.
  unfold fgtb, fltb, fcompare. rewrite Qlt_alt.
  destruct (b ?= a)%Q; split; intros H; try reflexivity; discriminate.
Qed.

End Thresholds.

(** C7.  Rule 5 passes exactly when [from_low_pct >= 30.0] and rule 6
    exactly when [abs(from_high_pct) <= 25.0]; both thresholds are
    inclusive: 30.0 passes and 29.9 fails rule 5, 25.0 (on either side of the
    high) passes and 25.1 fails rule 6.  A [NaN] percentage fails both. *)
Theorem C7_threshold_rules :
  (forall q : Q,
     Criterion.passes (MinerviniAnalyzer._check_above_52w_low (Fin q)) = true
     <-> (30 <= q)%Q) /\
  (forall q : Q,
     Criterion.passes (MinerviniAnalyzer._check_near_52w_high (Fin q)) = true
     <-> (Qabs q <= 25)%Q) /\
  Criterion.passes (MinerviniAnalyzer._check_above_52w_low (Fin 30)) = true /\
  Criterion.passes (MinerviniAnalyzer._check_above_52w_low (Fin (299 # 10))) = false /\
  Criterion.passes (MinerviniAnalyzer._check_near_52w_high (Fin 25)) = true /\
  Criterion.passes (MinerviniAnalyzer._check_near_52w_high (Fin (-25))) = true /\
  Criterion.passes (MinerviniAnalyzer._check_near_52w_high (Fin (251 # 10))) = false /\
  Criterion.passes (MinerviniAnalyzer._check_near_52w_high (Fin (-(251 # 10)))) = false /\
  Criterion.passes (MinerviniAnalyzer._check_above_52w_low NaN) = false /\
  Criterion.passes (MinerviniAnalyzer._check_near_52w_high NaN) = false.
Proof.
  split; [| split].
  - intros q. exact (fgeb_Fin q 30).
  - intros q. exact (fleb_Fin (Qabs q) 25).
  - repeat split; reflexivity.
Qed.

(* ================================================================== *)
(** * The rating scale                                                  *)
(* ================================================================== *)

(** Linear arithmetic over [Q] after turning division by the constants of
    the scale into multiplication. *)
Ltac scale_arith :=
  unfold Qdiv, Qminus in *;
  change (/ 50)%Q with (1 # 50)%Q in *; change (/ 30)%Q with (1 # 30)%Q in *;
  change (/ 15)%Q with (1 # 15)%Q in *; change (/ 10)%Q with (1 # 10)%Q in *;
  change (/ 45)%Q with (1 # 45)%Q in *;
  lra.

Section RatingScale.

Import RSRatingCalculator.

Local Open Scope Q_scope.

Lemma Qtrunc_nonneg (q : Q) : 0 <= q -> Qtrunc q = Qfloor q.
Proof.
  destruct q as [n d]. unfold Qle, Qtrunc, Qfloor. simpl. intros H.
  apply Z.quot_div_nonneg; lia.
Qed.

Lemma Qfloor_below (e : Q) (n : Z) : e < inject_Z n -> (Qfloor e < n)%Z.
Proof.
  intros H. rewrite Zlt_Qlt.
  apply Qle_lt_trans with e; [apply Qfloor_le | assumption].
Qed.

Lemma Qfloor_above (e : Q) (n : Z) : inject_Z n <= e -> (n <= Qfloor e)%Z.
Proof.
  intros H. rewrite <- (Qfloor_Z n). apply Qfloor_resp_le. assumption.
Qed.

Lemma fgeb_true (a b : Q) : b <= a -> fgeb (Fin a) (Fin b) = true.
Proof. apply fgeb_Fin. Qed.

Lemma fgeb_false (a b : Q) : a < b -> fgeb (Fin a) (Fin b) = false.
Proof.
  intros H. destruct (fgeb (Fin a) (Fin b)) eqn:E; [| reflexivity].
  apply fgeb_Fin in E. lra.
Qed.

Lemma fltb_true (a b : Q) : a < b -> fltb (Fin a) (Fin b) = true.
Proof. apply (fgtb_Fin b a). Qed.

Lemma fltb_false (a b : Q) : b <= a -> fltb (Fin a) (Fin b) = false.
Proof.
  intros H. destruct (fltb (Fin a) (Fin b)) eqn:E; [| reflexivity].
  apply (fgtb_Fin b a) in E. lra.
Qed.

(** The unclamped band value, once the integer part is known. *)
Lemma clamp_id (r : Z) : (1 <= r <= 99)%Z -> Z.max 1 (Z.min 99 r) = r.
Proof. lia. Qed.

Lemma Qfloor_range (e : Q) (lo hi : Z) :
  inject_Z lo <= e -> e < inject_Z hi -> (lo <= Qfloor e < hi)%Z.
Proof.
  intros Hlo Hhi. split; [apply Qfloor_above | apply Qfloor_below]; assumption.
Qed.

(** The scale on a finite performance, band by band. *)
Lemma scale_above_100 (q : Q) : 100 < q -> _convert_to_rs_scale (Fin q) = 99%Z.
Proof.
  intros H. unfold _convert_to_rs_scale, band_rating.
  rewrite fgeb_true by lra. unfold py_min, fsub, fadd, fopp.
  rewrite fltb_true by lra. reflexivity.
Qed.

Lemma scale_50_100 (q : Q) :
  50 <= q <= 100 ->
  _convert_to_rs_scale (Fin q) = (90 + Qfloor (arg_top q))%Z /\
  (0 <= Qfloor (arg_top q) <= 9)%Z.
Proof.
  intros H.
  assert (Hb : (0 <= Qfloor (arg_top q) < 10)%Z)
    by (apply Qfloor_range; unfold arg_top; unfold inject_Z; scale_arith).
  split; [| lia].
  unfold _convert_to_rs_scale, band_rating.
  rewrite fgeb_true by lra. unfold py_min, fsub, fadd, fopp.
  rewrite fltb_false by lra.
  change (Z.max 1 (Z.min 99 (90 + Qtrunc (arg_top q))) = (90 + Qfloor (arg_top q))%Z).
  rewrite Qtrunc_nonneg by (unfold arg_top; scale_arith).
  lia.
Qed.

Lemma scale_20_50 (q : Q) :
  20 <= q < 50 ->
  _convert_to_rs_scale (Fin q) = (80 + Qfloor (arg_strong q))%Z /\
  (0 <= Qfloor (arg_strong q) <= 8)%Z.
Proof.
  intros H.
  assert (Hb : (0 <= Qfloor (arg_strong q) < 9)%Z)
    by (apply Qfloor_range; unfold arg_strong; unfold inject_Z; scale_arith).
  split; [| lia].
  unfold _convert_to_rs_scale, band_rating.
  rewrite (fgeb_false q 50) by lra. rewrite fgeb_true by lra.
  unfold fsub, fadd, fopp.
  change (Z.max 1 (Z.min 99 (80 + Qtrunc (arg_strong q)))
          = (80 + Qfloor (arg_strong q))%Z).
  rewrite Qtrunc_nonneg by (unfold arg_strong; scale_arith).
  lia.
Qed.

Lemma scale_5_20 (q : Q) :
  5 <= q < 20 ->
  _convert_to_rs_scale (Fin q) = (70 + Qfloor (arg_good q))%Z /\
  (0 <= Qfloor (arg_good q) <= 8)%Z.
Proof.
  intros H.
  assert (Hb : (0 <= Qfloor (arg_good q) < 9)%Z)
    by (apply Qfloor_range; unfold arg_good; unfold inject_Z; scale_arith).
  split; [| lia].
  unfold _convert_to_rs_scale, band_rating.
  rewrite (fgeb_false q 50), (fgeb_false q 20) by lra. rewrite fgeb_true by lra.
  unfold fsub, fadd, fopp.
  change (Z.max 1 (Z.min 99 (70 + Qtrunc (arg_good q)))
          = (70 + Qfloor (arg_good q))%Z).
  rewrite Qtrunc_nonneg by (unfold arg_good; scale_arith).
  lia.
Qed.

Lemma scale_m5_5 (q : Q) :
  - (5) <= q < 5 ->
  _convert_to_rs_scale (Fin q) = (50 + Qfloor (arg_average q))%Z /\
  (0 <= Qfloor (arg_average q) <= 18)%Z.
Proof.
  intros H.
  assert (Hb : (0 <= Qfloor (arg_average q) < 19)%Z)
    by (apply Qfloor_range; unfold arg_average; unfold inject_Z; scale_arith).
  split; [| lia].
  unfold _convert_to_rs_scale, band_rating.
  rewrite (fgeb_false q 50), (fgeb_false q 20), (fgeb_false q 5) by lra.
  rewrite fgeb_true by lra.
  unfold fadd.
  change (Z.max 1 (Z.min 99 (50 + Qtrunc (arg_average q)))
          = (50 + Qfloor (arg_average q))%Z).
  rewrite Qtrunc_nonneg by (unfold arg_average; scale_arith).
  lia.
Qed.

Lemma scale_m50_m5 (q : Q) :
  - (50) <= q < - (5) ->
  _convert_to_rs_scale (Fin q) = (49 - Qfloor (arg_under q))%Z /\
  (0 <= Qfloor (arg_under q) <= 48)%Z.
Proof.
  intros H.
  assert (Ha : Qabs (q + 5) == - (q + 5)) by (apply Qabs_neg; lra).
  assert (Hb : (0 <= Qfloor (arg_under q) < 49)%Z).
  { apply Qfloor_range; unfold arg_under; unfold inject_Z;
      revert Ha; generalize (Qabs (q + 5)); intros a Ha; scale_arith. }
  split; [| lia].
  unfold _convert_to_rs_scale, band_rating.
  rewrite (fgeb_false q 50), (fgeb_false q 20), (fgeb_false q 5),
    (fgeb_false q (-5)) by lra.
  unfold py_min, fabs, fadd.
  rewrite fltb_false by (rewrite Ha; lra).
  change (Z.max 1 (Z.min 99 (49 - Qtrunc (arg_under q)))
          = (49 - Qfloor (arg_under q))%Z).
  rewrite Qtrunc_nonneg
    by (unfold arg_under; revert Ha; generalize (Qabs (q + 5)); intros a Ha; scale_arith).
  lia.
Qed.

Lemma scale_below_m50 (q : Q) : q < - (50) -> _convert_to_rs_scale (Fin q) = 1%Z.
Proof.
  intros H.
  assert (Ha : Qabs (q + 5) == - (q + 5)) by (apply Qabs_neg; lra).
  unfold _convert_to_rs_scale, band_rating.
  rewrite (fgeb_false q 50), (fgeb_false q 20), (fgeb_false q 5),
    (fgeb_false q (-5)) by lra.
  unfold py_min, fabs, fadd.
  rewrite fltb_true by (rewrite Ha; lra).
  reflexivity.
Qed.

Lemma arg_under_antitone (x y : Q) :
  x <= y -> y < - (5) -> arg_under y <= arg_under x.
Proof.
  intros Hxy Hy.
  assert (Hx : Qabs (x + 5) == - (x + 5)) by (apply Qabs_neg; lra).
  assert (Hy' : Qabs (y + 5) == - (y + 5)) by (apply Qabs_neg; lra).
  unfold arg_under. rewrite Hx, Hy'. scale_arith.
Qed.

(** Every finite performance falls in one of the seven pieces of the
    scale. *)
Lemma scale_cases (q : Q) :
  (100 < q /\ _convert_to_rs_scale (Fin q) = 99%Z) \/
  (50 <= q <= 100 /\
   _convert_to_rs_scale (Fin q) = (90 + Qfloor (arg_top q))%Z /\
   (0 <= Qfloor (arg_top q) <= 9)%Z) \/
  (20 <= q < 50 /\
   _convert_to_rs_scale (Fin q) = (80 + Qfloor (arg_strong q))%Z /\
   (0 <= Qfloor (arg_strong q) <= 8)%Z) \/
  (5 <= q < 20 /\
   _convert_to_rs_scale (Fin q) = (70 + Qfloor (arg_good q))%Z /\
   (0 <= Qfloor (arg_good q) <= 8)%Z) \/
  (- (5) <= q < 5 /\
   _convert_to_rs_scale (Fin q) = (50 + Qfloor (arg_average q))%Z /\
   (0 <= Qfloor (arg_average q) <= 18)%Z) \/
  (- (50) <= q < - (5) /\
   _convert_to_rs_scale (Fin q) = (49 - Qfloor (arg_under q))%Z /\
   (0 <= Qfloor (arg_under q) <= 48)%Z) \/
  (q < - (50) /\ _convert_to_rs_scale (Fin q) = 1%Z).
Proof.
  destruct (Qlt_le_dec 100 q) as [H100 | H100];
    [left; split; [assumption | now apply scale_above_100] | right].
  destruct (Qlt_le_dec q 50) as [H50 | H50];
    [right | left; split; [lra | apply scale_50_100; lra]].
  destruct (Qlt_le_dec q 20) as [H20 | H20];
    [right | left; split; [lra | apply scale_20_50; lra]].
  destruct (Qlt_le_dec q 5) as [H5 | H5];
    [right | left; split; [lra | apply scale_5_20; lra]].
  destruct (Qlt_le_dec q (- (5))) as [Hm5 | Hm5];
    [right | left; split; [lra | apply scale_m5_5; lra]].
  destruct (Qlt_le_dec q (- (50))) as [Hm50 | Hm50];
    [right; split; [assumption | now apply scale_below_m50]
    | left; split; [lra | apply scale_m50_m5; lra]].
Qed.

Lemma Qfloor_arg_mono (f : Q -> Q) (x y : Q) :
  f x <= f y -> (Qfloor (f x) <= Qfloor (f y))%Z.
Proof. apply Qfloor_resp_le. Qed.

End RatingScale.

(** C10.  The conversion from relative performance to rating is monotone:
    a performance that is no smaller gets a rating that is no smaller,
    within a band, across the band boundaries and beyond the caps at +100
    and -50. *)
Theorem C10_scale_monotone (x y : Q) :
  (x <= y)%Q ->
  RSRatingCalculator._convert_to_rs_scale (Fin x)
    <= RSRatingCalculator._convert_to_rs_scale (Fin y).
Proof.
  intros Hxy.
  destruct (scale_cases x)
    as [[Hx Ex] | [[Hx [Ex Bx]] | [[Hx [Ex Bx]] | [[Hx [Ex Bx]]
        | [[Hx [Ex Bx]] | [[Hx [Ex Bx]] | [Hx Ex]]]]]]];
  destruct (scale_cases y)
    as [[Hy Ey] | [[Hy [Ey By]] | [[Hy [Ey By]] | [[Hy [Ey By]]
        | [[Hy [Ey By]] | [[Hy [Ey By]] | [Hy Ey]]]]]]];
  try (exfalso; lra); rewrite Ex, Ey; try lia.
  - assert (Qfloor (arg_top x) <= Qfloor (arg_top y))
      by (apply Qfloor_arg_mono; unfold arg_top; scale_arith).
    lia.
  - assert (Qfloor (arg_strong x) <= Qfloor (arg_strong y))
      by (apply Qfloor_arg_mono; unfold arg_strong; scale_arith).
    lia.
  - assert (Qfloor (arg_good x) <= Qfloor (arg_good y))
      by (apply Qfloor_arg_mono; unfold arg_good; scale_arith).
    lia.
  - assert (Qfloor (arg_average x) <= Qfloor (arg_average y))
      by (apply Qfloor_arg_mono; unfold arg_average; scale_arith).
    lia.
  - assert (Qfloor (arg_under y) <= Qfloor (arg_under x))
      by (apply Qfloor_resp_le, arg_under_antitone; lra).
    lia.
Qed.

Lemma C10_scale_monotone_witness :
  RSRatingCalculator._convert_to_rs_scale (Fin (499 # 10))
    <= RSRatingCalculator._convert_to_rs_scale (Fin 50).
Proof.
  apply (C10_scale_monotone (499 # 10) 50). unfold Qle. simpl. lia.
Defined.

Example scale_samples :
  map RSRatingCalculator._convert_to_rs_scale
      [NInf; Fin (-60); Fin (-50); Fin (-(51 # 10)); Fin (-5); Fin 0; Fin (49 # 10);
       Fin 5; Fin (199 # 10); Fin 20; Fin (499 # 10); Fin 50; Fin 100; Fin 1000;
       PInf; NaN]
  = [1; 1; 1; 49; 50; 59; 68; 70; 78; 80; 88; 90; 99; 99; 99; 1].
Proof. vm_compute. reflexivity. Qed.

(* ================================================================== *)
(** * Flat series                                                       *)
(* ================================================================== *)

Section FlatSeries.

Import RSRatingCalculator.

Lemma close_column_flat (ds : list Z) (px : Q) :
  close_column (flat_frame ds px) = flat_series ds px.
Proof.
  unfold close_column, flat_frame, flat_series. cbn. rewrite map_map. reflexivity.
Qed.

Lemma index_flat (ds : list Z) (px : Q) : index (flat_series ds px) = ds.
Proof.
  unfold index, flat_series. rewrite map_map. cbn. apply map_id.
Qed.

Lemma filter_all {A : Type} (f : A -> bool) (l : list A) :
  (forall x, In x l -> f x = true) -> filter f l = l.
Proof.
  induction l as [| a l IH]; intros H; [reflexivity |].
  cbn. rewrite (H a (or_introl eq_refl)). f_equal. apply IH.
  intros x Hx. apply H. now right.
Qed.

Lemma intersection_self (ds : list Z) : NoDup ds -> intersection ds ds = ds.
Proof.
  intros Hnd. unfold intersection.
  rewrite filter_all by (intros x Hx; now apply mem_In).
  now apply nodup_fixed_point.
Qed.

Lemma has_duplicates_NoDup (ds : list Z) : NoDup ds -> has_duplicates ds = false.
Proof.
  induction 1 as [| d ds Hnotin Hnd IH]; [reflexivity |].
  cbn. rewrite IH. destruct (mem d ds) eqn:Hm; [| reflexivity].
  apply mem_In in Hm. contradiction.
Qed.

Lemma lookup_flat (ds : list Z) (px : Q) (d : Z) :
  In d ds -> lookup d (flat_series ds px) = Fin px.
Proof.
  unfold lookup, flat_series. induction ds as [| d' ds IH]; [contradiction |].
  intros Hin. cbn. destruct (d' =? d) eqn:Heq; [reflexivity |].
  apply IH. destruct Hin as [-> | Hin]; [| assumption].
  rewrite Z.eqb_refl in Heq. discriminate.
Qed.

Lemma reindex_flat (ds : list Z) (px : Q) :
  NoDup ds -> reindex (flat_series ds px) ds = Ok (flat_series ds px).
Proof.
  intros Hnd. unfold reindex. rewrite index_flat, (has_duplicates_NoDup ds Hnd).
  cbv iota. apply f_equal. unfold flat_series at 2. apply map_ext_in.
  intros d Hin. now rewrite lookup_flat.
Qed.

Lemma dropna_flat (ds : list Z) (px : Q) :
  dropna (flat_series ds px) = flat_series ds px.
Proof.
  unfold dropna. apply filter_all. intros p Hp.
  unfold flat_series in Hp. apply in_map_iff in Hp. destruct Hp as [d [<- _]].
  reflexivity.
Qed.

Lemma align_flat (ds : list Z) (c d : Q) :
  NoDup ds -> ds <> [] ->
  _align_data (flat_frame ds c) (flat_frame ds d)
  = (sort_index (flat_series ds c), sort_index (flat_series ds d)).
Proof.
  intros Hnd Hne. unfold _align_data.
  rewrite !close_column_flat, !index_flat, (intersection_self ds Hnd).
  destruct ds as [| d0 ds']; [contradiction |].
  cbn [List.length Nat.eqb].
  rewrite !reindex_flat by assumption. cbn [bind].
  rewrite !dropna_flat, !index_flat, (intersection_self _ Hnd).
  rewrite !reindex_flat by assumption. reflexivity.
Qed.

Lemma insert_all_quote (px : Q) (p : Z * float) (s : Series) :
  snd p = Fin px -> all_quote px s -> all_quote px (insert_by_date p s).
Proof.
  intros Hp Hs. induction Hs as [| p' s Hp' Hs IH]; cbn.
  - repeat constructor. assumption.
  - destruct (fst p <? fst p'); repeat constructor; assumption.
Qed.

Lemma insert_length (p : Z * float) (s : Series) :
  List.length (insert_by_date p s) = S (List.length s).
Proof.
  induction s as [| p' s IH]; [reflexivity |].
  cbn. destruct (fst p <? fst p'); cbn; [reflexivity | now rewrite IH].
Qed.

Lemma sort_index_all_quote (px : Q) (s : Series) :
  all_quote px s -> all_quote px (sort_index s).
Proof.
  induction 1 as [| p s Hp Hs IH]; [constructor |].
  change (sort_index (p :: s)) with (insert_by_date p (sort_index s)).
  now apply insert_all_quote.
Qed.

Lemma sort_index_length (s : Series) : List.length (sort_index s) = List.length s.
Proof.
  induction s as [| p s IH]; [reflexivity |].
  change (sort_index (p :: s)) with (insert_by_date p (sort_index s)).
  now rewrite insert_length, IH.
Qed.

Lemma flat_series_all_quote (ds : list Z) (px : Q) : all_quote px (flat_series ds px).
Proof.
  unfold all_quote, flat_series. apply Forall_map, Forall_forall. reflexivity.
Qed.

Lemma flat_series_length (ds : list Z) (px : Q) :
  List.length (flat_series ds px) = List.length ds.
Proof. apply length_map. Qed.

Lemma values_all_quote (px : Q) (s : Series) :
  all_quote px s -> values s = repeat (Fin px) (List.length s).
Proof.
  induction 1 as [| p s Hp Hs IH]; [reflexivity |].
  cbn. rewrite Hp. f_equal. exact IH.
Qed.

Lemma iloc_neg_all_quote (px : Q) (s : Series) (k : nat) :
  all_quote px s -> (1 <= k <= List.length s)%nat ->
  iloc_neg (values s) k = Ok (Fin px).
Proof.
  intros Hs Hk. unfold iloc_neg.
  assert (Hlen : List.length (values s) = List.length s) by apply length_map.
  rewrite Hlen.
  destruct (Nat.leb_spec 1 k); [| lia].
  destruct (Nat.leb_spec k (List.length s)); [| lia].
  cbn [andb]. rewrite (values_all_quote px s Hs).
  rewrite nth_error_repeat by lia. reflexivity.
Qed.

End FlatSeries.

Section FlatRating.

Import RSRatingCalculator.

Local Open Scope Q_scope.

Lemma flat_return_zero (px : Q) : flat_return px == 0.
Proof. unfold flat_return, Qdiv. ring. Qed.

Lemma pct_return_flat (px : Q) :
  ~ px == 0 -> pct_return (Fin px) (Fin px) = Fin (flat_return px).
Proof.
  intros Hpx. unfold pct_return, fsub, fadd, fopp, np_div.
  destruct (Qeq_bool px 0) eqn:E; [| reflexivity].
  apply Qeq_bool_iff in E. contradiction.
Qed.

Lemma period_performance_flat (c d : Q) (s b : Series) (period : nat) :
  all_quote c s -> all_quote d b -> List.length b = List.length s ->
  (1 <= period <= List.length s)%nat ->
  ~ c == 0 -> ~ d == 0 ->
  _calculate_period_performance s b period
  = Some (Fin (flat_return c + - flat_return d)).
Proof.
  intros Hs Hb Hlen Hp Hc Hd. unfold _calculate_period_performance.
  destruct (Nat.ltb_spec (List.length s) period); [lia |].
  rewrite !(iloc_neg_all_quote c s) by (assumption || lia).
  rewrite !(iloc_neg_all_quote d b) by (assumption || lia).
  cbn [bind try_except]. rewrite !pct_return_flat by assumption. reflexivity.
Qed.

Lemma scale_of_zero (t : Q) : t == 0 -> _convert_to_rs_scale (Fin t) = 59%Z.
Proof.
  intros Ht.
  destruct (scale_m5_5 t) as [E _]; [lra |].
  rewrite E.
  assert (9 <= Qfloor (arg_average t) < 10)%Z; [| lia].
  apply Qfloor_range; unfold arg_average, inject_Z; scale_arith.
Qed.

End FlatRating.

(** C5.  A stock and a benchmark that each quote one constant, non-zero
    price on the same 252 (or more) trading dates: each of the four period
    relative performances is zero, their weighted sum is zero, and the RS
    rating is 59, that is 50 + int((0 + 5) / 10 * 19). *)
Theorem C5_flat_series_rating (ds : list Z) (c d : Q) (sym : string) :
  NoDup ds ->
  (252 <= List.length ds)%nat ->
  ~ (c == 0)%Q ->
  ~ (d == 0)%Q ->
  let stock := flat_frame ds c in
  let sp500 := flat_frame ds d in
  let aligned := RSRatingCalculator._align_data stock sp500 in
  (forall period, In period RSRatingCalculator.periods ->
     exists perf,
       RSRatingCalculator._calculate_period_performance
         (fst aligned) (snd aligned) period = Some perf /\
       feq perf (Fin 0)) /\
  feq (RSRatingCalculator.py_sum
         (RSRatingCalculator.weighted_performances (fst aligned) (snd aligned)))
      (Fin 0) /\
  RSRatingCalculator.calculate_rs_rating (history_only sym stock) (Some sp500) = 59.
Proof.
  intros Hnd Hlen Hc Hd stock sp500 aligned.
  assert (Hne : ds <> []) by (intros ->; cbn in Hlen; lia).
  assert (Hal : aligned = (RSRatingCalculator.sort_index (flat_series ds c),
                           RSRatingCalculator.sort_index (flat_series ds d)))
    by (apply align_flat; assumption).
  set (s := RSRatingCalculator.sort_index (flat_series ds c)) in *.
  set (b := RSRatingCalculator.sort_index (flat_series ds d)) in *.
  assert (Hs : all_quote c s) by apply sort_index_all_quote, flat_series_all_quote.
  assert (Hb : all_quote d b) by apply sort_index_all_quote, flat_series_all_quote.
  assert (Ls : List.length s = List.length ds)
    by (unfold s; now rewrite sort_index_length, flat_series_length).
  assert (Lb : List.length b = List.length s)
    by (unfold b; now rewrite sort_index_length, flat_series_length).
  assert (Hperf : forall period, In period RSRatingCalculator.periods ->
            RSRatingCalculator._calculate_period_performance s b period
            = Some (Fin (flat_return c + - flat_return d))).
  { intros period Hin. apply period_performance_flat; try assumption.
    cbn in Hin. lia. }
  assert (Hw : RSRatingCalculator.weighted_performances s b
               = map (fun w => Fin ((flat_return c + - flat_return d) * w))
                   [4 # 10; 2 # 10; 2 # 10; 2 # 10]%Q).
  { unfold RSRatingCalculator.weighted_performances, RSRatingCalculator.periods,
      RSRatingCalculator.weights.
    cbn [combine map fst snd].
    rewrite !Hperf by (cbn; tauto). reflexivity. }
  rewrite Hal. cbn [fst snd].
  split; [| split].
  - intros period Hin. eexists. split; [apply Hperf; assumption |].
    cbn. rewrite !flat_return_zero. reflexivity.
  - rewrite Hw. cbn. rewrite !flat_return_zero. reflexivity.
  - unfold RSRatingCalculator.calculate_rs_rating, history_only.
    cbn [historical_data]. fold stock. unfold empty.
    destruct (rows stock) eqn:Hrows.
    { unfold stock, flat_frame in Hrows. cbn in Hrows.
      apply map_eq_nil in Hrows. contradiction. }
    fold aligned. rewrite Hal.
    destruct (Nat.ltb_spec (List.length s) 63); [lia |].
    rewrite Hw. cbn [map try_except RSRatingCalculator.py_sum fold_left fadd].
    apply scale_of_zero. rewrite !flat_return_zero. reflexivity.
Qed.

Lemma C5_trading_days_NoDup (n : nat) : NoDup (map Z.of_nat (seq 0 n)).
Proof.
  apply NoDup_map_NoDup_ForallPairs; [| apply seq_NoDup].
  intros a b _ _. apply Nat2Z.inj.
Qed.

Lemma C5_flat_series_rating_witness :
  RSRatingCalculator.calculate_rs_rating
    (history_only "FLAT" (flat_frame (map Z.of_nat (seq 0 252)) 100))
    (Some (flat_frame (map Z.of_nat (seq 0 252)) 100)) = 59.
Proof.
  refine (proj2 (proj2 (C5_flat_series_rating (map Z.of_nat (seq 0 252)) 100 100
                          "FLAT" (C5_trading_days_NoDup 252) _ _ _))).
  - rewrite length_map, length_seq. apply Nat.le_refl.
  - intros H. discriminate H.
  - intros H. discriminate H.
Defined.

Example scenario_A :
  RSRatingCalculator.calculate_rs_rating
    (history_only "FLAT" (flat_frame (map Z.of_nat (seq 0 252)) 100))
    (Some (flat_frame (map Z.of_nat (seq 0 252)) 100)) = 59.
Proof. vm_compute. reflexivity. Qed.

(* ================================================================== *)
(** * Properties of the indicator computation                           *)
(* ================================================================== *)

Section Indicators.

Import DataFetcher.

Lemma iloc_neg_nth {A : Type} (l : list A) (k : nat) (d : A) :
  (1 <= k <= List.length l)%nat ->
  iloc_neg l k = Ok (nth (List.length l - k) l d).
Proof.
  intros Hk. unfold iloc_neg.
  destruct (Nat.leb_spec 1 k); [| lia].
  destruct (Nat.leb_spec k (List.length l)); [| lia].
  cbn [andb]. rewrite (nth_error_nth' l d) by lia. reflexivity.
Qed.

Lemma rolling_mean_length (w m : nat) (l : list float) :
  List.length (rolling_mean w m l) = List.length l.
Proof. unfold rolling_mean. now rewrite length_map, length_seq. Qed.

Lemma rolling_mean_nth (w m : nat) (l : list float) (i : nat) :
  (i < List.length l)%nat ->
  nth i (rolling_mean w m l) NaN = rolling_mean_at w m l i.
Proof.
  intros Hi. unfold rolling_mean.
  rewrite (nth_indep _ NaN (rolling_mean_at w m l 0))
    by (rewrite length_map, length_seq; assumption).
  rewrite map_nth, seq_nth by assumption. reflexivity.
Qed.

Lemma iloc_neg_rolling (w m : nat) (l : list float) (k : nat) :
  (1 <= k <= List.length l)%nat ->
  iloc_neg (rolling_mean w m l) k = Ok (rolling_mean_at w m l (List.length l - k)).
Proof.
  intros Hk. rewrite (iloc_neg_nth _ k NaN) by (rewrite rolling_mean_length; lia).
  rewrite rolling_mean_length, rolling_mean_nth by lia. reflexivity.
Qed.

Lemma fgtb_nonzero (x : float) : fgtb x (Fin 0) = true -> is_zero x = false.
Proof.
  destruct x as [q | | |]; try reflexivity. intros H.
  apply fgtb_Fin in H. cbn. destruct (Qeq_bool q 0) eqn:E; [| reflexivity].
  apply Qeq_bool_iff in E. lra.
Qed.

Lemma price_vs_ok (current_price ma : float) :
  price_vs current_price ma = Ok (price_vs_value current_price ma).
Proof.
  unfold price_vs, price_vs_value, py_div.
  destruct (fgtb ma (Fin 0)) eqn:E; [| reflexivity].
  now rewrite (fgtb_nonzero ma E).
Qed.

(** The two outcomes of the indicator body: the snapshot, or the
    [ZeroDivisionError] of a percentage offset from a zero extreme. *)
Lemma indicators_cases (hist : DataFrame) (sym : string) :
  rows hist <> [] ->
  indicators hist sym
  = if is_zero (week_52_high_of hist) || is_zero (week_52_low_of hist)
    then Raise ZeroDivisionError
    else Ok (snapshot hist sym).
Proof.
  intros Hne.
  assert (Hlen : (1 <= List.length (closes hist))%nat).
  { unfold closes. rewrite length_map. destruct (rows hist); [contradiction | cbn; lia]. }
  unfold indicators. fold (closes hist).
  rewrite (iloc_neg_nth (closes hist) 1 NaN) by lia.
  cbn [bind]. rewrite !iloc_neg_rolling by lia. cbn [bind].
  fold (week_52_high_of hist) (week_52_low_of hist).
  unfold py_div.
  destruct (is_zero (week_52_high_of hist)); [reflexivity |].
  destruct (is_zero (week_52_low_of hist)); [reflexivity |].
  cbn [bind orb]. rewrite !price_vs_ok. cbn [bind].
  unfold snapshot, latest, pct_from, closes. rewrite !length_map.
  destruct (volume_analysis (map Volume (rows hist))) as [[avg recent] ratio].
  reflexivity.
Qed.

Lemma calculate_indicators_short (hist : DataFrame) (sym : string) :
  (List.length (rows hist) < 50)%nat ->
  _calculate_indicators hist sym = error_dict sym (ErrText "Insufficient data").
Proof.
  intros Hlen. unfold _calculate_indicators.
  destruct (Nat.ltb_spec (List.length (rows hist)) 50); [reflexivity | lia].
Qed.

Lemma calculate_indicators_cases (hist : DataFrame) (sym : string) :
  (50 <= List.length (rows hist))%nat ->
  _calculate_indicators hist sym
  = if is_zero (week_52_high_of hist) || is_zero (week_52_low_of hist)
    then error_dict sym (ErrStr ZeroDivisionError)
    else snapshot hist sym.
Proof.
  intros Hlen. unfold _calculate_indicators.
  destruct (Nat.ltb_spec (List.length (rows hist)) 50); [lia |].
  rewrite indicators_cases by (intros E; rewrite E in Hlen; cbn in Hlen; lia).
  destruct (is_zero (week_52_high_of hist) || is_zero (week_52_low_of hist));
    reflexivity.
Qed.

End Indicators.

Section Fallbacks.

Import DataFetcher.

Lemma filter_length_le {A : Type} (f : A -> bool) (l : list A) :
  (List.length (filter f l) <= List.length l)%nat.
Proof.
  induction l as [| a l IH]; [apply Nat.le_refl |].
  cbn. destruct (f a); cbn; lia.
Qed.

Lemma window_length_le (w i : nat) (l : list float) :
  (List.length (window w i l) <= S i)%nat.
Proof.
  unfold window. rewrite length_skipn, length_firstn. lia.
Qed.

(** With fewer rows than [min_periods] the rolling mean is undefined. *)
Lemma rolling_mean_at_short (w m i : nat) (l : list float) :
  (S i < m)%nat -> rolling_mean_at w m l i = NaN.
Proof.
  intros Hi. unfold rolling_mean_at.
  pose proof (filter_length_le (fun x => negb (isna x)) (window w i l)) as Hf.
  pose proof (window_length_le w i l) as Hw.
  unfold dropna_values.
  destruct (Nat.leb_spec m (List.length (filter (fun x => negb (isna x)) (window w i l))));
    [lia | reflexivity].
Qed.

Lemma with_fallback_nan (x current_price : float) :
  isna x = true -> with_fallback x current_price = current_price.
Proof. intros H. unfold with_fallback. now rewrite H. Qed.

Lemma guarded_volume_ratio_ok (recent_volume avg_volume : Z) :
  exists v, guarded_volume_ratio recent_volume avg_volume = Ok v /\ is_finite v = true.
Proof.
  unfold guarded_volume_ratio, int_truediv.
  destruct (Z.ltb_spec 0 avg_volume) as [Hpos | Hnpos].
  - destruct (Z.eqb_spec avg_volume 0); [lia |]. eexists. split; reflexivity.
  - eexists. split; reflexivity.
Qed.

Lemma guarded_volume_ratio_nonpositive (recent_volume avg_volume : Z) :
  avg_volume <= 0 -> guarded_volume_ratio recent_volume avg_volume = Ok (Fin 1).
Proof.
  intros H. unfold guarded_volume_ratio.
  destruct (Z.ltb_spec 0 avg_volume); [lia | reflexivity].
Qed.

Lemma Qtrunc_zero (q : Q) : (q == 0)%Q -> Qtrunc q = 0.
Proof.
  unfold Qeq, Qtrunc. cbn. intros H.
  replace (Qnum q) with 0 by lia. reflexivity.
Qed.

Lemma volume_ratio_zero_mean (vol : list float) (q : Q) :
  mean (tail 50 vol) = Fin q -> (q == 0)%Q ->
  feq (py_round (snd (volume_analysis vol)) 2) (Fin 1).
Proof.
  intros Hmean Hq. unfold volume_analysis. rewrite Hmean.
  cbn [py_int bind]. rewrite (Qtrunc_zero q Hq).
  destruct (iloc_neg vol 1) as [last |]; [| reflexivity].
  cbn [bind]. destruct (py_int last) as [recent |]; reflexivity.
Qed.

Lemma volume_ratio_zero_average (vol : list float) :
  fst (fst (volume_analysis vol)) = 0 ->
  feq (py_round (snd (volume_analysis vol)) 2) (Fin 1).
Proof.
  unfold volume_analysis.
  destruct (py_int (mean (tail 50 vol))) as [avg |]; [| discriminate].
  cbn [bind]. destruct (iloc_neg vol 1) as [last |]; [| discriminate].
  cbn [bind]. destruct (py_int last) as [recent |]; [| discriminate].
  cbn [bind].
  destruct (Z.eq_dec avg 0) as [-> | Hne].
  - intros _. reflexivity.
  - destruct (guarded_volume_ratio_ok recent avg) as [v [-> _]].
    cbn. intros E. contradiction.
Qed.

End Fallbacks.

(** C9.  For a history of at least 50 bars that the indicator computation
    accepts: the reported price is the latest close rounded to cents; each
    reported moving average equals the reported price whenever its rolling
    mean at the latest row is undefined, in particular the 150-day average
    below 75 bars and the 200-day average below 100 bars; and the reported
    volume ratio is 1 whenever the trailing 50-day mean volume is zero, and
    more generally whenever [avg_volume], its integer part, is zero.
    The volume division is evaluated only for a positive average, so it
    always yields a value. *)
Theorem C9_fallback_values (hist : DataFrame) (sym : string) :
  (50 <= List.length (rows hist))%nat ->
  error (DataFetcher._calculate_indicators hist sym) = None ->
  let r := DataFetcher._calculate_indicators hist sym in
  price r = Some (py_round (nth (latest hist) (closes hist) NaN) 2) /\
  (isna (rolling_mean_at 50 25 (closes hist) (latest hist)) = true ->
   ma_50 r = price r) /\
  (isna (rolling_mean_at 150 75 (closes hist) (latest hist)) = true ->
   ma_150 r = price r) /\
  (isna (rolling_mean_at 200 100 (closes hist) (latest hist)) = true ->
   ma_200 r = price r) /\
  ((List.length (rows hist) < 75)%nat -> ma_150 r = price r) /\
  ((List.length (rows hist) < 100)%nat -> ma_200 r = price r) /\
  (forall q : Q,
     mean (tail 50 (map Volume (rows hist))) = Fin q -> (q == 0)%Q ->
     exists v, volume_ratio r = Some v /\ feq v (Fin 1)) /\
  (avg_volume r = Some 0 ->
   exists v, volume_ratio r = Some v /\ feq v (Fin 1)) /\
  (forall recent_volume avg_volume : Z,
     exists v, DataFetcher.guarded_volume_ratio recent_volume avg_volume = Ok v) /\
  (forall recent_volume : Z,
     DataFetcher.guarded_volume_ratio recent_volume 0 = Ok (Fin 1)).
Proof.
  intros Hlen. rewrite (calculate_indicators_cases hist sym Hlen).
  destruct (is_zero (week_52_high_of hist) || is_zero (week_52_low_of hist));
    [discriminate |].
  intros _. cbn zeta.
  assert (Hshort : forall w m, (List.length (rows hist) < m)%nat ->
            rolling_mean_at w m (closes hist) (latest hist) = NaN).
  { intros w m Hm. apply rolling_mean_at_short. unfold latest. lia. }
  unfold snapshot. cbn [price ma_50 ma_150 ma_200 avg_volume volume_ratio].
  repeat split.
  - intros H. now rewrite with_fallback_nan.
  - intros H. now rewrite with_fallback_nan.
  - intros H. now rewrite with_fallback_nan.
  - intros H. now rewrite (Hshort 150 75 H)%nat.
  - intros H. now rewrite (Hshort 200 100 H)%nat.
  - intros q Hmean Hq. eexists. split; [reflexivity |].
    now apply (volume_ratio_zero_mean _ q).
  - intros H. eexists. split; [reflexivity |].
    apply volume_ratio_zero_average. congruence.
  - intros recent avg. destruct (guarded_volume_ratio_ok recent avg) as [v [Hv _]].
    now exists v.
Qed.

Lemma C9_fallback_values_witness :
  ma_150 (DataFetcher._calculate_indicators (rising_history 60) "RISE")
  = price (DataFetcher._calculate_indicators (rising_history 60) "RISE").
Proof.
  refine (proj1 (proj2 (proj2 (proj2 (proj2
            (C9_fallback_values (rising_history 60) "RISE" _ _))))) _).
  - unfold rising_history. cbn [rows frame_of].
    rewrite length_map, length_seq. lia.
  - vm_compute. reflexivity.
  - unfold rising_history. cbn [rows frame_of].
    rewrite length_map, length_seq. lia.
Defined.

Section WellFormed.

Import DataFetcher.

Lemma positive_price_inv (x : float) :
  positive_price x = true -> exists q, x = Fin q /\ (0 < q)%Q.
Proof.
  unfold positive_price. destruct x as [q | | |]; try discriminate.
  cbn [is_finite andb]. intros H. exists q. split; [reflexivity |].
  now apply fgtb_Fin.
Qed.

Lemma positive_price_nonzero (x : float) :
  positive_price x = true -> is_zero x = false.
Proof.
  intros H. apply fgtb_nonzero.
  unfold positive_price in H. apply andb_prop in H. tauto.
Qed.

Lemma well_formed_columns (hist : DataFrame) :
  well_formed hist = true ->
  all_positive (map High (rows hist)) /\ all_positive (map Low (rows hist))
  /\ all_positive (map Close (rows hist)).
Proof.
  unfold well_formed, all_positive. intros H. rewrite forallb_forall in H.
  repeat split; apply Forall_map, Forall_forall; intros b Hb;
    specialize (H b Hb); unfold well_formed_bar in H;
    repeat (apply andb_prop in H; destruct H as [H ?]); assumption.
Qed.

Lemma all_positive_skipn (n : nat) (l : list float) :
  all_positive l -> all_positive (skipn n l).
Proof.
  unfold all_positive. intros H. rewrite <- (firstn_skipn n l) in H.
  apply Forall_app in H. tauto.
Qed.

Lemma all_positive_firstn (n : nat) (l : list float) :
  all_positive l -> all_positive (firstn n l).
Proof.
  unfold all_positive. intros H. rewrite <- (firstn_skipn n l) in H.
  apply Forall_app in H. tauto.
Qed.

Lemma dropna_positive (l : list float) : all_positive l -> dropna_values l = l.
Proof.
  intros H. unfold dropna_values. apply filter_all. intros x Hx.
  unfold all_positive in H. rewrite Forall_forall in H.
  destruct (positive_price_inv x (H x Hx)) as [q [-> _]]. reflexivity.
Qed.

Lemma fold_max_positive (xs : list float) (x : float) :
  all_positive xs -> positive_price x = true ->
  positive_price (fold_left (fun acc y => if fltb acc y then y else acc) xs x) = true.
Proof.
  intros Hxs. revert x. induction Hxs as [| y xs Hy Hxs IH]; intros x Hx; [exact Hx |].
  cbn. apply IH. destruct (fltb x y); assumption.
Qed.

Lemma fold_min_positive (xs : list float) (x : float) :
  all_positive xs -> positive_price x = true ->
  positive_price (fold_left (fun acc y => if fltb y acc then y else acc) xs x) = true.
Proof.
  intros Hxs. revert x. induction Hxs as [| y xs Hy Hxs IH]; intros x Hx; [exact Hx |].
  cbn. apply IH. destruct (fltb y x); assumption.
Qed.

Lemma max_positive (l : list float) :
  all_positive l -> l <> [] -> positive_price (Pandas.max l) = true.
Proof.
  intros Hl Hne. unfold Pandas.max. rewrite (dropna_positive l Hl).
  destruct l as [| x xs]; [contradiction |].
  inversion Hl; subst. now apply fold_max_positive.
Qed.

Lemma min_positive (l : list float) :
  all_positive l -> l <> [] -> positive_price (Pandas.min l) = true.
Proof.
  intros Hl Hne. unfold Pandas.min. rewrite (dropna_positive l Hl).
  destruct l as [| x xs]; [contradiction |].
  inversion Hl; subst. now apply fold_min_positive.
Qed.

Lemma tail_nonempty {A : Type} (k : nat) (l : list A) :
  (1 <= k)%nat -> l <> [] -> tail k l <> [].
Proof.
  intros Hk Hne E. apply (f_equal (@List.length A)) in E.
  unfold tail in E. rewrite length_skipn in E.
  assert (0 < List.length l)%nat by (destruct l; [contradiction | cbn; lia]).
  change (List.length (@nil A)) with 0%nat in E. lia.
Qed.

Lemma week_52_positive (hist : DataFrame) :
  well_formed hist = true -> rows hist <> [] ->
  positive_price (week_52_high_of hist) = true
  /\ positive_price (week_52_low_of hist) = true.
Proof.
  intros Hwf Hne. destruct (well_formed_columns hist Hwf) as [Hh [Hl _]].
  assert (Hk : (1 <= Nat.min 252 (List.length (rows hist)))%nat)
    by (destruct (rows hist); [contradiction | cbn; lia]).
  unfold week_52_high_of, week_52_low_of, tail. split.
  - apply max_positive; [now apply all_positive_skipn |].
    apply (tail_nonempty _ _ Hk). intros E. apply map_eq_nil in E. contradiction.
  - apply min_positive; [now apply all_positive_skipn |].
    apply (tail_nonempty _ _ Hk). intros E. apply map_eq_nil in E. contradiction.
Qed.

(** A well-formed history of at least 50 bars yields the snapshot. *)
Lemma calculate_indicators_well_formed (hist : DataFrame) (sym : string) :
  well_formed hist = true -> (50 <= List.length (rows hist))%nat ->
  _calculate_indicators hist sym = snapshot hist sym.
Proof.
  intros Hwf Hlen. rewrite (calculate_indicators_cases hist sym Hlen).
  destruct (week_52_positive hist Hwf) as [Hh Hl].
  { intros E. rewrite E in Hlen. cbn in Hlen. lia. }
  now rewrite (positive_price_nonzero _ Hh), (positive_price_nonzero _ Hl).
Qed.

End WellFormed.

(* ================================================================== *)
(** * The snapshot of a well-formed history                             *)
(* ================================================================== *)

Section WellFormedSnapshot.

Import DataFetcher.

Lemma latest_close_positive (hist : DataFrame) :
  well_formed hist = true -> rows hist <> [] ->
  positive_price (nth (latest hist) (closes hist) NaN) = true.
Proof.
  intros Hwf Hne. destruct (well_formed_columns hist Hwf) as [_ [_ Hc]].
  unfold all_positive in Hc. rewrite Forall_forall in Hc. apply Hc.
  apply nth_In. unfold closes, latest. rewrite length_map.
  destruct (rows hist); [contradiction | cbn; lia].
Qed.

Lemma snapshot_fully_populated (hist : DataFrame) (sym : string) :
  fully_populated (snapshot hist sym) = true.
Proof. reflexivity. Qed.

End WellFormedSnapshot.

(** C6.  A history of exactly 49 bars is answered by the insufficient-data
    error dictionary, which carries the symbol and the error and no
    indicator at all; a well-formed history of exactly 50 bars is answered
    by a dictionary without error in which every indicator is present. *)
Theorem C6_minimum_history (short long : DataFrame) (sym : string) :
  List.length (rows short) = 49%nat ->
  List.length (rows long) = 50%nat ->
  well_formed long = true ->
  DataFetcher._calculate_indicators short sym
    = error_dict sym (ErrText "Insufficient data") /\
  error (DataFetcher._calculate_indicators long sym) = None /\
  fully_populated (DataFetcher._calculate_indicators long sym) = true.
Proof.
  intros Hshort Hlong Hwf. split.
  - apply calculate_indicators_short. lia.
  - rewrite calculate_indicators_well_formed by (assumption || lia).
    split; [reflexivity | apply snapshot_fully_populated].
Qed.

Lemma C6_minimum_history_witness :
  DataFetcher._calculate_indicators (rising_history 49) "RISE"
    = error_dict "RISE" (ErrText "Insufficient data") /\
  error (DataFetcher._calculate_indicators (rising_history 50) "RISE") = None /\
  fully_populated (DataFetcher._calculate_indicators (rising_history 50) "RISE") = true.
Proof.
  apply (C6_minimum_history (rising_history 49) (rising_history 50) "RISE").
  - vm_compute. reflexivity.
  - vm_compute. reflexivity.
  - vm_compute. reflexivity.
Defined.

(* ================================================================== *)
(** * Dictionaries                                                      *)
(* ================================================================== *)

Section Dictionaries.

Context {V : Type}.

Lemma dict_lookup_set_same (k : string) (v : V) (d : Dict.t V) :
  dict_lookup k (Dict.set k v d) = Some v.
Proof.
  induction d as [| [k' v'] d IH]; cbn.
  - now rewrite String.eqb_refl.
  - destruct (String.eqb k k') eqn:E; cbn.
    + now rewrite String.eqb_refl.
    + now rewrite E.
Qed.

Lemma dict_lookup_set_other (k k' : string) (v : V) (d : Dict.t V) :
  k' <> k -> dict_lookup k' (Dict.set k v d) = dict_lookup k' d.
Proof.
  intros Hne. induction d as [| [k0 v0] d IH]; cbn.
  - destruct (String.eqb_spec k' k); [contradiction | reflexivity].
  - destruct (String.eqb_spec k k0) as [-> | Hk]; cbn.
    + destruct (String.eqb_spec k' k0); [contradiction | reflexivity].
    + destruct (String.eqb_spec k' k0); [reflexivity | exact IH].
Qed.

Lemma dict_set_keys_new (k : string) (v : V) (d : Dict.t V) :
  ~ In k (Dict.keys d) -> Dict.keys (Dict.set k v d) = Dict.keys d ++ [k].
Proof.
  induction d as [| [k' v'] d IH]; intros Hnotin; cbn; [reflexivity |].
  destruct (String.eqb_spec k k') as [-> | Hk].
  - exfalso. apply Hnotin. now left.
  - cbn. f_equal. apply IH. intros Hin. apply Hnotin. now right.
Qed.

Lemma dict_set_keys_In (k : string) (v : V) (d : Dict.t V) :
  In k (Dict.keys (Dict.set k v d)).
Proof.
  induction d as [| [k' v'] d IH]; cbn; [now left |].
  destruct (String.eqb_spec k k') as [-> | Hk]; cbn; [now left | now right].
Qed.

Lemma dict_set_keys_mono (k k' : string) (v : V) (d : Dict.t V) :
  In k' (Dict.keys d) -> In k' (Dict.keys (Dict.set k v d)).
Proof.
  induction d as [| [k0 v0] d IH]; cbn; [contradiction |].
  destruct (String.eqb_spec k k0) as [-> | Hk]; cbn; intros [H | H]; auto.
Qed.

Lemma dict_set_values_Forall (P : V -> Prop) (k : string) (v : V) (d : Dict.t V) :
  P v -> Forall P (Dict.values d) -> Forall P (Dict.values (Dict.set k v d)).
Proof.
  intros Hv. induction d as [| [k' v'] d IH]; cbn; intros Hd.
  - repeat constructor. exact Hv.
  - inversion Hd; subst. destruct (String.eqb k k'); cbn; constructor; auto.
Qed.

End Dictionaries.

(* ================================================================== *)
(** * The benchmark cache                                               *)
(* ================================================================== *)

Section BenchmarkCache.

Import SP500Cache.

Lemma get_sp500_data_coherent (st : state) (w : world) :
  cache_coherent st -> cache_coherent (snd (_get_sp500_data st w)).
Proof.
  intros Hst. unfold _get_sp500_data.
  destruct (match sp500_cache st, cache_timestamp st with
            | Some _, Some ts => now w - ts <? one_hour
            | _, _ => false
            end); [exact Hst |].
  destruct (download w) as [[h |] |]; cbn; try exact Hst.
  destruct (empty h) eqn:E; cbn; [exact Hst |].
  unfold cache_coherent. cbn. exact E.
Qed.

Lemma after_calls_coherent (ws : list world) (st : state) :
  cache_coherent st -> cache_coherent (after_calls st ws).
Proof.
  revert st. induction ws as [| w ws IH]; intros st Hst; [exact Hst |].
  cbn. apply IH. now apply get_sp500_data_coherent.
Qed.

End BenchmarkCache.

(** X1.  Whatever calls came before, starting from a new calculator: a frame
    that [_get_sp500_data] answers from the cache has rows and was stamped
    less than an hour before the call; anything else it answers is what the
    download of this very call returned. *)
Theorem sp500_cache_never_stale_or_empty
    (history : list SP500Cache.world) (w : SP500Cache.world) :
  let st := after_calls SP500Cache.init history in
  let answer := fst (SP500Cache._get_sp500_data st w) in
  (exists h ts,
      answer = Some h /\ empty h = false /\
      SP500Cache.sp500_cache st = Some h /\
      SP500Cache.cache_timestamp st = Some ts /\
      SP500Cache.now w - ts < SP500Cache.one_hour /\
      snd (SP500Cache._get_sp500_data st w) = st)
  \/ (SP500Cache.download w = Ok answer)
  \/ (exists e, SP500Cache.download w = Raise e /\ answer = None).
Proof.
  intros st answer.
  assert (Hst : cache_coherent st)
    by (apply after_calls_coherent; exact I).
  unfold answer, SP500Cache._get_sp500_data. unfold cache_coherent in Hst.
  destruct (SP500Cache.sp500_cache st) as [h |] eqn:Hc;
    destruct (SP500Cache.cache_timestamp st) as [ts |] eqn:Ht; try contradiction.
  - destruct (Z.ltb_spec (SP500Cache.now w - ts) SP500Cache.one_hour) as [Hf | Hf].
    + left. exists h, ts. cbn. repeat split; try reflexivity; assumption.
    + right. destruct (SP500Cache.download w) as [[h' |] | e]; cbn.
      * left. destruct (empty h'); reflexivity.
      * left. reflexivity.
      * right. now exists e.
  - right. destruct (SP500Cache.download w) as [[h' |] | e]; cbn.
    + left. destruct (empty h'); reflexivity.
    + left. reflexivity.
    + right. now exists e.
Qed.

(** X2.  A download that brought rows is served again, unchanged and without
    regard to the network, to every call made less than an hour after it
    was stamped. *)
Theorem sp500_cache_round_trip
    (st : SP500Cache.state) (w w' : SP500Cache.world) (h : DataFrame) :
  (forall ts, SP500Cache.cache_timestamp st = Some ts ->
              SP500Cache.one_hour <= SP500Cache.now w - ts) ->
  SP500Cache.download w = Ok (Some h) ->
  empty h = false ->
  SP500Cache.now w' - SP500Cache.stamp w < SP500Cache.one_hour ->
  let st' := snd (SP500Cache._get_sp500_data st w) in
  fst (SP500Cache._get_sp500_data st w) = Some h /\
  SP500Cache._get_sp500_data st' w' = (Some h, st').
Proof.
  intros Hstale Hd Hrows Hfresh.
  assert (Hfirst : SP500Cache._get_sp500_data st w
                   = (Some h, SP500Cache.mkState (Some h) (Some (SP500Cache.stamp w)))).
  { unfold SP500Cache._get_sp500_data.
    destruct (SP500Cache.sp500_cache st) as [c |];
      destruct (SP500Cache.cache_timestamp st) as [ts |];
      try (rewrite Hd; cbn; rewrite Hrows; reflexivity).
    specialize (Hstale ts eq_refl).
    destruct (Z.ltb_spec (SP500Cache.now w - ts) SP500Cache.one_hour); [lia |].
    rewrite Hd. cbn. rewrite Hrows. reflexivity. }
  rewrite Hfirst. cbn. split; [reflexivity |].
  unfold SP500Cache._get_sp500_data. cbn.
  destruct (Z.ltb_spec (SP500Cache.now w' - SP500Cache.stamp w) SP500Cache.one_hour);
    [reflexivity | lia].
Qed.

Lemma sp500_cache_round_trip_witness :
  fst (SP500Cache._get_sp500_data SP500Cache.init
         (SP500Cache.mkWorld 0 5 (Ok (Some C1_sp500)))) = Some C1_sp500 /\
  SP500Cache._get_sp500_data
    (snd (SP500Cache._get_sp500_data SP500Cache.init
            (SP500Cache.mkWorld 0 5 (Ok (Some C1_sp500)))))
    (SP500Cache.mkWorld 3000 3001 (Raise ValueError))
  = (Some C1_sp500,
     snd (SP500Cache._get_sp500_data SP500Cache.init
            (SP500Cache.mkWorld 0 5 (Ok (Some C1_sp500))))).
Proof.
  apply (sp500_cache_round_trip SP500Cache.init
           (SP500Cache.mkWorld 0 5 (Ok (Some C1_sp500)))
           (SP500Cache.mkWorld 3000 3001 (Raise ValueError)) C1_sp500).
  - intros ts Hts. discriminate Hts.
  - reflexivity.
  - reflexivity.
  - vm_compute. reflexivity.
Defined.

(* ================================================================== *)
(** * Short histories and the bands of the scale                        *)
(* ================================================================== *)

Section Alignment.

Import RSRatingCalculator.

Lemma nodup_length_le (l : list Z) :
  (List.length (nodup Z.eq_dec l) <= List.length l)%nat.
Proof.
  induction l as [| a l IH]; [apply Nat.le_refl |].
  cbn. destruct (in_dec Z.eq_dec a l); cbn; lia.
Qed.

Lemma intersection_length_l (a b : list Z) :
  (List.length (intersection a b) <= List.length a)%nat.
Proof.
  unfold intersection.
  pose proof (nodup_length_le (filter (fun d => mem d b) a)).
  pose proof (filter_length_le (fun d => mem d b) a). lia.
Qed.

Lemma intersection_length_r (a b : list Z) :
  (List.length (intersection a b) <= List.length b)%nat.
Proof.
  unfold intersection. apply NoDup_incl_length; [apply NoDup_nodup |].
  intros d Hd. apply nodup_In, filter_In in Hd. destruct Hd as [_ Hd].
  now apply mem_In.
Qed.

Lemma reindex_length (s s' : Series) (labels : list Z) :
  reindex s labels = Ok s' -> List.length s' = List.length labels.
Proof.
  unfold reindex. destruct (has_duplicates (index s)); [discriminate |].
  intros E. injection E as <-. apply length_map.
Qed.

Lemma dropna_length_le (s : Series) : (List.length (dropna s) <= List.length s)%nat.
Proof. apply filter_length_le. Qed.

Lemma index_length (s : Series) : List.length (index s) = List.length s.
Proof. apply length_map. Qed.

(** The aligned series are no longer than either history. *)
Lemma align_length_le (stock sp500 : DataFrame) :
  (List.length (fst (_align_data stock sp500)) <= List.length (rows stock))%nat /\
  (List.length (fst (_align_data stock sp500)) <= List.length (rows sp500))%nat.
Proof.
  unfold _align_data.
  set (common := intersection (index (close_column stock)) (index (close_column sp500))).
  assert (Hl : (List.length common <= List.length (rows stock))%nat).
  { unfold common. rewrite <- (length_map date (rows stock)).
    rewrite !index_close_column. apply intersection_length_l. }
  assert (Hr : (List.length common <= List.length (rows sp500))%nat).
  { unfold common. rewrite <- (length_map date (rows sp500)).
    rewrite !index_close_column. apply intersection_length_r. }
  destruct (List.length common =? 0)%nat; [cbn; lia |].
  destruct (reindex (close_column stock) common) as [s1 |] eqn:E1; [| cbn; lia].
  cbn [bind].
  destruct (reindex (close_column sp500) common) as [s2 |] eqn:E2; [| cbn; lia].
  cbn [bind].
  set (final := intersection (index (dropna s1)) (index (dropna s2))).
  destruct (reindex (dropna s1) final) as [a1 |] eqn:E3; [| cbn; lia].
  cbn [bind].
  destruct (reindex (dropna s2) final) as [a2 |] eqn:E4; [| cbn; lia].
  cbn [bind try_except fst].
  rewrite sort_index_length, (reindex_length _ _ _ E3).
  pose proof (intersection_length_l (index (dropna s1)) (index (dropna s2))) as H1.
  fold final in H1. rewrite index_length in H1.
  pose proof (dropna_length_le s1) as H2.
  rewrite (reindex_length _ _ _ E1) in H2. lia.
Qed.

End Alignment.

(** X3.  A stock with some history and a benchmark that could be fetched, one of
    them with fewer than 63 rows: the rating is the neutral 50, whatever
    the prices are. *)
Theorem short_history_rates_50
    (stock_data : StockData) (hist sp500 : DataFrame) :
  historical_data stock_data = Some hist ->
  rows hist <> [] ->
  (List.length (rows hist) < 63 \/ List.length (rows sp500) < 63)%nat ->
  RSRatingCalculator.calculate_rs_rating stock_data (Some sp500) = 50.
Proof.
  intros Hhist Hne Hshort.
  unfold RSRatingCalculator.calculate_rs_rating. rewrite Hhist.
  unfold empty. destruct (rows hist) eqn:Hrows; [contradiction |].
  rewrite <- Hrows in *.
  pose proof (align_length_le hist sp500) as [Hl Hr].
  destruct (RSRatingCalculator._align_data hist sp500) as [aligned_stock aligned_sp500].
  cbn [fst] in Hl, Hr.
  destruct (Nat.ltb_spec (List.length aligned_stock) 63); [reflexivity | lia].
Qed.

Lemma short_history_rates_50_witness :
  RSRatingCalculator.calculate_rs_rating
    (history_only "NEW" (rising_history 40)) (Some (rising_history 300)) = 50.
Proof.
  apply (short_history_rates_50 _ (rising_history 40) (rising_history 300)).
  - reflexivity.
  - discriminate.
  - left. unfold rising_history. cbn [rows frame_of].
    rewrite length_map, length_seq. lia.
Defined.

(** X4.  The bands of [_convert_to_rs_scale] as its comment lists them, with the
    label [get_rating_description] gives each: 50 and more is rated 90 to 99
    ("Exceptional"), 20 to 50 is rated 80 to 89 ("Strong"), 5 to 20 is rated
    70 to 79 ("Good"), -5 to 5 is rated 50 to 69 ("Average"), below -5 is
    rated 1 to 49 ("Weak").  The ranges are those of the comment, top value
    included: they are what every step of the computation being monotone
    gives, rounding or not. *)
Theorem scale_bands (q : Q) :
  let r := RSRatingCalculator._convert_to_rs_scale (Fin q) in
  let label := RSRatingCalculator.get_rating_description r in
  ((50 <= q)%Q -> 90 <= r <= 99 /\ label = "Exceptional"%string) /\
  ((20 <= q < 50)%Q -> 80 <= r <= 89 /\ label = "Strong"%string) /\
  ((5 <= q < 20)%Q -> 70 <= r <= 79 /\ label = "Good"%string) /\
  ((- (5) <= q < 5)%Q -> 50 <= r <= 69 /\ label = "Average"%string) /\
  ((q < - (5))%Q -> 1 <= r <= 49 /\ label = "Weak"%string).
Proof.
  intros r label.
  assert (Hlabel :
    (90 <= r -> label = "Exceptional"%string) /\
    (80 <= r <= 89 -> label = "Strong"%string) /\
    (70 <= r <= 79 -> label = "Good"%string) /\
    (50 <= r <= 69 -> label = "Average"%string) /\
    (r <= 49 -> label = "Weak"%string)).
  { unfold label, RSRatingCalculator.get_rating_description.
    repeat split; intros H;
      repeat match goal with
             | |- context [?a <=? ?b] => destruct (Z.leb_spec a b); try lia
             end; reflexivity. }
  destruct Hlabel as [L1 [L2 [L3 [L4 L5]]]].
  destruct (scale_cases q)
    as [[Hq E] | [[Hq [E B]] | [[Hq [E B]] | [[Hq [E B]]
        | [[Hq [E B]] | [[Hq [E B]] | [Hq E]]]]]]];
    fold r in E;
    (split; [| split; [| split; [| split]]]); intros Hb; try (exfalso; lra);
    (split; [lia |]);
    (apply L1 || apply L2 || apply L3 || apply L4 || apply L5); lia.
Qed.

Section Batch.

Import SP500Cache.

Lemma pure_rating_in_range (stock_data : StockData) (sp500_data : option DataFrame) :
  1 <= RSRatingCalculator.calculate_rs_rating stock_data sp500_data <= 99.
Proof.
  unfold RSRatingCalculator.calculate_rs_rating, try_except.
  destruct (historical_data stock_data) as [hist |]; [| lia].
  destruct (empty hist); [lia |].
  destruct sp500_data as [sp500 |]; [| lia].
  destruct (RSRatingCalculator._align_data hist sp500) as [a b].
  destruct (List.length a <? 63)%nat; [lia |].
  destruct (RSRatingCalculator.weighted_performances a b);
    [lia | apply convert_to_rs_scale_range].
Qed.

Lemma cached_rating_in_range (st : state) (w : world) (stock_data : StockData) :
  1 <= fst (calculate_rs_rating st w stock_data) <= 99.
Proof.
  unfold calculate_rs_rating.
  destruct (historical_data stock_data) as [hist |]; [| cbn; lia].
  destruct (empty hist); [cbn; lia |].
  destruct (_get_sp500_data st w) as [sp st']. cbn.
  apply pure_rating_in_range.
Qed.

Lemma batch_loop_spec (worlds : nat -> world) (stocks : Dict.t StockData) :
  forall (i : nat) (st : state) (acc : Dict.t Z),
    Forall (fun r => 1 <= r <= 99) (Dict.values acc) ->
    let result := fst (batch_loop worlds i st stocks acc) in
    Forall (fun r => 1 <= r <= 99) (Dict.values result) /\
    (forall sym, In sym (Dict.keys acc ++ Dict.keys stocks) <-> In sym (Dict.keys result)) /\
    (NoDup (Dict.keys acc ++ Dict.keys stocks) ->
     Dict.keys result = Dict.keys acc ++ Dict.keys stocks).
Proof.
  induction stocks as [| [sym sd] stocks IH]; intros i st acc Hacc.
  - cbn. rewrite app_nil_r. repeat split; auto.
  - cbn [batch_loop].
    pose proof (cached_rating_in_range st (worlds i) sd) as Hr.
    destruct (calculate_rs_rating st (worlds i) sd) as [r st']. cbn [fst] in Hr.
    specialize (IH (S i) st' (Dict.set sym r acc)
                  (dict_set_values_Forall _ sym r acc Hr Hacc)).
    cbn zeta in IH. destruct IH as [IH1 [IH2 IH3]].
    cbn zeta. split; [exact IH1 |]. split.
    + intros s. rewrite <- IH2. cbn [Dict.keys map fst].
      fold (Dict.keys stocks). rewrite !in_app_iff. cbn [In]. split.
      * intros [H | [<- | H]]; [left; now apply dict_set_keys_mono
                               | left; apply dict_set_keys_In | now right].
      * intros [H | H]; [| right; now right].
        destruct (string_dec s sym) as [-> | Hne]; [right; now left |].
        left. clear - H Hne. induction acc as [| [k v] acc IHa]; cbn in *.
        -- destruct H as [H | []]. congruence.
        -- destruct (String.eqb_spec sym k) as [-> | Hk]; cbn in H; destruct H as [H | H];
             auto.
    + intros Hnd. cbn [Dict.keys map fst] in Hnd. fold (Dict.keys stocks) in Hnd.
      assert (Hnew : ~ In sym (Dict.keys acc)).
      { apply NoDup_remove_2 in Hnd. intros Hin. apply Hnd, in_or_app. now left. }
      rewrite IH3; rewrite (dict_set_keys_new sym r acc Hnew), <- app_assoc;
        [reflexivity | exact Hnd].
Qed.

End Batch.

(** X6.  A batch of ratings: every rating is between 1 and 99, the symbols rated
    are exactly the symbols given, and they come out in the order given. *)
Theorem batch_ratings_cover_the_input
    (worlds : nat -> SP500Cache.world) (st : SP500Cache.state)
    (stocks_data : Dict.t StockData) :
  NoDup (Dict.keys stocks_data) ->
  let rs_ratings := fst (SP500Cache.calculate_batch_rs_ratings worlds st stocks_data) in
  Dict.keys rs_ratings = Dict.keys stocks_data /\
  Forall (fun r => 1 <= r <= 99) (Dict.values rs_ratings).
Proof.
  intros Hnd.
  destruct (batch_loop_spec worlds stocks_data 0%nat st [] (Forall_nil _))
    as [Hrange [_ Hkeys]].
  split; [now apply Hkeys | exact Hrange].
Qed.

Lemma batch_ratings_witness :
  let worlds := fun _ : nat =>
    SP500Cache.mkWorld 0 0 (Ok (Some (rising_history 70))) in
  let stocks := [("AAA", history_only "AAA" (rising_history 70));
                 ("BBB", empty_dict)]%string in
  Dict.keys (fst (SP500Cache.calculate_batch_rs_ratings worlds SP500Cache.init stocks))
    = ["AAA"; "BBB"]%string /\
  Forall (fun r => 1 <= r <= 99)
    (Dict.values (fst (SP500Cache.calculate_batch_rs_ratings worlds SP500Cache.init stocks))).
Proof.
  apply (batch_ratings_cover_the_input
           (fun _ : nat => SP500Cache.mkWorld 0 0 (Ok (Some (rising_history 70))))
           SP500Cache.init
           [("AAA", history_only "AAA" (rising_history 70)); ("BBB", empty_dict)]%string).
  cbn. repeat constructor; cbn; intuition discriminate.
Defined.

(* ================================================================== *)
(** * More on the verdict                                               *)
(* ================================================================== *)

Section Reasons.

Import MinerviniAnalyzer.

Lemma append_nonempty_r (s t : string) : t <> EmptyString -> (s ++ t)%string <> EmptyString.
Proof.
  intros Ht. destruct s; cbn; [exact Ht | discriminate].
Qed.

Lemma reason_iff_fails (c : Criterion.t) (sd : StockData) (rs_rating : Z) :
  In c (criteria sd rs_rating) ->
  (Criterion.reason c = EmptyString <-> Criterion.passes c = true).
Proof.
  unfold criteria. cbv zeta. cbn [In].
  intros [<- | [<- | [<- | [<- | [<- | [<- | [<- | []]]]]]]].
  - unfold _check_price_above_mas. cbn [Criterion.reason Criterion.passes].
    destruct (fgtb (get (price sd) (Fin 0)) (get (ma_150 sd) (Fin 0)));
      destruct (fgtb (get (price sd) (Fin 0)) (get (ma_200 sd) (Fin 0)));
      cbn; split; intros H; (reflexivity || discriminate).
  - unfold _check_ma_150_above_200. cbn [Criterion.reason Criterion.passes].
    destruct (fgtb (get (ma_150 sd) (Fin 0)) (get (ma_200 sd) (Fin 0)));
      cbn; split; intros H; (reflexivity || discriminate).
  - unfold _check_ma_200_trending_up. cbn [Criterion.reason Criterion.passes].
    destruct (get (ma_200_trending_up sd) false);
      cbn; split; intros H; (reflexivity || discriminate).
  - unfold _check_ma_50_above_others. cbn [Criterion.reason Criterion.passes].
    destruct (fgtb (get (ma_50 sd) (Fin 0)) (get (ma_150 sd) (Fin 0)));
      destruct (fgtb (get (ma_50 sd) (Fin 0)) (get (ma_200 sd) (Fin 0)));
      cbn; split; intros H; (reflexivity || discriminate).
  - unfold _check_above_52w_low. cbn [Criterion.reason Criterion.passes].
    destruct (fgeb (get (from_low_pct sd) (Fin 0)) (Fin 30));
      cbn; split; intros H; (reflexivity || discriminate).
  - unfold _check_near_52w_high. cbn [Criterion.reason Criterion.passes].
    destruct (fleb (fabs (get (from_high_pct sd) (Fin 0))) (Fin 25));
      cbn [negb]; split; intros H; try reflexivity; try discriminate.
    exfalso. revert H. apply append_nonempty_r. discriminate.
  - unfold _check_rs_rating_strong. cbn [Criterion.reason Criterion.passes].
    destruct (70 <=? rs_rating);
      cbn; split; intros H; (reflexivity || discriminate).
Qed.

End Reasons.
Section VerdictFields.

Import MinerviniAnalyzer.

Lemma dict_set_values_In {V : Type} (k : string) (v : V) (d : Dict.t V) :
  In v (Dict.values (Dict.set k v d)).
Proof.
  induction d as [| [k' v'] d IH]; cbn; [now left |].
  destruct (String.eqb k k'); cbn; [now left | now right].
Qed.

Lemma filter_split_length {A : Type} (f : A -> bool) (l : list A) :
  (List.length (filter f l) + List.length (filter (fun x => negb (f x)) l)
   = List.length l)%nat.
Proof.
  induction l as [| a l IH]; [reflexivity |].
  cbn. destruct (f a); cbn; lia.
Qed.

Lemma filter_none {A : Type} (f : A -> bool) (l : list A) :
  (forall x, In x l -> f x = false) -> filter f l = [].
Proof.
  induction l as [| a l IH]; intros H; [reflexivity |].
  cbn. rewrite (H a (or_introl eq_refl)). apply IH.
  intros x Hx. apply H. now right.
Qed.

Lemma criteria_length (sd : StockData) (rs_rating : Z) :
  List.length (criteria sd rs_rating) = 7%nat.
Proof. reflexivity. Qed.

Lemma criteria_split (sd : StockData) (rs_rating : Z) :
  criteria sd rs_rating
  = technical_criteria sd ++ [_check_rs_rating_strong rs_rating].
Proof. reflexivity. Qed.

Lemma note_failure_snoc (c : Criterion.t) (l : list Criterion.t) :
  note_failure c (map Criterion.reason (filter failing l))
  = map Criterion.reason (filter failing (l ++ [c])).
Proof.
  unfold note_failure, failing. rewrite filter_app, map_app. cbn [filter].
  destruct (Criterion.passes c); cbn [negb map]; [now rewrite app_nil_r | reflexivity].
Qed.

Lemma count_passes_from (cs : list Criterion.t) (acc : Z) :
  fold_left (fun a c => a + (if Criterion.passes c then 1 else 0)) cs acc
  = acc + Z.of_nat (List.length (filter Criterion.passes cs)).
Proof.
  revert acc. induction cs as [| c cs IH]; intros acc; cbn [fold_left filter].
  - cbn. lia.
  - rewrite IH. destruct (Criterion.passes c); cbn [List.length]; lia.
Qed.

Lemma count_passes_length (cs : list Criterion.t) :
  count_passes cs = Z.of_nat (List.length (filter Criterion.passes cs)).
Proof. unfold count_passes. now rewrite count_passes_from. Qed.

Lemma all_pass_iff_count (cs : list Criterion.t) :
  all_pass cs = true <-> count_passes cs = Z.of_nat (List.length cs).
Proof.
  rewrite count_passes_length. unfold all_pass.
  pose proof (filter_split_length Criterion.passes cs) as Hsplit. split.
  - intros Hall. rewrite forallb_forall in Hall.
    rewrite (filter_none (fun c => negb (Criterion.passes c)) cs) in Hsplit
      by (intros c Hc; now rewrite (Hall c Hc)).
    cbn in Hsplit. lia.
  - intros Hlen. apply forallb_forall. intros c Hc.
    destruct (Criterion.passes c) eqn:E; [reflexivity |].
    assert (Hin : In c (filter (fun c => negb (Criterion.passes c)) cs))
      by (apply filter_In; split; [assumption | now rewrite E]).
    destruct (filter (fun c => negb (Criterion.passes c)) cs); [contradiction |].
    cbn in Hsplit. lia.
Qed.

Lemma MinerviniAnalyzer_count_app (cs : list Criterion.t) (c : Criterion.t) :
  count_passes (cs ++ [c]) = count_passes cs + (if Criterion.passes c then 1 else 0).
Proof.
  unfold count_passes. rewrite fold_left_app. reflexivity.
Qed.

(** The technical verdict on sufficient data, field by field. *)
Lemma technical_verdict (sd : StockData) :
  sufficient_data sd ->
  let cs := technical_criteria sd in
  let details := combine (firstn 6 (Dict.keys get_criteria_descriptions)) cs in
  analyze_stock sd
  = Verdict.mk (all_pass cs) (map Criterion.reason (filter failing cs))
      (count_passes cs) 6 (Some (count_passes cs)) details
      (Some (_generate_summary details (all_pass cs)))
      (Some (get (symbol sd) "Unknown"%string)) None.
Proof.
  intros Hok. pose proof (validation_passes sd Hok) as Hv.
  unfold validated_fields in Hv. unfold analyze_stock. cbv zeta. rewrite Hv.
  cbn [negb]. unfold technical_criteria. cbv zeta.
  change (@nil string) with (map Criterion.reason (filter failing [])) at 1.
  rewrite !note_failure_snoc. reflexivity.
Qed.

(** The combined verdict on sufficient data, field by field. *)
Lemma combined_verdict (sd : StockData) (rs_rating : Z) :
  sufficient_data sd ->
  let cs := criteria sd rs_rating in
  analyze_with_rs_rating sd rs_rating
  = Verdict.mk (all_pass cs) (map Criterion.reason (filter failing cs))
      (count_passes cs) 7 (Some (count_passes (technical_criteria sd)))
      (combine (Dict.keys get_criteria_descriptions) cs)
      (Some (_generate_summary_with_rs cs (all_pass cs)))
      (Some (get (symbol sd) "Unknown"%string)) (Some rs_rating).
Proof.
  intros Hok. unfold analyze_with_rs_rating. cbv zeta.
  rewrite (technical_verdict sd Hok). cbv zeta.
  cbn [Verdict.details Verdict.fail_reasons Verdict.technical_score Verdict.symbol].
  rewrite note_failure_snoc, <- criteria_split. reflexivity.
Qed.

Lemma combined_verdict_fields (sd : StockData) (rs_rating : Z) :
  sufficient_data sd ->
  let v := analyze_with_rs_rating sd rs_rating in
  let cs := criteria sd rs_rating in
  Verdict.passed v = forallb Criterion.passes cs /\
  Verdict.score v = Z.of_nat (List.length (filter Criterion.passes cs)) /\
  Verdict.fail_reasons v = map Criterion.reason (filter failing cs) /\
  Verdict.details v = combine (Dict.keys get_criteria_descriptions) cs /\
  Verdict.summary v = Some (_generate_summary_with_rs cs (forallb Criterion.passes cs)).
Proof.
  intros Hok. cbv zeta. rewrite (combined_verdict sd rs_rating Hok). cbv zeta.
  cbn [Verdict.passed Verdict.score Verdict.fail_reasons Verdict.details Verdict.summary].
  rewrite count_passes_length. repeat split; reflexivity.
Qed.

(** Criterion 3 failing keeps the verdict from passing and is reported. *)
Lemma rule_3_blocks (sd : StockData) (rs_rating : Z) :
  sufficient_data sd ->
  get (ma_200_trending_up sd) false = false ->
  let v := analyze_with_rs_rating sd rs_rating in
  Verdict.passed v = false /\
  In "200MA not trending up"%string (Verdict.fail_reasons v).
Proof.
  intros Hok Hflag.
  destruct (combined_verdict_fields sd rs_rating Hok) as [Hp [_ [Hr _]]].
  cbv zeta in *. rewrite Hp, Hr. unfold criteria. cbv zeta. rewrite Hflag. split.
  - cbn. now rewrite !andb_false_r.
  - apply in_map_iff.
    exists (_check_ma_200_trending_up false). split; [reflexivity |].
    apply filter_In. split; [| reflexivity]. cbn. tauto.
Qed.

End VerdictFields.

(** X7.  Each of the seven criteria gives an empty reason exactly when it
    passes. *)
Theorem reason_is_empty_iff_criterion_passes
    (sd : StockData) (rs_rating : Z) (c : Criterion.t) :
  In c (criteria sd rs_rating) ->
  (Criterion.reason c = EmptyString <-> Criterion.passes c = true).
Proof. apply reason_iff_fails. Qed.

Lemma reason_is_empty_iff_criterion_passes_witness :
  Criterion.reason (MinerviniAnalyzer._check_rs_rating_strong 65) = EmptyString
  <-> Criterion.passes (MinerviniAnalyzer._check_rs_rating_strong 65) = true.
Proof.
  apply (reason_is_empty_iff_criterion_passes uptrend_data 65).
  cbn. tauto.
Defined.

(** X8.  On sufficient data the failure reasons account for the score: there is
    one reason, never empty, for each of the [7 - score] failing criteria,
    and the verdict passes exactly when no reason is given. *)
Theorem fail_reasons_account_for_score (sd : StockData) (rs_rating : Z) :
  sufficient_data sd ->
  let v := MinerviniAnalyzer.analyze_with_rs_rating sd rs_rating in
  Z.of_nat (List.length (Verdict.fail_reasons v)) + Verdict.score v = 7 /\
  (Verdict.passed v = true <-> Verdict.fail_reasons v = []) /\
  ~ In EmptyString (Verdict.fail_reasons v).
Proof.
  intros Hok.
  destruct (combined_verdict_fields sd rs_rating Hok) as [Hp [Hs [Hr _]]].
  cbv zeta in *. rewrite Hp, Hs, Hr. split; [| split].
  - rewrite length_map.
    pose proof (filter_split_length Criterion.passes (criteria sd rs_rating)) as H.
    unfold failing. rewrite criteria_length in H. lia.
  - split.
    + intros Hall. rewrite forallb_forall in Hall.
      rewrite filter_none; [reflexivity |].
      intros c Hc. unfold failing. now rewrite (Hall c Hc).
    + intros Hnil. apply forallb_forall. intros c Hc.
      destruct (Criterion.passes c) eqn:E; [reflexivity |].
      assert (Hin : In c (filter failing (criteria sd rs_rating)))
        by (apply filter_In; split; [assumption | unfold failing; now rewrite E]).
      apply (in_map Criterion.reason) in Hin. rewrite Hnil in Hin. contradiction.
  - intros Hin. apply in_map_iff in Hin. destruct Hin as [c [Hreason Hc]].
    apply filter_In in Hc. destruct Hc as [Hc Hfail].
    apply (reason_iff_fails c sd rs_rating Hc) in Hreason.
    unfold failing in Hfail. rewrite Hreason in Hfail. discriminate.
Qed.

Lemma fail_reasons_account_for_score_witness :
  let v := MinerviniAnalyzer.analyze_with_rs_rating uptrend_data 65 in
  Z.of_nat (List.length (Verdict.fail_reasons v)) + Verdict.score v = 7 /\
  (Verdict.passed v = true <-> Verdict.fail_reasons v = []) /\
  ~ In EmptyString (Verdict.fail_reasons v).
Proof.
  exact (fail_reasons_account_for_score uptrend_data 65 uptrend_data_sufficient).
Defined.

(** X9.  How the combined analysis extends the technical one on sufficient data:
    the technical analysis scores the six technical criteria out of 6 and
    passes exactly at 6; adding the RS criterion conjoins [rs_rating >= 70]
    to [passed], adds 1 to the score when it holds and appends its reason
    when it does not, and keeps the technical score. *)
Theorem rs_criterion_extends_technical_verdict (sd : StockData) (rs_rating : Z) :
  sufficient_data sd ->
  let t := MinerviniAnalyzer.analyze_stock sd in
  let v := MinerviniAnalyzer.analyze_with_rs_rating sd rs_rating in
  Verdict.max_score t = 6 /\
  0 <= Verdict.score t <= 6 /\
  (Verdict.passed t = true <-> Verdict.score t = 6) /\
  Verdict.passed v = Verdict.passed t && (70 <=? rs_rating) /\
  Verdict.score v = Verdict.score t + (if 70 <=? rs_rating then 1 else 0) /\
  Verdict.fail_reasons v
    = Verdict.fail_reasons t
      ++ (if 70 <=? rs_rating then []
          else [("RS Rating " ++ string_of_Z rs_rating ++ " below 70")%string]) /\
  Verdict.technical_score v = Some (Verdict.score t) /\
  Verdict.max_score v = 7.
Proof.
  intros Hok t v. unfold t, v.
  rewrite (combined_verdict sd rs_rating Hok), (technical_verdict sd Hok). cbv zeta.
  cbn [Verdict.passed Verdict.score Verdict.fail_reasons Verdict.max_score
       Verdict.technical_score].
  set (cs := technical_criteria sd).
  assert (Hlen : List.length cs = 6%nat) by reflexivity.
  pose proof (all_pass_iff_count cs) as Hall. rewrite Hlen in Hall.
  pose proof (count_passes_length cs) as Hcount.
  pose proof (filter_length_le Criterion.passes cs) as Hle.
  rewrite criteria_split. fold cs.
  unfold MinerviniAnalyzer.all_pass in *. rewrite forallb_app, filter_app, map_app.
  rewrite !(MinerviniAnalyzer_count_app cs).
  cbn [forallb filter]. unfold failing at 2.
  unfold MinerviniAnalyzer._check_rs_rating_strong.
  cbn [Criterion.passes Criterion.reason].
  destruct (70 <=? rs_rating); cbn [negb map andb];
    repeat split; try reflexivity; try lia; try apply Hall; try (now rewrite andb_true_r).
Qed.

Lemma rs_criterion_extends_technical_verdict_witness :
  Verdict.passed (MinerviniAnalyzer.analyze_with_rs_rating uptrend_data 65)
  = Verdict.passed (MinerviniAnalyzer.analyze_stock uptrend_data) && (70 <=? 65).
Proof.
  exact (proj1 (proj2 (proj2 (proj2
           (rs_criterion_extends_technical_verdict uptrend_data 65
              uptrend_data_sufficient))))).
Defined.

(** X10.  On sufficient data the keys of [details] are the keys of
    [get_criteria_descriptions] and of [criteria_weights], in that order:
    every criterion reported has its description and its weight. *)
Theorem detail_keys_are_the_described_criteria (sd : StockData) (rs_rating : Z) :
  sufficient_data sd ->
  let v := MinerviniAnalyzer.analyze_with_rs_rating sd rs_rating in
  Dict.keys (Verdict.details v) = Dict.keys get_criteria_descriptions /\
  Dict.keys (Verdict.details v) = Dict.keys criteria_weights /\
  Dict.values (Verdict.details v) = criteria sd rs_rating.
Proof.
  intros Hok.
  destruct (combined_verdict_fields sd rs_rating Hok) as [_ [_ [_ [Hd _]]]].
  cbv zeta in *. rewrite Hd. repeat split; reflexivity.
Qed.

Lemma detail_keys_are_the_described_criteria_witness :
  Dict.keys (Verdict.details (MinerviniAnalyzer.analyze_with_rs_rating uptrend_data 65))
  = Dict.keys get_criteria_descriptions.
Proof.
  exact (proj1 (detail_keys_are_the_described_criteria uptrend_data 65
                  uptrend_data_sufficient)).
Defined.

(** X11.  On sufficient data the summary agrees with the score: the
    all-criteria-passed sentence when the verdict passes, and otherwise the
    count [score/max_score] of criteria passed. *)
Theorem summary_reports_the_score (sd : StockData) (rs_rating : Z) :
  sufficient_data sd ->
  let v := MinerviniAnalyzer.analyze_with_rs_rating sd rs_rating in
  Verdict.summary v
  = Some (if Verdict.passed v
          then "✅ All Minervini criteria passed - Perfect trend template"
          else "⚠️ " ++ string_of_Z (Verdict.score v) ++ "/"
                 ++ string_of_Z (Verdict.max_score v) ++ " criteria passed")%string.
Proof.
  intros Hok. cbv zeta. rewrite (combined_verdict sd rs_rating Hok). cbv zeta.
  cbn [Verdict.passed Verdict.score Verdict.summary Verdict.max_score].
  unfold MinerviniAnalyzer._generate_summary_with_rs.
  destruct (MinerviniAnalyzer.all_pass (criteria sd rs_rating)); [reflexivity |].
  rewrite criteria_length, count_passes_length.
  unfold MinerviniAnalyzer.string_of_nat, MinerviniAnalyzer.count_failed.
  pose proof (filter_split_length Criterion.passes (criteria sd rs_rating)) as H.
  rewrite criteria_length in H.
  replace (7 - List.length (filter (fun c => negb (Criterion.passes c))
                              (criteria sd rs_rating)))%nat
    with (List.length (filter Criterion.passes (criteria sd rs_rating))) by lia.
  reflexivity.
Qed.

Lemma summary_reports_the_score_witness :
  Verdict.summary (MinerviniAnalyzer.analyze_with_rs_rating uptrend_data 65)
  = Some "⚠️ 5/7 criteria passed"%string.
Proof.
  exact (summary_reports_the_score uptrend_data 65 uptrend_data_sufficient).
Defined.

(** X12.  An RS rating below 70 never passes, whatever the stock data hold
    (insufficient data included), and its reason closes the list of failure
    reasons. *)
Theorem weak_rs_rating_never_passes (sd : StockData) (rs_rating : Z) :
  rs_rating < 70 ->
  let v := MinerviniAnalyzer.analyze_with_rs_rating sd rs_rating in
  Verdict.passed v = false /\
  exists earlier,
    Verdict.fail_reasons v
    = earlier ++ [("RS Rating " ++ string_of_Z rs_rating ++ " below 70")%string].
Proof.
  intros Hrs. cbv zeta. unfold MinerviniAnalyzer.analyze_with_rs_rating.
  cbn [Verdict.passed Verdict.fail_reasons]. split.
  - destruct (MinerviniAnalyzer.all_pass _) eqn:Hall; [| reflexivity].
    unfold MinerviniAnalyzer.all_pass in Hall. rewrite forallb_forall in Hall.
    specialize (Hall _ (dict_set_values_In "rs_rating_strong"
                          (MinerviniAnalyzer._check_rs_rating_strong rs_rating)
                          (Verdict.details (MinerviniAnalyzer.analyze_stock sd)))).
    cbn in Hall. apply Z.leb_le in Hall. lia.
  - exists (Verdict.fail_reasons (MinerviniAnalyzer.analyze_stock sd)).
    unfold MinerviniAnalyzer.note_failure, MinerviniAnalyzer._check_rs_rating_strong.
    cbn [Criterion.passes Criterion.reason].
    destruct (Z.leb_spec 70 rs_rating); [lia | reflexivity].
Qed.

Lemma weak_rs_rating_never_passes_witness :
  Verdict.passed (MinerviniAnalyzer.analyze_with_rs_rating penny_stock_data 69) = false.
Proof.
  refine (proj1 (weak_rs_rating_never_passes penny_stock_data 69 _)). lia.
Defined.

(* ================================================================== *)
(** * Missing values in the snapshot                                    *)
(* ================================================================== *)

(** X13.  A NaN among the price, the three moving averages and the two
    percentage offsets passes the validation (NaN is truthy) and then fails
    the verdict: every comparison with it is false. *)
Theorem nan_metric_never_passes (sd : StockData) (rs_rating : Z) :
  sufficient_data sd ->
  In NaN [get (price sd) (Fin 0); get (ma_50 sd) (Fin 0); get (ma_150 sd) (Fin 0);
          get (ma_200 sd) (Fin 0); get (from_low_pct sd) (Fin 0);
          get (from_high_pct sd) (Fin 0)] ->
  Verdict.passed (MinerviniAnalyzer.analyze_with_rs_rating sd rs_rating) = false.
Proof.
  intros Hok Hnan.
  destruct (combined_verdict_fields sd rs_rating Hok) as [Hp _].
  cbv zeta in Hp. rewrite Hp. unfold criteria. cbv zeta.
  cbn [forallb MinerviniAnalyzer._check_price_above_mas
       MinerviniAnalyzer._check_ma_150_above_200
       MinerviniAnalyzer._check_ma_50_above_others
       MinerviniAnalyzer._check_above_52w_low
       MinerviniAnalyzer._check_near_52w_high Criterion.passes].
  assert (Hl : forall x, fgtb NaN x = false) by (intros x; now destruct x).
  assert (Hr : forall x, fgtb x NaN = false) by (intros x; now destruct x).
  cbn [In] in Hnan.
  destruct Hnan as [E | [E | [E | [E | [E | [E | []]]]]]]; rewrite E;
    cbn [fgeb fleb fabs fcompare]; rewrite ?Hl, ?Hr;
    cbn [andb]; rewrite ?andb_false_r; reflexivity.
Qed.

Lemma nan_metric_never_passes_witness :
  Verdict.passed
    (MinerviniAnalyzer.analyze_with_rs_rating
       {| symbol := Some "NAN"%string; error := None;
          price := Some (Fin 150); ma_50 := Some NaN;
          ma_150 := Some (Fin 130); ma_200 := Some (Fin 120);
          week_52_high := Some (Fin 160); week_52_low := Some (Fin 100);
          from_high_pct := Some (Fin (-(62 # 10))); from_low_pct := Some (Fin 50);
          ma_50_trending_up := Some true; ma_150_trending_up := Some true;
          ma_200_trending_up := Some true;
          price_vs_ma_50 := None; price_vs_ma_150 := None; price_vs_ma_200 := None;
          volume := None; avg_volume := None; volume_ratio := None;
          historical_data := None |} 99) = false.
Proof.
  apply nan_metric_never_passes.
  - intros x Hin. cbn in Hin.
    repeat (destruct Hin as [<- | Hin]; [reflexivity |]). contradiction.
  - cbn. tauto.
Defined.

(* ================================================================== *)
(** * More on the indicators                                            *)
(* ================================================================== *)

Section YoungHistories.

Import DataFetcher.

(** With fewer than [m + 20] rows the rolling mean 20 rows back is
    undefined, and the flag is false. *)
Lemma trending_false_short (w m : nat) (l : list float) :
  (List.length l < m + 20)%nat ->
  _is_trending_up (rolling_mean w m l) default_lookback = false.
Proof.
  intros Hlen. unfold _is_trending_up, default_lookback.
  rewrite rolling_mean_length.
  destruct (Nat.ltb_spec (List.length l) (20 + 1)); [reflexivity |].
  rewrite !iloc_neg_rolling by lia. cbn [bind try_except].
  replace (rolling_mean_at w m l (List.length l - (20 + 1))) with NaN
    by (symmetry; apply rolling_mean_at_short; lia).
  cbn [isna is_nan]. now rewrite orb_true_r.
Qed.

Lemma error_dict_insufficient (sym : string) (e : error_value) :
  ~ sufficient_data (error_dict sym e).
Proof.
  intros H. specialize (H (Fin 0)). cbn in H.
  assert (truthy (Fin 0) = true) by (apply H; now left). discriminate.
Qed.

Lemma sufficient_indicators_are_snapshot (hist : DataFrame) (sym : string) :
  sufficient_data (_calculate_indicators hist sym) ->
  _calculate_indicators hist sym = snapshot hist sym.
Proof.
  intros Hok.
  destruct (Nat.lt_ge_cases (List.length (rows hist)) 50) as [Hshort | Hlong].
  - rewrite (calculate_indicators_short hist sym Hshort) in Hok.
    now apply error_dict_insufficient in Hok.
  - rewrite (calculate_indicators_cases hist sym Hlong) in *.
    destruct (is_zero (week_52_high_of hist) || is_zero (week_52_low_of hist));
      [now apply error_dict_insufficient in Hok | reflexivity].
Qed.

End YoungHistories.

(** X14.  A history of fewer than 120 bars cannot pass: its 200-day average has
    no defined value 20 rows back, so the trend flag is false and criterion
    3 fails, whatever its prices and its RS rating. *)
Theorem history_under_120_bars_cannot_pass
    (hist : DataFrame) (sym : string) (rs_rating : Z) :
  (List.length (rows hist) < 120)%nat ->
  sufficient_data (DataFetcher._calculate_indicators hist sym) ->
  let r := DataFetcher._calculate_indicators hist sym in
  let v := MinerviniAnalyzer.analyze_with_rs_rating r rs_rating in
  ma_200_trending_up r = Some false /\
  Verdict.passed v = false /\
  In "200MA not trending up"%string (Verdict.fail_reasons v).
Proof.
  intros Hlen Hok r v.
  assert (Hflag : ma_200_trending_up r = Some false).
  { unfold r. rewrite (sufficient_indicators_are_snapshot hist sym Hok).
    unfold snapshot. cbn [ma_200_trending_up]. f_equal.
    apply trending_false_short. unfold closes. rewrite length_map. lia. }
  split; [exact Hflag |].
  apply rule_3_blocks; [exact Hok |]. fold r. now rewrite Hflag.
Qed.

Lemma history_under_120_bars_witness :
  Verdict.passed
    (MinerviniAnalyzer.analyze_with_rs_rating
       (DataFetcher._calculate_indicators (rising_history 100) "RISE") 99) = false.
Proof.
  refine (proj1 (proj2 (history_under_120_bars_cannot_pass
                          (rising_history 100) "RISE" 99 _ _))).
  - unfold rising_history. cbn [rows frame_of]. rewrite length_map, length_seq. lia.
  - intros x Hin. vm_compute in Hin.
    repeat (destruct Hin as [<- | Hin]; [reflexivity |]). contradiction.
Defined.

Section SymbolMapping.

Import Fetching.

Lemma clean_symbol_cases (symbol : string) :
  (dict_lookup symbol symbol_mapping = None /\ _clean_symbol symbol = symbol) \/
  In (symbol, _clean_symbol symbol) symbol_mapping.
Proof.
  unfold _clean_symbol, symbol_mapping. cbn [dict_lookup].
  repeat match goal with
         | |- context [String.eqb symbol ?k] =>
             destruct (String.eqb_spec symbol k) as [-> | ?];
             [right; cbn; tauto |]
         end.
  left. split; reflexivity.
Qed.

End SymbolMapping.

(** X15.  Cleaning a symbol twice is cleaning it once, and a symbol that is not
    in the mapping is left as it is: no replacement is itself a key of the
    mapping. *)
Theorem clean_symbol_is_idempotent (symbol : string) :
  Fetching._clean_symbol (Fetching._clean_symbol symbol)
    = Fetching._clean_symbol symbol /\
  (dict_lookup symbol Fetching.symbol_mapping = None ->
   Fetching._clean_symbol symbol = symbol).
Proof.
  destruct (clean_symbol_cases symbol) as [[Hnone Hsame] | Hin].
  - split; [now rewrite !Hsame | intros _; exact Hsame].
  - split.
    + cbn in Hin.
      destruct Hin as [E | [E | [E | [E | []]]]]; injection E as _ <-; reflexivity.
    + intros Hnone. cbn in Hin.
      destruct Hin as [E | [E | [E | [E | []]]]]; injection E as <- _;
        vm_compute in Hnone; discriminate.
Qed.

(* ================================================================== *)
(** * Fetching                                                          *)
(* ================================================================== *)

Section FetchOne.

Import Fetching.

Lemma indicators_carry_symbol (hist : DataFrame) (sym : string) :
  symbol (DataFetcher._calculate_indicators hist sym) = Some sym.
Proof.
  destruct (Nat.lt_ge_cases (List.length (rows hist)) 50) as [Hshort | Hlong].
  - now rewrite (calculate_indicators_short hist sym Hshort).
  - rewrite (calculate_indicators_cases hist sym Hlong).
    destruct (is_zero (week_52_high_of hist) || is_zero (week_52_low_of hist));
      reflexivity.
Qed.

(** The retry loop ends with the first history with rows among the three
    attempts, and otherwise with a history without rows, no history or an
    exception. *)
Lemma history_loop_outcome (attempts : nat -> result DataFrame) :
  (exists k h, (k < 3)%nat /\ brings_rows attempts k h /\ none_before attempts k /\
               history_loop attempts 0 max_retries None = Ok (Some h))
  \/ (none_before attempts 3 /\
      (history_loop attempts 0 max_retries None = Ok None
       \/ (exists h, history_loop attempts 0 max_retries None = Ok (Some h)
                     /\ empty h = true)
       \/ exists e, history_loop attempts 0 max_retries None = Raise e)).
Proof.
  unfold max_retries, brings_rows, none_before.
  cbn [history_loop]. unfold max_retries. cbn [Nat.ltb Nat.leb Nat.sub].
  assert (Hlt1 : forall j, (j < 1)%nat -> j = 0%nat) by (intros; lia).
  assert (Hlt2 : forall j, (j < 2)%nat -> j = 0%nat \/ j = 1%nat) by (intros; lia).
  assert (Hlt3 : forall j, (j < 3)%nat -> j = 0%nat \/ j = 1%nat \/ j = 2%nat)
    by (intros; lia).
  (* attempt 0 *)
  destruct (attempts 0%nat) as [h0 | e0] eqn:E0.
  1: destruct (empty h0) eqn:R0; cbn [negb].
  2: { left. exists 0%nat, h0. repeat split; auto. intros j h Hj. lia. }
  (* attempt 1, after an attempt 0 without rows or raising *)
  all: destruct (attempts 1%nat) as [h1 | e1] eqn:E1.
  all: try (destruct (empty h1) eqn:R1; cbn [negb]).
  all: try (left; exists 1%nat, h1; repeat split; auto;
            intros j h Hj Hh; apply Hlt1 in Hj; subst j; congruence).
  (* attempt 2 *)
  all: destruct (attempts 2%nat) as [h2 | e2] eqn:E2.
  all: try (destruct (empty h2) eqn:R2; cbn [negb]).
  all: try (left; exists 2%nat, h2; repeat split; auto;
            intros j h Hj Hh; apply Hlt2 in Hj; destruct Hj; subst j; congruence).
  all: right; split;
    [intros j h Hj Hh; apply Hlt3 in Hj; destruct Hj as [-> | [-> | ->]]; congruence |].
  all: eauto.
Qed.

Lemma fetched_carries_symbol (yahoo : Yahoo) (sym : string) (data : FetchedData) :
  fetch_stock_data yahoo sym = Some data ->
  symbol (indicators_of data) = Some sym.
Proof.
  unfold fetch_stock_data.
  destruct (history_loop (history yahoo (_clean_symbol sym)) 0 max_retries None)
    as [[h |] | e]; cbn [bind try_except]; try discriminate.
  destruct (empty h); [discriminate |].
  intros E. injection E as <-. apply indicators_carry_symbol.
Qed.

End FetchOne.

(** X16.  [fetch_stock_data] answers from the first of its three attempts that
    brings a history with rows, asking for the cleaned symbol and labelling
    the indicators with the symbol as given; it answers [None] exactly when
    none of the three attempts brings rows. *)
Theorem fetch_uses_first_history_with_rows
    (yahoo : Fetching.Yahoo) (symbol0 : string) :
  let attempts := Fetching.history yahoo (Fetching._clean_symbol symbol0) in
  (forall data, Fetching.fetch_stock_data yahoo symbol0 = Some data ->
     exists k h, (k < 3)%nat /\ brings_rows attempts k h /\ none_before attempts k /\
       Fetching.indicators_of data = DataFetcher._calculate_indicators h symbol0 /\
       symbol (Fetching.indicators_of data) = Some symbol0) /\
  (Fetching.fetch_stock_data yahoo symbol0 = None <-> none_before attempts 3).
Proof.
  intros attempts. unfold Fetching.fetch_stock_data. fold attempts.
  destruct (history_loop_outcome attempts)
    as [[k [h [Hk [[Hat Hrows] [Hbefore Hloop]]]]]
       | [Hnone [Hloop | [[h [Hloop Hrows]] | [e Hloop]]]]];
    rewrite Hloop; cbn [bind try_except]; try rewrite Hrows.
  - split.
    + intros data E. injection E as <-. exists k, h.
      cbn [Fetching.indicators_of]. repeat split; try assumption.
      apply indicators_carry_symbol.
    + split; [discriminate |]. intros Hnone.
      rewrite (Hnone k h Hk Hat) in Hrows. discriminate.
  - split; [discriminate | tauto].
  - split; [discriminate | tauto].
  - split; [discriminate | tauto].
Qed.

Section FetchMany.

Import Fetching.

Lemma fetch_loop_spec (yahoo : nat -> Yahoo) (symbols : list string) :
  forall (i : nat) (acc : Dict.t FetchedData),
    Forall (fun kv => symbol (indicators_of (snd kv)) = Some (fst kv)) acc ->
    let results := fetch_loop yahoo i symbols acc in
    Forall (fun kv => symbol (indicators_of (snd kv)) = Some (fst kv)) results /\
    (forall s, In s (Dict.keys acc ++ symbols) <-> In s (Dict.keys results)) /\
    (NoDup (Dict.keys acc ++ symbols) -> Dict.keys results = Dict.keys acc ++ symbols).
Proof.
  induction symbols as [| sym symbols IH]; intros i acc Hacc.
  - cbn. rewrite app_nil_r. repeat split; auto.
  - cbn [fetch_loop].
    set (entry := match fetch_stock_data (yahoo i) sym with
                  | Some data => data
                  | None => no_data sym
                  end).
    assert (Hentry : symbol (indicators_of entry) = Some sym).
    { unfold entry.
      destruct (fetch_stock_data (yahoo i) sym) as [data |] eqn:E; [| reflexivity].
      apply (fetched_carries_symbol (yahoo i) sym data E). }
    replace (match fetch_stock_data (yahoo i) sym with
             | Some data => Dict.set sym data acc
             | None => Dict.set sym (no_data sym) acc
             end) with (Dict.set sym entry acc)
      by (unfold entry; destruct (fetch_stock_data (yahoo i) sym); reflexivity).
    assert (Hacc' : Forall (fun kv => symbol (indicators_of (snd kv)) = Some (fst kv))
                      (Dict.set sym entry acc)).
    { clear - Hacc Hentry. induction acc as [| [k v] acc IHa]; cbn.
      - repeat constructor. exact Hentry.
      - inversion Hacc; subst. destruct (String.eqb sym k); constructor; auto. }
    specialize (IH (S i) (Dict.set sym entry acc) Hacc').
    cbn zeta in IH. destruct IH as [IH1 [IH2 IH3]].
    cbn zeta. split; [exact IH1 |]. split.
    + intros s. rewrite <- IH2. rewrite !in_app_iff. cbn [In]. split.
      * intros [H | [<- | H]]; [left; now apply dict_set_keys_mono
                               | left; apply dict_set_keys_In | now right].
      * intros [H | H]; [| right; now right].
        destruct (string_dec s sym) as [-> | Hne]; [right; now left |].
        left. clear - H Hne. induction acc as [| [k v] acc IHa]; cbn in *.
        -- destruct H as [H | []]. congruence.
        -- destruct (String.eqb_spec sym k) as [-> | Hk]; cbn in H; destruct H as [H | H];
             auto.
    + intros Hnd.
      assert (Hnew : ~ In sym (Dict.keys acc)).
      { apply NoDup_remove_2 in Hnd. intros Hin. apply Hnd, in_or_app. now left. }
      rewrite IH3; rewrite (dict_set_keys_new sym entry acc Hnew), <- app_assoc;
        [reflexivity | exact Hnd].
Qed.

End FetchMany.

(** X17.  A batch fetch drops no symbol and invents none: the results have an
    entry for exactly the symbols asked for, each entry is labelled with the
    symbol it is stored under, and distinct symbols come out in the order
    asked. *)
Theorem batch_fetch_covers_the_symbols
    (yahoo : nat -> Fetching.Yahoo) (symbols : list string) :
  let results := Fetching.fetch_multiple_stocks yahoo symbols in
  (forall s, In s symbols <-> In s (Dict.keys results)) /\
  Forall (fun kv => symbol (Fetching.indicators_of (snd kv)) = Some (fst kv)) results /\
  (NoDup symbols -> Dict.keys results = symbols).
Proof.
  destruct (fetch_loop_spec yahoo symbols 0%nat [] (Forall_nil _)) as [H1 [H2 H3]].
  repeat split; try assumption; try apply H2; try apply H3.
Qed.

(* ================================================================== *)
(** * The price between its extremes                                    *)
(* ================================================================== *)

Section Extremes.

Import DataFetcher.
Local Open Scope Q_scope.

Lemma round_half_even_nonneg (q : Q) : 0 <= q -> (0 <= round_half_even q)%Z.
Proof.
  intros Hq. unfold round_half_even.
  assert (Hf : (0 <= Qfloor q)%Z) by (apply Qfloor_above; exact Hq).
  destruct (q - inject_Z (Qfloor q) ?= 1 # 2); [destruct (Z.even (Qfloor q)) | |]; lia.
Qed.

Lemma round_half_even_nonpos (q : Q) : q <= 0 -> (round_half_even q <= 0)%Z.
Proof.
  intros Hq. unfold round_half_even.
  assert (Hf : (Qfloor q <= 0)%Z).
  { rewrite Zle_Qle. apply Qle_trans with q; [apply Qfloor_le | exact Hq]. }
  destruct (Z.eq_dec (Qfloor q) 0) as [E | E].
  - rewrite E. assert (Hq0 : q == 0).
    { apply Qle_antisym; [exact Hq |]. pose proof (Qfloor_le q) as H. now rewrite E in H. }
    assert (Hc : (q - inject_Z 0 ?= 1 # 2) = Lt).
    { rewrite <- Qlt_alt. unfold inject_Z. lra. }
    rewrite Hc. lia.
  - destruct (q - inject_Z (Qfloor q) ?= 1 # 2); [destruct (Z.even (Qfloor q)) | |]; lia.
Qed.

Lemma pct_from_sign (c e : Q) :
  0 < e ->
  exists p, pct_from (Fin c) (Fin e) = Fin p /\ (c <= e -> p <= 0) /\ (e <= c -> 0 <= p).
Proof.
  intros He. unfold pct_from, np_div, fsub, fadd, fopp, fmul.
  destruct (Qeq_bool e 0) eqn:E; [apply Qeq_bool_iff in E; lra |].
  cbn [py_round]. change (inject_Z (pow10 1)) with (10 # 1).
  eexists. split; [reflexivity |].
  split; intros Hce.
  - assert (Harg : (c + - e) / e * 100 * (10 # 1) <= 0).
    { assert (H : (c + - e) / e <= 0) by (apply Qle_shift_div_r; [exact He | lra]).
      nra. }
    apply round_half_even_nonpos in Harg.
    apply Qle_shift_div_r; [lra |].
    rewrite Zle_Qle in Harg. unfold inject_Z in *. lra.
  - assert (Harg : 0 <= (c + - e) / e * 100 * (10 # 1)).
    { assert (H : 0 <= (c + - e) / e) by (apply Qle_shift_div_l; [exact He | lra]).
      nra. }
    apply round_half_even_nonneg in Harg.
    apply Qle_shift_div_l; [lra |].
    rewrite Zle_Qle in Harg. unfold inject_Z in *. lra.
Qed.

Lemma fleb_refl_positive (x : float) : positive_price x = true -> fleb x x = true.
Proof.
  intros H. destruct (positive_price_inv x H) as [q [-> _]]. apply fleb_Fin. lra.
Qed.

(** The running maximum never drops below what it started from, nor below
    any value it has seen. *)
Lemma fold_max_above_init (xs : list float) :
  all_positive xs -> forall x a,
  positive_price x = true -> positive_price a = true -> fleb a x = true ->
  fleb a (fold_left (fun acc y => if fltb acc y then y else acc) xs x) = true.
Proof.
  induction 1 as [| z xs Hz Hxs IH]; intros x a Hx Ha Hax; [exact Hax |].
  cbn [fold_left]. destruct (fltb x z) eqn:E.
  - apply IH; try assumption.
    destruct (positive_price_inv x Hx) as [qx [-> _]].
    destruct (positive_price_inv z Hz) as [qz [-> _]].
    destruct (positive_price_inv a Ha) as [qa [-> _]].
    apply fleb_Fin in Hax. apply (fgtb_Fin qz qx) in E. apply fleb_Fin. lra.
  - now apply IH.
Qed.

Lemma fold_max_above (xs : list float) :
  all_positive xs -> forall x y,
  positive_price x = true -> In y xs ->
  fleb y (fold_left (fun acc y => if fltb acc y then y else acc) xs x) = true.
Proof.
  induction 1 as [| z xs Hz Hxs IH]; intros x y Hx Hy; [contradiction |].
  cbn [fold_left]. destruct Hy as [<- | Hy].
  - destruct (fltb x z) eqn:E.
    + apply fold_max_above_init; try assumption. now apply fleb_refl_positive.
    + apply fold_max_above_init; try assumption.
      destruct (positive_price_inv x Hx) as [qx [-> _]].
      destruct (positive_price_inv z Hz) as [qz [-> _]].
      apply fleb_Fin. destruct (Qlt_le_dec qx qz) as [Hlt | Hle]; [| exact Hle].
      rewrite (fltb_true qx qz Hlt) in E. discriminate.
  - apply IH; [| exact Hy]. destruct (fltb x z); assumption.
Qed.

Lemma fold_min_below_init (xs : list float) :
  all_positive xs -> forall x a,
  positive_price x = true -> positive_price a = true -> fleb x a = true ->
  fleb (fold_left (fun acc y => if fltb y acc then y else acc) xs x) a = true.
Proof.
  induction 1 as [| z xs Hz Hxs IH]; intros x a Hx Ha Hax; [exact Hax |].
  cbn [fold_left]. destruct (fltb z x) eqn:E.
  - apply IH; try assumption.
    destruct (positive_price_inv x Hx) as [qx [-> _]].
    destruct (positive_price_inv z Hz) as [qz [-> _]].
    destruct (positive_price_inv a Ha) as [qa [-> _]].
    apply fleb_Fin in Hax. apply (fgtb_Fin qx qz) in E. apply fleb_Fin. lra.
  - now apply IH.
Qed.

Lemma fold_min_below (xs : list float) :
  all_positive xs -> forall x y,
  positive_price x = true -> In y xs ->
  fleb (fold_left (fun acc y => if fltb y acc then y else acc) xs x) y = true.
Proof.
  induction 1 as [| z xs Hz Hxs IH]; intros x y Hx Hy; [contradiction |].
  cbn [fold_left]. destruct Hy as [<- | Hy].
  - destruct (fltb z x) eqn:E.
    + apply fold_min_below_init; try assumption. now apply fleb_refl_positive.
    + apply fold_min_below_init; try assumption.
      destruct (positive_price_inv x Hx) as [qx [-> _]].
      destruct (positive_price_inv z Hz) as [qz [-> _]].
      apply fleb_Fin. destruct (Qlt_le_dec qz qx) as [Hlt | Hle]; [| exact Hle].
      rewrite (fltb_true qz qx Hlt) in E. discriminate.
  - apply IH; [| exact Hy]. destruct (fltb z x); assumption.
Qed.

Lemma max_above (l : list float) (y : float) :
  all_positive l -> In y l -> fleb y (Pandas.max l) = true.
Proof.
  intros Hl Hy. unfold Pandas.max. rewrite (dropna_positive l Hl).
  destruct l as [| x xs]; [contradiction |]. inversion Hl; subst.
  destruct Hy as [<- | Hy].
  - apply fold_max_above_init; try assumption. now apply fleb_refl_positive.
  - now apply fold_max_above.
Qed.

Lemma min_below (l : list float) (y : float) :
  all_positive l -> In y l -> fleb (Pandas.min l) y = true.
Proof.
  intros Hl Hy. unfold Pandas.min. rewrite (dropna_positive l Hl).
  destruct l as [| x xs]; [contradiction |]. inversion Hl; subst.
  destruct Hy as [<- | Hy].
  - apply fold_min_below_init; try assumption. now apply fleb_refl_positive.
  - now apply fold_min_below.
Qed.

(** The latest row of a column is among its last [k] rows. *)
Lemma latest_in_tail {A : Type} (k : nat) (l : list A) (d : A) :
  (1 <= k)%nat -> l <> [] -> In (nth (List.length l - 1) l d) (tail k l).
Proof.
  intros Hk Hne. unfold tail.
  assert (Hlen : (0 < List.length l)%nat) by (destruct l; [contradiction | cbn; lia]).
  assert (Hn : (List.length l - k < List.length l)%nat) by lia.
  revert Hn. generalize (List.length l - k)%nat as n. clear Hk.
  induction l as [| x l IH]; intros n Hn; [cbn in Hlen; lia |].
  destruct n as [| n].
  - cbn [skipn]. apply nth_In. cbn [List.length]. lia.
  - cbn [skipn]. cbn [List.length] in *.
    assert (Hl : l <> []) by (intros ->; cbn in Hn; lia).
    assert (Hl' : (0 < List.length l)%nat) by (destruct l; [contradiction | cbn; lia]).
    replace (S (List.length l) - 1)%nat with (S (List.length l - 1)) by lia.
    cbn [nth]. apply IH; try assumption. lia.
Qed.

Lemma latest_bar (hist : DataFrame) (f : Bar -> float) (b0 : Bar) :
  rows hist <> [] ->
  nth (latest hist) (map f (rows hist)) NaN = f (nth (latest hist) (rows hist) b0).
Proof.
  intros Hne. rewrite (nth_indep _ NaN (f b0)).
  - apply map_nth.
  - rewrite length_map. unfold latest. destruct (rows hist); [contradiction | cbn; lia].
Qed.

End Extremes.

(** X18.  For a history of at least 50 well-formed bars whose latest bar closes
    inside its own range, [from_high_pct] is a finite number that is never
    above zero, and [from_low_pct] is never below zero (it is a number or
    plus infinity, never NaN). *)
Theorem price_sits_between_the_extremes
    (hist : DataFrame) (sym : string) (b0 : Bar) :
  well_formed hist = true ->
  (50 <= List.length (rows hist))%nat ->
  closes_in_range (nth (latest hist) (rows hist) b0) = true ->
  exists (hi : Q) (lo : float),
    from_high_pct (DataFetcher._calculate_indicators hist sym) = Some (Fin hi) /\
    from_low_pct (DataFetcher._calculate_indicators hist sym) = Some lo /\
    (hi <= 0)%Q /\ fleb (Fin 0) lo = true.
Proof.
  intros Hwf Hlen Hrange.
  assert (Hne : rows hist <> []) by (intros E; rewrite E in Hlen; cbn in Hlen; lia).
  rewrite (calculate_indicators_well_formed hist sym Hwf Hlen).
  cbn [snapshot from_high_pct from_low_pct].
  destruct (well_formed_columns hist Hwf) as [Hh [Hl Hc]].
  destruct (week_52_positive hist Hwf Hne) as [Hhi Hlo].
  pose proof (latest_close_positive hist Hwf Hne) as Hcp.
  assert (Hk : (1 <= Nat.min 252 (List.length (rows hist)))%nat) by lia.
  set (b := nth (latest hist) (rows hist) b0) in *.
  assert (Hclose : nth (latest hist) (closes hist) NaN = Close b)
    by (apply latest_bar; exact Hne).
  unfold closes_in_range in Hrange. apply andb_prop in Hrange.
  destruct Hrange as [Hlow Hhigh].
  assert (Hb : In b (rows hist)).
  { apply nth_In. unfold latest. destruct (rows hist); [contradiction | cbn; lia]. }
  assert (HinH : In (High b) (tail (Nat.min 252 (List.length (rows hist)))
                                (map High (rows hist)))).
  { unfold b. rewrite <- (latest_bar hist High b0 Hne). unfold latest.
    assert (Hm : map High (rows hist) <> [])
      by (intros E; apply map_eq_nil in E; contradiction).
    pose proof (latest_in_tail (Nat.min 252 (List.length (rows hist)))
                  (map High (rows hist)) NaN Hk Hm) as Hin.
    rewrite length_map in Hin. exact Hin. }
  assert (HinL : In (Low b) (tail (Nat.min 252 (List.length (rows hist)))
                               (map Low (rows hist)))).
  { unfold b. rewrite <- (latest_bar hist Low b0 Hne). unfold latest.
    assert (Hm : map Low (rows hist) <> [])
      by (intros E; apply map_eq_nil in E; contradiction).
    pose proof (latest_in_tail (Nat.min 252 (List.length (rows hist)))
                  (map Low (rows hist)) NaN Hk Hm) as Hin.
    rewrite length_map in Hin. exact Hin. }
  assert (HmaxH : fleb (High b) (week_52_high_of hist) = true).
  { unfold week_52_high_of. apply max_above; [| exact HinH].
    unfold tail. now apply all_positive_skipn. }
  assert (HminL : fleb (week_52_low_of hist) (Low b) = true).
  { unfold week_52_low_of. apply min_below; [| exact HinL].
    unfold tail. now apply all_positive_skipn. }
  rewrite Hclose in *.
  assert (HpH : positive_price (High b) = true).
  { unfold all_positive in Hh. rewrite Forall_forall in Hh. apply Hh. now apply in_map. }
  assert (HpL : positive_price (Low b) = true).
  { unfold all_positive in Hl. rewrite Forall_forall in Hl. apply Hl. now apply in_map. }
  destruct (positive_price_inv _ Hcp) as [c [Ec _]].
  destruct (positive_price_inv _ HpH) as [h [Eh _]].
  destruct (positive_price_inv _ HpL) as [l [El _]].
  destruct (positive_price_inv _ Hhi) as [H52 [EH HposH]].
  destruct (positive_price_inv _ Hlo) as [L52 [EL HposL]].
  rewrite Ec, Eh, El, EH, EL in *.
  apply fleb_Fin in Hlow, Hhigh, HmaxH, HminL.
  destruct (pct_from_sign c H52 HposH) as [hi [Ehi [Hhi_le _]]].
  destruct (pct_from_sign c L52 HposL) as [lo [Elo [_ Hlo_ge]]].
  exists hi, (Fin lo). rewrite Ehi, Elo. repeat split; try reflexivity.
  - apply Hhi_le. lra.
  - apply fleb_Fin. apply Hlo_ge. lra.
Qed.

Lemma price_sits_between_the_extremes_witness :
  exists (hi : Q) (lo : float),
    from_high_pct (DataFetcher._calculate_indicators (rising_history 60) "UP")
      = Some (Fin hi) /\
    from_low_pct (DataFetcher._calculate_indicators (rising_history 60) "UP")
      = Some lo /\
    (hi <= 0)%Q /\ fleb (Fin 0) lo = true.
Proof.
  apply (price_sits_between_the_extremes (rising_history 60) "UP" (bar_at 0 1)).
  - vm_compute. reflexivity.
  - unfold rising_history. cbn [rows frame_of]. rewrite length_map, length_seq. lia.
  - vm_compute. reflexivity.
Defined.

(* ================================================================== *)
(** * The analysis of one symbol                                        *)
(* ================================================================== *)

Section OneSymbol.

Import Fetching App.

Lemma forallb_false_exists {A : Type} (f : A -> bool) (l : list A) :
  forallb f l = false -> exists x, In x l /\ f x = false.
Proof.
  induction l as [| a l IH]; cbn; [discriminate |].
  destruct (f a) eqn:E; cbn.
  - intros H. destruct (IH H) as [x [Hin Hx]]. exists x. auto.
  - intros _. exists a. auto.
Qed.

Lemma data_sufficiency_cases (sd : StockData) :
  sufficient_data sd \/ insufficient_data sd.
Proof.
  destruct (forallb truthy (validated_fields sd)) eqn:E.
  - left. unfold sufficient_data. now apply forallb_forall.
  - right. now apply forallb_false_exists.
Qed.

(** The RS criterion is always among the details, so a verdict that passes
    has a rating of 70 or more. *)
Lemma passing_needs_strong_rs (sd : StockData) (rs_rating : Z) :
  Verdict.passed (MinerviniAnalyzer.analyze_with_rs_rating sd rs_rating) = true ->
  70 <= rs_rating.
Proof.
  unfold MinerviniAnalyzer.analyze_with_rs_rating. cbn [Verdict.passed].
  unfold MinerviniAnalyzer.all_pass. rewrite forallb_forall. intros H.
  specialize (H _ (dict_set_values_In "rs_rating_strong"
                     (MinerviniAnalyzer._check_rs_rating_strong rs_rating)
                     (Verdict.details (MinerviniAnalyzer.analyze_stock sd)))).
  cbn in H. lia.
Qed.

Lemma combined_score_range (sd : StockData) (rs_rating : Z) :
  let v := MinerviniAnalyzer.analyze_with_rs_rating sd rs_rating in
  0 <= Verdict.score v <= 7 /\ Verdict.max_score v = 7 /\
  (Verdict.passed v = true -> Verdict.score v = 7 \/ Verdict.score v = 1).
Proof.
  destruct (data_sufficiency_cases sd) as [Hok | Hins].
  - rewrite (combined_verdict sd rs_rating Hok). cbn [Verdict.score Verdict.max_score
      Verdict.passed].
    rewrite count_passes_length.
    pose proof (filter_length_le Criterion.passes (criteria sd rs_rating)) as Hle.
    rewrite criteria_length in Hle. repeat split; try lia.
    intros Hall. left. apply all_pass_iff_count in Hall.
    rewrite count_passes_length, criteria_length in Hall. exact Hall.
  - destruct (insufficient_data_verdict sd rs_rating Hins) as [Hp [Hs [Hm _]]].
    cbv zeta. rewrite Hp, Hs, Hm.
    destruct (70 <=? rs_rating); repeat split; try lia; auto; discriminate.
Qed.

Lemma serialize_details_of_verdict (sd : StockData) (rs_rating : Z) :
  _serialize_details
    (Verdict.details (MinerviniAnalyzer.analyze_with_rs_rating sd rs_rating))
  = Verdict.details (MinerviniAnalyzer.analyze_with_rs_rating sd rs_rating).
Proof.
  destruct (data_sufficiency_cases sd) as [Hok | Hins].
  - rewrite (combined_verdict sd rs_rating Hok). cbn [Verdict.details].
    unfold criteria, get_criteria_descriptions, _serialize_details, serialize_criterion.
    cbn [Dict.keys map fst combine fold_left snd].
    repeat match goal with
           | |- context [MinerviniAnalyzer._check_price_above_mas ?a ?b ?c] =>
               generalize (MinerviniAnalyzer._check_price_above_mas a b c); intros [? ? ?]
           | |- context [MinerviniAnalyzer._check_ma_150_above_200 ?a ?b] =>
               generalize (MinerviniAnalyzer._check_ma_150_above_200 a b); intros [? ? ?]
           | |- context [MinerviniAnalyzer._check_ma_200_trending_up ?a] =>
               generalize (MinerviniAnalyzer._check_ma_200_trending_up a); intros [? ? ?]
           | |- context [MinerviniAnalyzer._check_ma_50_above_others ?a ?b ?c] =>
               generalize (MinerviniAnalyzer._check_ma_50_above_others a b c); intros [? ? ?]
           | |- context [MinerviniAnalyzer._check_above_52w_low ?a] =>
               generalize (MinerviniAnalyzer._check_above_52w_low a); intros [? ? ?]
           | |- context [MinerviniAnalyzer._check_near_52w_high ?a] =>
               generalize (MinerviniAnalyzer._check_near_52w_high a); intros [? ? ?]
           | |- context [MinerviniAnalyzer._check_rs_rating_strong ?a] =>
               generalize (MinerviniAnalyzer._check_rs_rating_strong a); intros [? ? ?]
           end.
    reflexivity.
  - apply validation_fails in Hins. unfold validated_fields in Hins.
    unfold MinerviniAnalyzer.analyze_with_rs_rating, MinerviniAnalyzer.analyze_stock.
    cbv zeta. rewrite Hins. cbn [negb Verdict.details Dict.set].
    unfold _serialize_details, serialize_criterion. reflexivity.
Qed.

(** What [fetch_stock_data] answers, by what the three attempts bring. *)
Lemma fetch_stock_data_cases (yahoo : Yahoo) (sym : string) :
  (exists k h data,
      (k < 3)%nat /\ brings_rows (history yahoo (_clean_symbol sym)) k h
      /\ none_before (history yahoo (_clean_symbol sym)) k
      /\ fetch_stock_data yahoo sym = Some data
      /\ indicators_of data = DataFetcher._calculate_indicators h sym)
  \/ (none_before (history yahoo (_clean_symbol sym)) 3
      /\ fetch_stock_data yahoo sym = None).
Proof.
  unfold fetch_stock_data.
  destruct (history_loop_outcome (history yahoo (_clean_symbol sym)))
    as [[k [h [Hk [[Hat Hrows] [Hbefore Hloop]]]]]
       | [Hnone [Hloop | [[h [Hloop Hrows]] | [e Hloop]]]]];
    rewrite Hloop; cbn [bind try_except]; try rewrite Hrows.
  - left. eexists k, h, _. repeat split; try eassumption; reflexivity.
  - right. now split.
  - right. now split.
  - right. now split.
Qed.

(** The first attempt that brings rows is unique. *)
Lemma first_rows_unique (attempts : nat -> result DataFrame)
    (k k' : nat) (h h' : DataFrame) :
  brings_rows attempts k h -> none_before attempts k ->
  brings_rows attempts k' h' -> none_before attempts k' ->
  k = k' /\ h = h'.
Proof.
  intros [Ha Hr] Hb [Ha' Hr'] Hb'.
  assert (Hk : k = k').
  { destruct (Nat.lt_trichotomy k k') as [Hlt | [Heq | Hgt]]; [| exact Heq |].
    - rewrite (Hb' k h Hlt Ha) in Hr. discriminate.
    - rewrite (Hb k' h' Hgt Ha') in Hr'. discriminate. }
  subst k'. split; [reflexivity | congruence].
Qed.

Lemma indicators_error_iff_no_snapshot (hist : DataFrame) (sym : string) :
  error (DataFetcher._calculate_indicators hist sym) = None ->
  (50 <= List.length (rows hist))%nat
  /\ DataFetcher._calculate_indicators hist sym = snapshot hist sym.
Proof.
  destruct (Nat.lt_ge_cases (List.length (rows hist)) 50) as [Hshort | Hlong].
  - rewrite (calculate_indicators_short hist sym Hshort). discriminate.
  - rewrite (calculate_indicators_cases hist sym Hlong).
    destruct (is_zero (week_52_high_of hist) || is_zero (week_52_low_of hist));
      [discriminate | auto].
Qed.

End OneSymbol.

(** X19.  A symbol whose three attempts bring no rows, or whose history has fewer
    than 50 rows, is reported as failed with rating 0, no metrics and no
    score, and the benchmark is not asked for: the calculator's cache is left
    as it was. *)
Theorem failed_fetch_is_reported_without_rating
    (yahoo : Fetching.Yahoo) (st : SP500Cache.state) (w : SP500Cache.world)
    (sym : string) :
  none_before (Fetching.history yahoo (Fetching._clean_symbol sym)) 3
  \/ first_history_is_short (Fetching.history yahoo (Fetching._clean_symbol sym)) ->
  exists error_msg,
    App.analyze_single_stock yahoo st w sym
    = (Result.mk sym false (Some error_msg) 0 (DataFetchFailed error_msg)
         None None None None None, st)
    /\ (error_msg = ErrText "No data returned"
        \/ error_msg = ErrText "Insufficient data").
Proof.
  intros Hfail. unfold App.analyze_single_stock, App.fetch_failure.
  destruct (fetch_stock_data_cases yahoo sym)
    as [[k [h [data [Hk [Hrows [Hbefore [Hfetch Hind]]]]]]] | [Hnone Hfetch]];
    rewrite Hfetch.
  - destruct Hfail as [Hnone | [k' [h' [Hk' [Hrows' [Hbefore' Hshort]]]]]].
    + destruct Hrows as [Hat Hr]. rewrite (Hnone k h Hk Hat) in Hr. discriminate.
    + destruct (first_rows_unique _ k k' h h' Hrows Hbefore Hrows' Hbefore')
        as [-> ->].
      cbv zeta. rewrite Hind, (calculate_indicators_short h' sym Hshort).
      cbn [error error_dict]. eexists. split; [reflexivity | now right].
  - eexists. split; [reflexivity | now left].
Qed.

Lemma failed_fetch_is_reported_without_rating_witness :
  exists error_msg,
    App.analyze_single_stock (steady_provider (rising_history 40)) SP500Cache.init
      (SP500Cache.mkWorld 0 0 (Ok (Some (rising_history 300)))) "NEW"
    = (Result.mk "NEW" false (Some error_msg) 0 (DataFetchFailed error_msg)
         None None None None None, SP500Cache.init)
    /\ (error_msg = ErrText "No data returned"
        \/ error_msg = ErrText "Insufficient data").
Proof.
  apply (failed_fetch_is_reported_without_rating
           (steady_provider (rising_history 40)) SP500Cache.init
           (SP500Cache.mkWorld 0 0 (Ok (Some (rising_history 300)))) "NEW").
  right. exists 0%nat, (rising_history 40). split; [lia |].
  split; [split; reflexivity |]. split.
  - intros j h Hj. lia.
  - unfold rising_history. cbn [rows frame_of]. rewrite length_map, length_seq. lia.
Defined.

(** X20.  Whatever the provider answers, the result of [analyze_single_stock]
    carries the symbol asked for and a rating of 0 (not rated) or 1 to 99;
    it reports an error exactly when it has no metrics, and then it has not
    passed and is rated 0; a result that passed has a rating of 70 to 99, a
    score of 7 out of 7 (or 1 out of 7, on data the analyser found
    insufficient) and comes from a history of at least 50 rows, the first
    that an attempt brought. *)
Theorem passing_result_is_backed_by_data
    (yahoo : Fetching.Yahoo) (st : SP500Cache.state) (w : SP500Cache.world)
    (sym : string) :
  let r := fst (App.analyze_single_stock yahoo st w sym) in
  Result.symbol r = sym /\
  (Result.rs_rating r = 0 \/ 1 <= Result.rs_rating r <= 99) /\
  (Result.error r <> None <-> Result.metrics r = None) /\
  (Result.error r <> None -> Result.passed r = false /\ Result.rs_rating r = 0) /\
  (Result.passed r = true ->
     70 <= Result.rs_rating r <= 99 /\
     Result.max_score r = Some 7 /\
     (Result.score r = Some 7 \/ Result.score r = Some 1) /\
     exists k h,
       (k < 3)%nat /\
       brings_rows (Fetching.history yahoo (Fetching._clean_symbol sym)) k h /\
       none_before (Fetching.history yahoo (Fetching._clean_symbol sym)) k /\
       (50 <= List.length (rows h))%nat /\
       Result.details r
       = Some (Verdict.details
                 (MinerviniAnalyzer.analyze_with_rs_rating
                    (snapshot h sym) (Result.rs_rating r)))).
Proof.
  unfold App.analyze_single_stock, App.fetch_failure.
  destruct (fetch_stock_data_cases yahoo sym)
    as [[k [h [data [Hk [Hrows [Hbefore [Hfetch Hind]]]]]]] | [Hnone Hfetch]];
    rewrite Hfetch; cbv zeta.
  - rewrite Hind.
    destruct (error (DataFetcher._calculate_indicators h sym)) as [e |] eqn:Eerr.
    + cbn. repeat split; try (now left); try discriminate; congruence.
    + destruct (indicators_error_iff_no_snapshot h sym Eerr) as [Hlen Hsnap].
      pose proof (cached_rating_in_range st w (DataFetcher._calculate_indicators h sym))
        as Hrange.
      destruct (SP500Cache.calculate_rs_rating st w
                  (DataFetcher._calculate_indicators h sym)) as [rs st'].
      cbn [fst] in Hrange. cbn [fst Result.symbol Result.rs_rating Result.error
        Result.metrics Result.passed Result.max_score Result.score Result.details].
      split; [reflexivity |]. split; [now right |].
      split; [split; [congruence | discriminate] |].
      split; [congruence |].
      intros Hpass.
      pose proof (passing_needs_strong_rs _ _ Hpass) as Hstrong.
      destruct (combined_score_range (DataFetcher._calculate_indicators h sym) rs)
        as [_ [Hmax Hscore]].
      split; [lia |]. split; [now rewrite Hmax |].
      split; [destruct (Hscore Hpass) as [-> | ->]; auto |].
      exists k, h. repeat split; try assumption; try apply Hrows.
      rewrite serialize_details_of_verdict, Hsnap. reflexivity.
  - cbn. repeat split; try (now left); try discriminate; congruence.
Qed.

(* ================================================================== *)
(** * The summary of a run                                              *)
(* ================================================================== *)

Section Summary.

Import App.
Local Open Scope Q_scope.

Lemma round_half_even_le (q : Q) (n : Z) :
  q <= inject_Z n -> (round_half_even q <= n)%Z.
Proof.
  intros Hq. unfold round_half_even.
  assert (Hf : (Qfloor q <= n)%Z).
  { rewrite Zle_Qle. apply Qle_trans with q; [apply Qfloor_le | exact Hq]. }
  destruct (Z.eq_dec (Qfloor q) n) as [E | E].
  - assert (Hc : (q - inject_Z (Qfloor q) ?= 1 # 2) = Lt).
    { rewrite <- Qlt_alt. rewrite E. lra. }
    rewrite Hc. lia.
  - destruct (q - inject_Z (Qfloor q) ?= 1 # 2); [destruct (Z.even (Qfloor q)) | |]; lia.
Qed.

Lemma round_half_even_Z (n : Z) : round_half_even (inject_Z n) = n.
Proof.
  unfold round_half_even. rewrite Qfloor_Z.
  assert (Hc : (inject_Z n - inject_Z n ?= 1 # 2) = Lt).
  { rewrite <- Qlt_alt. lra. }
  now rewrite Hc.
Qed.

Lemma round_half_even_eq (q : Q) (n : Z) : q == inject_Z n -> round_half_even q = n.
Proof.
  intros E. apply Z.le_antisymm.
  - apply round_half_even_le. lra.
  - unfold round_half_even.
    assert (Hf : (n <= Qfloor q)%Z) by (apply Qfloor_above; lra).
    destruct (q - inject_Z (Qfloor q) ?= 1 # 2); [destruct (Z.even (Qfloor q)) | |]; lia.
Qed.

Lemma tenths_range (z : Z) : (0 <= z <= 1000)%Z -> 0 <= inject_Z z / (10 # 1) <= 100.
Proof.
  intros [H0 H1]. rewrite Zle_Qle in H0, H1.
  change (inject_Z 0) with 0 in H0. change (inject_Z 1000) with 1000 in H1.
  split; [apply Qle_shift_div_l | apply Qle_shift_div_r]; lra.
Qed.

End Summary.

(** X21.  The summary of a run never divides by zero: it counts the results and
    those that passed, and its success rate is a percentage between 0 and
    100, which is 0 for an empty run or a run in which nothing passed and
    100 for a run in which everything passed. *)
Theorem success_rate_is_a_percentage (results : list Result.t) :
  exists rate : Q,
    App.summary_statistics results
    = Ok (Z.of_nat (List.length results),
          Z.of_nat (List.length (filter Result.passed results)),
          Fin rate) /\
    (List.length (filter Result.passed results) <= List.length results)%nat /\
    (0 <= rate <= 100)%Q /\
    (filter Result.passed results = [] -> (rate == 0)%Q) /\
    (results <> [] -> filter Result.passed results = results -> (rate == 100)%Q).
Proof.
  pose proof (filter_length_le Result.passed results) as Hle.
  unfold App.summary_statistics, int_truediv.
  set (t := Z.of_nat (List.length results)).
  set (p := Z.of_nat (List.length (filter Result.passed results))).
  assert (Hp : 0 <= p <= t) by (unfold p, t; lia).
  destruct (Z.ltb_spec 0 t) as [Hpos | Hzero].
  - destruct (Z.eqb_spec t 0) as [E | _]; [lia |].
    cbn [bind fmul py_round]. change (inject_Z (pow10 1)) with (10 # 1)%Q.
    eexists. split; [reflexivity |]. split; [exact Hle |].
    assert (Ht : (inject_Z 0 < inject_Z t)%Q) by (rewrite <- Zlt_Qlt; exact Hpos).
    assert (Hp0 : (inject_Z 0 <= inject_Z p)%Q) by (rewrite <- Zle_Qle; lia).
    assert (Hpt : (inject_Z p <= inject_Z t)%Q) by (rewrite <- Zle_Qle; lia).
    change (inject_Z 0) with 0%Q in Ht, Hp0.
    assert (Hr0 : (0 <= inject_Z p / inject_Z t)%Q)
      by (apply Qle_shift_div_l; [exact Ht | lra]).
    assert (Hr1 : (inject_Z p / inject_Z t <= 1)%Q)
      by (apply Qle_shift_div_r; [exact Ht | lra]).
    split; [| split].
    + apply tenths_range. split.
      * apply round_half_even_nonneg. nra.
      * apply round_half_even_le. change (inject_Z 1000) with 1000%Q. nra.
    + intros Hnone. assert (Ep : p = 0%Z) by (unfold p; now rewrite Hnone).
      rewrite Ep.
      rewrite (round_half_even_eq _ 0); [reflexivity |].
      unfold inject_Z at 1 3. unfold Qdiv. lra.
    + intros _ Hall. assert (Ep : p = t) by (unfold p, t; now rewrite Hall).
      rewrite Ep.
      rewrite (round_half_even_eq _ 1000); [reflexivity |].
      unfold inject_Z at 3. field. lra.
  - cbn [bind py_round]. eexists. split; [reflexivity |]. split; [exact Hle |].
    change (round_half_even (0 * inject_Z (pow10 1))) with 0%Z.
    change (inject_Z (pow10 1)) with (10 # 1)%Q.
    assert (Hlen : List.length results = 0%nat) by (unfold t in Hzero; lia).
    split; [split; unfold inject_Z, Qdiv; lra |].
    split; [intros _; reflexivity |].
    intros Hne. destruct results; [contradiction | discriminate].
Qed.

(* ================================================================== *)
(** * The contract of the alignment                                     *)
(* ================================================================== *)

Section AlignedSeries.

Import RSRatingCalculator.

Lemma In_index (s : Series) (d : Z) : In d (index s) <-> exists x, In (d, x) s.
Proof.
  unfold index. rewrite in_map_iff. split.
  - intros [[d' x] [E Hin]]. cbn in E. subst d'. now exists x.
  - intros [x Hin]. now exists (d, x).
Qed.

Lemma intersection_In (a b : list Z) (d : Z) :
  In d (intersection a b) <-> In d a /\ In d b.
Proof.
  unfold intersection. rewrite nodup_In, filter_In, mem_In. reflexivity.
Qed.

Lemma intersection_NoDup (a b : list Z) : NoDup (intersection a b).
Proof. apply NoDup_nodup. Qed.

Lemma has_duplicates_iff_NoDup (l : list Z) : has_duplicates l = false <-> NoDup l.
Proof.
  induction l as [| d l IH]; cbn.
  - split; [constructor | reflexivity].
  - rewrite orb_false_iff, IH. split.
    + intros [Hm Hnd]. constructor; [| exact Hnd].
      intros Hin. apply mem_In in Hin. congruence.
    + intros Hnd. inversion Hnd; subst. split; [| assumption].
      destruct (mem d l) eqn:E; [| reflexivity]. apply mem_In in E. contradiction.
Qed.

Lemma lookup_unique (s : Series) (d : Z) (x : float) :
  NoDup (index s) -> In (d, x) s -> lookup d s = x.
Proof.
  unfold lookup. induction s as [| [d' x'] s IH]; intros Hnd Hin; [contradiction |].
  cbn [find fst]. cbn [index map fst] in Hnd. inversion Hnd as [| ? ? Hnotin Hnd']; subst.
  destruct Hin as [E | Hin].
  - injection E as -> ->. now rewrite Z.eqb_refl.
  - destruct (Z.eqb_spec d' d) as [-> | Hne].
    + exfalso. apply Hnotin. apply In_index. now exists x.
    + now apply IH.
Qed.

Lemma lookup_In (s : Series) (d : Z) :
  In d (index s) -> In (d, lookup d s) s.
Proof.
  unfold lookup. induction s as [| [d' x'] s IH]; intros Hin; [contradiction |].
  cbn [find fst]. destruct (Z.eqb_spec d' d) as [-> | Hne].
  - now left.
  - right. apply IH. destruct Hin as [E | Hin]; [cbn in E; congruence | exact Hin].
Qed.

Lemma index_labelled (f : Z -> float) (labels : list Z) :
  index (map (fun d => (d, f d)) labels) = labels.
Proof. unfold index. rewrite map_map. cbn. apply map_id. Qed.

Lemma index_dropna_NoDup (s : Series) : NoDup (index s) -> NoDup (index (dropna s)).
Proof.
  unfold dropna. induction s as [| [d x] s IH]; intros Hnd; [constructor |].
  cbn [index map fst] in Hnd. inversion Hnd as [| ? ? Hnotin Hnd']; subst.
  cbn [filter snd]. destruct (negb (isna x)).
  - cbn [index map fst]. constructor; [| now apply IH].
    intros Hin. apply Hnotin. apply In_index in Hin. destruct Hin as [y Hy].
    apply filter_In in Hy. apply In_index. exists y. tauto.
  - now apply IH.
Qed.

Lemma In_insert_by_date (p q : Z * float) (s : Series) :
  In q (insert_by_date p s) <-> q = p \/ In q s.
Proof.
  induction s as [| p' s IH]; cbn.
  - intuition congruence.
  - destruct (fst p <? fst p'); cbn; [intuition congruence |].
    rewrite IH. intuition congruence.
Qed.

Lemma In_sort_index (q : Z * float) (s : Series) : In q (sort_index s) <-> In q s.
Proof.
  induction s as [| p s IH]; [reflexivity |].
  change (sort_index (p :: s)) with (insert_by_date p (sort_index s)).
  rewrite In_insert_by_date, IH. cbn. intuition congruence.
Qed.

Lemma index_insert_by_date (p p' : Z * float) (s s' : Series) :
  fst p = fst p' -> index s = index s' ->
  index (insert_by_date p s) = index (insert_by_date p' s').
Proof.
  intros Hp. revert s'. induction s as [| a s IH]; intros [| a' s'] Hs;
    try discriminate; cbn.
  - now rewrite Hp.
  - cbn in Hs. injection Hs as Ha Hs. rewrite Hp, Ha.
    destruct (fst p' <? fst a'); cbn.
    + rewrite Hp, Ha. f_equal. f_equal. exact Hs.
    + rewrite Ha. f_equal. now apply IH.
Qed.

Lemma index_sort_index (s s' : Series) :
  index s = index s' -> index (sort_index s) = index (sort_index s').
Proof.
  revert s'. induction s as [| p s IH]; intros [| p' s'] Hs; try discriminate;
    [reflexivity |].
  cbn in Hs. injection Hs as Hp Hs.
  change (sort_index (p :: s)) with (insert_by_date p (sort_index s)).
  change (sort_index (p' :: s')) with (insert_by_date p' (sort_index s')).
  apply index_insert_by_date; [exact Hp | now apply IH].
Qed.

Lemma insert_by_date_sorted (p : Z * float) (s : Series) :
  StronglySorted Z.lt (index s) -> ~ In (fst p) (index s) ->
  StronglySorted Z.lt (index (insert_by_date p s)).
Proof.
  induction s as [| a s IH]; intros Hs Hnotin; cbn.
  - repeat constructor.
  - cbn [index map] in Hs. inversion Hs as [| ? ? Hs' Hall]; subst.
    destruct (Z.ltb_spec (fst p) (fst a)) as [Hlt | Hge]; cbn [index map].
    + constructor; [exact Hs |]. constructor; [exact Hlt |].
      rewrite Forall_forall in *. intros d Hd. specialize (Hall d Hd). lia.
    + assert (Hne : fst p <> fst a) by (intros E; apply Hnotin; now left).
      constructor.
      * apply IH; [exact Hs' |]. intros Hin. apply Hnotin. now right.
      * rewrite Forall_forall in *. intros d Hd.
        apply In_index in Hd. destruct Hd as [x Hx].
        apply In_insert_by_date in Hx. destruct Hx as [E | Hx].
        -- subst p. cbn in *. lia.
        -- apply Hall. apply In_index. now exists x.
Qed.

Lemma sort_index_sorted (s : Series) :
  NoDup (index s) -> StronglySorted Z.lt (index (sort_index s)).
Proof.
  induction s as [| p s IH]; intros Hnd; [constructor |].
  cbn [index map] in Hnd. inversion Hnd as [| ? ? Hnotin Hnd']; subst.
  change (sort_index (p :: s)) with (insert_by_date p (sort_index s)).
  apply insert_by_date_sorted; [apply IH; exact Hnd' |].
  intros Hin. apply Hnotin. apply In_index in Hin. destruct Hin as [x Hx].
  rewrite In_sort_index in Hx. apply In_index. now exists x.
Qed.

(** What [_align_data] computes when no reindexing is refused: the common
    dates with a value on both sides, each side read at those dates and
    sorted. *)
Lemma align_data_unfolded (stock sp500 : DataFrame) :
  has_duplicates (dates stock) = false ->
  has_duplicates (dates sp500) = false ->
  let side (s other : Series) :=
    dropna (map (fun d => (d, lookup d s)) (intersection (index s) (index other))) in
  let a := side (close_column stock) (close_column sp500) in
  let b := dropna (map (fun d => (d, lookup d (close_column sp500)))
                     (intersection (index (close_column stock))
                                   (index (close_column sp500)))) in
  let final := intersection (index a) (index b) in
  _align_data stock sp500
  = (sort_index (map (fun d => (d, lookup d a)) final),
     sort_index (map (fun d => (d, lookup d b)) final)).
Proof.
  intros Hs Hp. cbv zeta. unfold _align_data, reindex.
  rewrite !index_close_column, Hs, Hp.
  set (common := intersection (dates stock) (dates sp500)).
  assert (Hnd : NoDup common) by apply intersection_NoDup.
  destruct (List.length common =? 0)%nat eqn:E.
  - apply Nat.eqb_eq in E. destruct common; [| discriminate]. reflexivity.
  - cbn [bind].
    assert (Ha : has_duplicates
                   (index (dropna (map (fun d => (d, lookup d (close_column stock)))
                                       common))) = false).
    { apply has_duplicates_iff_NoDup, index_dropna_NoDup. now rewrite index_labelled. }
    assert (Hb : has_duplicates
                   (index (dropna (map (fun d => (d, lookup d (close_column sp500)))
                                       common))) = false).
    { apply has_duplicates_iff_NoDup, index_dropna_NoDup. now rewrite index_labelled. }
    rewrite Ha, Hb. reflexivity.
Qed.

End AlignedSeries.

(** X22.  The two series [_align_data] returns carry the same dates, in strictly
    increasing order; every date is a date of both histories, and each value
    is a close of its history at that date and is not missing.  When neither
    history repeats a date, every date at which both have a close is kept. *)
Theorem aligned_series_share_their_dates (stock sp500 : DataFrame) :
  let a := fst (RSRatingCalculator._align_data stock sp500) in
  let b := snd (RSRatingCalculator._align_data stock sp500) in
  RSRatingCalculator.index a = RSRatingCalculator.index b /\
  StronglySorted Z.lt (RSRatingCalculator.index a) /\
  (forall d, In d (RSRatingCalculator.index a) ->
             In d (dates stock) /\ In d (dates sp500)) /\
  (forall d x, In (d, x) a ->
     isna x = false /\ In (d, x) (RSRatingCalculator.close_column stock)) /\
  (forall d x, In (d, x) b ->
     isna x = false /\ In (d, x) (RSRatingCalculator.close_column sp500)) /\
  (RSRatingCalculator.has_duplicates (dates stock) = false ->
   RSRatingCalculator.has_duplicates (dates sp500) = false ->
   forall d x y,
     In (d, x) (RSRatingCalculator.close_column stock) -> isna x = false ->
     In (d, y) (RSRatingCalculator.close_column sp500) -> isna y = false ->
     In (d, x) a /\ In (d, y) b).
Proof.
  cbv zeta.
  destruct (RSRatingCalculator.has_duplicates (dates stock)) eqn:Hs;
    [| destruct (RSRatingCalculator.has_duplicates (dates sp500)) eqn:Hp].
  1, 2: assert (E : RSRatingCalculator._align_data stock sp500 = ([], [])
                    \/ RSRatingCalculator._align_data stock sp500 = ([], []))
          by (left; unfold RSRatingCalculator._align_data, RSRatingCalculator.reindex;
              rewrite !index_close_column, ?Hs, ?Hp;
              destruct (List.length _ =? 0)%nat; reflexivity);
        destruct E as [E | E]; rewrite E; cbn;
        repeat split; try constructor; try contradiction; try discriminate.
  rewrite (align_data_unfolded stock sp500 Hs Hp). cbv zeta. cbn [fst snd].
  rewrite !index_close_column.
  set (Sc := RSRatingCalculator.close_column stock).
  set (Pc := RSRatingCalculator.close_column sp500).
  set (common := RSRatingCalculator.intersection (dates stock) (dates sp500)).
  set (A := RSRatingCalculator.dropna (map (fun d => (d, RSRatingCalculator.lookup d Sc)) common)).
  set (B := RSRatingCalculator.dropna (map (fun d => (d, RSRatingCalculator.lookup d Pc)) common)).
  set (final := RSRatingCalculator.intersection
                  (RSRatingCalculator.index A) (RSRatingCalculator.index B)).
  assert (HS : NoDup (RSRatingCalculator.index Sc))
    by (unfold Sc; rewrite index_close_column; now apply has_duplicates_iff_NoDup).
  assert (HP : NoDup (RSRatingCalculator.index Pc))
    by (unfold Pc; rewrite index_close_column; now apply has_duplicates_iff_NoDup).
  assert (HA : NoDup (RSRatingCalculator.index A)).
  { apply index_dropna_NoDup. rewrite index_labelled. apply intersection_NoDup. }
  assert (HB : NoDup (RSRatingCalculator.index B)).
  { apply index_dropna_NoDup. rewrite index_labelled. apply intersection_NoDup. }
  assert (HinA : forall d x, In (d, x) A <->
                   In d common /\ x = RSRatingCalculator.lookup d Sc /\ isna x = false).
  { intros d x. unfold A, RSRatingCalculator.dropna. rewrite filter_In, in_map_iff.
    cbn [snd]. rewrite negb_true_iff. split.
    - intros [[d' [E Hin]] Hx]. injection E as -> <-. auto.
    - intros [Hin [-> Hx]]. split; [now exists d | exact Hx]. }
  assert (HinB : forall d y, In (d, y) B <->
                   In d common /\ y = RSRatingCalculator.lookup d Pc /\ isna y = false).
  { intros d y. unfold B, RSRatingCalculator.dropna. rewrite filter_In, in_map_iff.
    cbn [snd]. rewrite negb_true_iff. split.
    - intros [[d' [E Hin]] Hy]. injection E as -> <-. auto.
    - intros [Hin [-> Hy]]. split; [now exists d | exact Hy]. }
  assert (Hcommon : forall d, In d common <-> In d (dates stock) /\ In d (dates sp500))
    by (intros d; apply intersection_In).
  assert (Hfinal : forall d, In d final <->
                     In d (RSRatingCalculator.index A) /\ In d (RSRatingCalculator.index B))
    by (intros d; apply intersection_In).
  assert (Hout : forall (X : RSRatingCalculator.Series) d x,
            NoDup (RSRatingCalculator.index X) ->
            In (d, x) (RSRatingCalculator.sort_index
                         (map (fun d => (d, RSRatingCalculator.lookup d X)) final)) ->
            In d (RSRatingCalculator.index X) ->
            In d final /\ In (d, x) X).
  { intros X d x HX Hin HdX. rewrite In_sort_index, in_map_iff in Hin.
    destruct Hin as [d' [E Hd]]. injection E as -> <-.
    split; [exact Hd | now apply lookup_In]. }
  split; [| split; [| split; [| split; [| split]]]].
  - apply index_sort_index. now rewrite !index_labelled.
  - apply sort_index_sorted. rewrite index_labelled. apply intersection_NoDup.
  - intros d Hd. apply In_index in Hd. destruct Hd as [x Hx].
    rewrite In_sort_index, in_map_iff in Hx. destruct Hx as [d' [E Hd]].
    injection E as -> _. apply Hfinal in Hd. destruct Hd as [Hd _].
    apply In_index in Hd. destruct Hd as [x' Hx']. apply HinA in Hx'.
    apply Hcommon. tauto.
  - intros d x Hin.
    assert (Hd : In d final).
    { rewrite In_sort_index, in_map_iff in Hin. destruct Hin as [d' [E Hd]].
      now injection E as -> _. }
    apply Hfinal in Hd. destruct Hd as [HdA _].
    destruct (Hout A d x HA Hin HdA) as [_ HxA].
    apply HinA in HxA. destruct HxA as [Hc [-> Hx]]. split; [exact Hx |].
    apply lookup_In. unfold Sc. rewrite index_close_column. apply Hcommon in Hc. tauto.
  - intros d y Hin.
    assert (Hd : In d final).
    { rewrite In_sort_index, in_map_iff in Hin. destruct Hin as [d' [E Hd]].
      now injection E as -> _. }
    apply Hfinal in Hd. destruct Hd as [_ HdB].
    destruct (Hout B d y HB Hin HdB) as [_ HyB].
    apply HinB in HyB. destruct HyB as [Hc [-> Hy]]. split; [exact Hy |].
    apply lookup_In. unfold Pc. rewrite index_close_column. apply Hcommon in Hc. tauto.
  - intros _ _ d x y HxS Hx HyP Hy.
    assert (Hc : In d common).
    { apply Hcommon. split.
      - rewrite <- index_close_column. apply In_index. now exists x.
      - rewrite <- index_close_column. apply In_index. now exists y. }
    assert (HxA : In (d, x) A).
    { apply HinA. split; [exact Hc |]. split; [| exact Hx].
      symmetry. now apply lookup_unique. }
    assert (HyB : In (d, y) B).
    { apply HinB. split; [exact Hc |]. split; [| exact Hy].
      symmetry. now apply lookup_unique. }
    assert (Hd : In d final).
    { apply Hfinal. split; apply In_index; eauto. }
    split; rewrite In_sort_index, in_map_iff; exists d; split; try exact Hd; f_equal.
    + now apply lookup_unique.
    + now apply lookup_unique.
Qed.
